(** * database-dumper: the table dump/recover protocol of [main.py]

    A shallow embedding of [main.py] and the properties of its on-disk
    dataset format.

    Conventions of the embedding.
    - A Python [str] is a Rocq [string]; one character stands for one code
      point below 256.  Text files hold the written [str] itself (the
      locale encoding is not modelled); reading applies Python's universal
      newline translation, as [open] does in text mode.
    - The values pymysql and [json.loads] hand to the program are [None],
      [int] and [str] ([value]); a cursor row and a column descriptor are
      dictionaries from names to values ([gmap string value]).
    - The file system is a finite map from resolved paths (lists of
      components) to nodes: regular files and directories only (no
      symbolic links, no permissions); the working directory is the root.
    - Every function that touches the file system or the database runs in
      the monad [M]: it takes the world and returns an outcome (a result or
      the raised exception) together with the world it leaves behind.
    - The database engine, the YAML codec, [json.loads], the order of
      [os.listdir] and the outcome of [connection()] are not code of
      [main.py]: they are the fields of the class [Platform].
    - Console output ([log], [warning], [print]) and the [verbose] argument,
      which only selects what is printed, are left out. *)

From Stdlib Require Import Ascii.
From stdpp Require Import gmap strings list pretty.

Local Open Scope string_scope.
Local Open Scope list_scope.

(** ** Python values and exceptions *)

Inductive value :=
  | VNone
  | VInt (z : Z)
  | VStr (s : string).

Global Instance value_eq_dec : EqDecision value.
Proof. solve_decision. Defined.

(** Python's [str(v)], also what ["{}".format(v)] prints. *)
Definition str (v : value) : string :=
  match v with
  | VNone => "None"
  | VInt z => pretty z
  | VStr s => s
  end.

(** The exception classes of [pymysql.err]. *)
Inductive mysql_class :=
  | InterfaceError | DataError | OperationalError | IntegrityError
  | InternalError | ProgrammingError | NotSupportedError.

Global Instance mysql_class_eq_dec : EqDecision mysql_class.
Proof. solve_decision. Defined.

Inductive exn :=
  | FileExistsError (path : string)
  | FileNotFoundError (path : string)
  | NotADirectoryError (path : string)
  | IsADirectoryError (path : string)
  | OSError (path : string)
  | KeyError (key : string)
  | TypeError
  | JSONDecodeError
  | YAMLError
  | RecoverError (message : string)
  | ConnectionError (message : string)
  | SystemExit (code : nat)
  | MySQLError (cls : mysql_class) (message : string).

Global Instance exn_eq_dec : EqDecision exn.
Proof. solve_decision. Defined.

Inductive outcome (A : Type) :=
  | Ok (a : A)
  | Raise (e : exn).
Arguments Ok {A} a.
Arguments Raise {A} e.

(** ** Strings and paths *)

Definition dquote : string := String "034"%char "".
Definition newline : string := String "010"%char "".

(** [sep.join(l)] *)
Fixpoint str_join (sep : string) (l : list string) : string :=
  match l with
  | [] => ""
  | [x] => x
  | x :: l' => x +:+ sep +:+ str_join sep l'
  end.

Definition is_sep (c : ascii) : bool := bool_decide (c = "/"%char).

Definition startswith_sep (s : string) : bool :=
  match s with
  | String c _ => is_sep c
  | "" => false
  end.

Fixpoint endswith_sep (s : string) : bool :=
  match s with
  | "" => false
  | String c "" => is_sep c
  | String _ s' => endswith_sep s'
  end.

(** [os.path.join(a, b)] of [posixpath]. *)
Definition os_path_join (a b : string) : string :=
  if startswith_sep b then b
  else if bool_decide (a = "") || endswith_sep a then a +:+ b
  else a +:+ "/" +:+ b.

(** [s.split("/")] *)
Fixpoint split_path (s : string) : list string :=
  match s with
  | "" => [""]
  | String c s' =>
      if is_sep c then "" :: split_path s'
      else match split_path s' with
           | [] => [String c ""]
           | h :: t => String c h :: t
           end
  end.

(** One step of path resolution: empty components and [.] stay where they
    are, [..] goes up, a name goes down. *)
Definition resolve_step (stack : list string) (c : string) : list string :=
  if bool_decide (c = "") || bool_decide (c = ".") then stack
  else if bool_decide (c = "..") then removelast stack
  else stack ++ [c].

Definition resolve (path : string) : list string :=
  foldl resolve_step [] (split_path path).

Fixpoint has_sep (s : string) : bool :=
  match s with
  | "" => false
  | String c s' => is_sep c || has_sep s'
  end.

(** A name that is one path component. *)
Definition plain_name (s : string) : bool :=
  negb (has_sep s) && negb (bool_decide (s = "")) &&
  negb (bool_decide (s = ".")) && negb (bool_decide (s = "..")).

(** ** [json.dumps] of a list of strings

    The default encoder: [ensure_ascii] escaping, items separated by a
    comma and a space. *)

Definition hex_digit (n : N) : ascii :=
  match n with
  | 0 => "0" | 1 => "1" | 2 => "2" | 3 => "3" | 4 => "4" | 5 => "5"
  | 6 => "6" | 7 => "7" | 8 => "8" | 9 => "9" | 10 => "a" | 11 => "b"
  | 12 => "c" | 13 => "d" | 14 => "e" | _ => "f"
  end%char%N.

(** The replacement of one character: the short escapes of [ESCAPE_DCT],
    the character itself from space to tilde, a [\u00xx] escape
    otherwise. *)
Definition json_escape_char (c : ascii) : string :=
  let n := N_of_ascii c in
  if bool_decide (c = "034"%char) then "\" +:+ dquote
  else if bool_decide (c = "\"%char) then "\\"
  else if bool_decide (c = "010"%char) then "\n"
  else if bool_decide (c = "013"%char) then "\r"
  else if bool_decide (c = "009"%char) then "\t"
  else if bool_decide (c = "008"%char) then "\b"
  else if bool_decide (c = "012"%char) then "\f"
  else if bool_decide (32 ≤ n)%N && bool_decide (n ≤ 126)%N then String c ""
  else "\u00" +:+ String (hex_digit (n `div` 16)) (String (hex_digit (n `mod` 16)) "").

Fixpoint json_escape (s : string) : string :=
  match s with
  | "" => ""
  | String c s' => json_escape_char c +:+ json_escape s'
  end.

Definition json_string (s : string) : string :=
  dquote +:+ json_escape s +:+ dquote.

Definition json_dumps (l : list string) : string :=
  "[" +:+ str_join ", " (map json_string l) +:+ "]".

(** ** Text files *)

(** Universal newlines: what [open(path).read()] returns for the stored
    characters; CR LF and a lone CR both become LF. *)
Fixpoint universal_newlines (s : string) : string :=
  match s with
  | "" => ""
  | String c s' =>
      if bool_decide (c = "013"%char) then
        match s' with
        | String c' s'' =>
            if bool_decide (c' = "010"%char)
            then String "010"%char (universal_newlines s'')
            else String "010"%char (universal_newlines s')
        | "" => newline
        end
      else String c (universal_newlines s')
  end.

(** The lines a text file object yields when iterated: each keeps its
    terminating LF, the last one may lack it. *)
Fixpoint lines_from (cur : string) (s : string) : list string :=
  match s with
  | "" => if bool_decide (cur = "") then [] else [String.rev cur]
  | String c s' =>
      if bool_decide (c = "010"%char)
      then String.rev (String c cur) :: lines_from "" s'
      else lines_from (String c cur) s'
  end.

Definition file_lines (content : string) : list string :=
  lines_from "" (universal_newlines content).

(** ** The file system *)

Inductive node :=
  | File (content : string)
  | Dir.

Global Instance node_eq_dec : EqDecision node.
Proof. solve_decision. Defined.

Abbreviation fs := (gmap (list string) node).

(** The root always exists and is a directory. *)
Definition fs_node (f : fs) (p : list string) : option node :=
  match p with
  | [] => Some Dir
  | _ => f !! p
  end.

Definition fs_rmtree (f : fs) (p : list string) : fs :=
  filter (λ kv, ¬ p `prefix_of` kv.1) f.

(** The names of the entries of directory [p], in the order of the map. *)
Definition fs_children (f : fs) (p : list string) : list string :=
  omap (λ kv, match last kv.1 with
              | Some name => if bool_decide (removelast kv.1 = p) then Some name else None
              | None => None
              end) (map_to_list f).

(** ** The platform

    What [main.py] imports and calls but does not define.
    - [engine d stmt data]: what [cursor.execute(stmt, data)], the fetch of
      its result set and (for [execute]) [conn.commit()] do on database
      state [d]: the rows or the exception, and the next state.
    - [yaml_dump], [yaml_load]: [yaml.dump] of a list of descriptors and
      [yaml.load]; [None] stands for a document that is not a list of
      mappings.
    - [json_loads]: [json.loads] of a line; [None] stands for a line that is
      not a JSON array of null, integer and string elements.
    - [listdir_order]: the order in which [os.listdir] returns the names.
    - [connection_failure]: the exception [connection()] raises, if any. *)
Class Platform := {
  db : Type;
  engine : db → string → option (list value) → outcome (list (gmap string value)) * db;
  yaml_dump : list (gmap string value) → string;
  yaml_load : string → option (list (gmap string value));
  json_loads : string → option (list value);
  listdir_order : list string → list string;
  connection_failure : option exn
}.

Abbreviation row := (gmap string value).

(** ** The configuration read by [connection()]

    [import config] either fails with an [ImportError] or gives the module
    with its attributes; [pymysql_connect] stands for what
    [pymysql.connect] raises, if anything, for the six settings. *)

Inductive config_module :=
  | NoConfig (message : string)
  | Config (attributes : gmap string value).

Definition missing_attribute (name : string) : string :=
  "module 'config' has no attribute '" +:+ name +:+ "'".

(** Lines 40-64: the exception [connection()] raises, if any. *)
Definition connection_outcome (config : config_module)
    (pymysql_connect : list value → option exn) : option exn :=
  match config with
  | NoConfig e => Some (ConnectionError ("Missing config: " +:+ e))
  | Config configs =>
      let missing name := Some (ConnectionError ("Missing config item: " +:+
                                                 missing_attribute name)) in
      match configs !! "host" with
      | None => missing "host"
      | Some host =>
      match configs !! "port" with
      | None => missing "port"
      | Some port =>
      match configs !! "user" with
      | None => missing "user"
      | Some user =>
      match configs !! "password" with
      | None => missing "password"
      | Some password =>
      match configs !! "database" with
      | None => missing "database"
      | Some database =>
      match configs !! "charset" with
      | None => missing "charset"
      | Some charset =>
          pymysql_connect [host; port; user; password; database; charset]
      end end end end end end
  end.

Section Program.
Context `{P : Platform}.

(** ** The world and the monad *)

(** [w_sent] records every statement handed to the driver, with its
    parameters, in order; it is specification state. *)
Record world := World {
  w_fs : fs;
  w_db : db;
  w_sent : list (string * option (list value))
}.

Definition M (A : Type) : Type := world → outcome A * world.

Global Instance M_ret : MRet M := λ A a w, (Ok a, w).
Global Instance M_bind : MBind M := λ A B k m w,
  match m w with
  | (Ok a, w') => k a w'
  | (Raise e, w') => (Raise e, w')
  end.

Definition raise {A} (e : exn) : M A := λ w, (Raise e, w).

(** [try: body / except <class matched by handles>: handler] *)
Definition try_except {A} (body : M A) (handles : exn → bool)
    (handler : exn → M A) : M A := λ w,
  match body w with
  | (Raise e, w') => if handles e then handler e w' else (Raise e, w')
  | r => r
  end.

(** [for x in l: body(x)] *)
Fixpoint for_each {A} (l : list A) (body : A → M unit) : M unit :=
  match l with
  | [] => mret tt
  | x :: l' => body x ;; for_each l' body
  end.

Definition set_fs (f : fs) (w : world) : world :=
  World f (w_db w) (w_sent w).

(** ** File system calls *)

Definition os_path_isdir (path : string) : M bool := λ w,
  (Ok (bool_decide (fs_node (w_fs w) (resolve path) = Some Dir)), w).

Definition os_path_isfile (path : string) : M bool := λ w,
  (Ok (match fs_node (w_fs w) (resolve path) with
       | Some (File _) => true
       | _ => false
       end), w).

Definition os_mkdir (path : string) : M unit := λ w,
  let p := resolve path in
  match fs_node (w_fs w) p with
  | Some _ => (Raise (FileExistsError path), w)
  | None =>
      match fs_node (w_fs w) (removelast p) with
      | Some Dir => (Ok tt, set_fs (<[p := Dir]> (w_fs w)) w)
      | Some (File _) => (Raise (NotADirectoryError path), w)
      | None => (Raise (FileNotFoundError path), w)
      end
  end.

(** [shutil.rmtree(path)]; on the root it empties it and then fails. *)
Definition shutil_rmtree (path : string) : M unit := λ w,
  let p := resolve path in
  match fs_node (w_fs w) p with
  | Some Dir =>
      (match p with [] => Raise (OSError path) | _ => Ok tt end,
       set_fs (fs_rmtree (w_fs w) p) w)
  | Some (File _) => (Raise (NotADirectoryError path), w)
  | None => (Raise (FileNotFoundError path), w)
  end.

Definition os_remove (path : string) : M unit := λ w,
  let p := resolve path in
  match fs_node (w_fs w) p with
  | Some (File _) => (Ok tt, set_fs (delete p (w_fs w)) w)
  | Some Dir => (Raise (IsADirectoryError path), w)
  | None => (Raise (FileNotFoundError path), w)
  end.

Definition os_listdir (path : string) : M (list string) := λ w,
  let p := resolve path in
  match fs_node (w_fs w) p with
  | Some Dir => (Ok (listdir_order (fs_children (w_fs w) p)), w)
  | Some (File _) => (Raise (NotADirectoryError path), w)
  | None => (Raise (FileNotFoundError path), w)
  end.

(** [open(path, "w")]: creates the file or truncates it. *)
Definition open_w (path : string) : M unit := λ w,
  let p := resolve path in
  match fs_node (w_fs w) p with
  | Some Dir => (Raise (IsADirectoryError path), w)
  | Some (File _) => (Ok tt, set_fs (<[p := File ""]> (w_fs w)) w)
  | None =>
      match fs_node (w_fs w) (removelast p) with
      | Some Dir => (Ok tt, set_fs (<[p := File ""]> (w_fs w)) w)
      | Some (File _) => (Raise (NotADirectoryError path), w)
      | None => (Raise (FileNotFoundError path), w)
      end
  end.

(** [f.write(s)] on the file opened at [path]; only a [str] can be
    written. *)
Definition file_write (path : string) (v : value) : M unit := λ w,
  match v with
  | VStr s =>
      match w_fs w !! resolve path with
      | Some (File c) => (Ok tt, set_fs (<[resolve path := File (c +:+ s)]> (w_fs w)) w)
      | _ => (Raise (OSError path), w)
      end
  | _ => (Raise TypeError, w)
  end.

(** The characters stored at [path], as [open(path)] finds them. *)
Definition open_r (path : string) : M string := λ w,
  match fs_node (w_fs w) (resolve path) with
  | Some (File c) => (Ok c, w)
  | Some Dir => (Raise (IsADirectoryError path), w)
  | None => (Raise (FileNotFoundError path), w)
  end.

(** [with open(path) as f: f.read()] *)
Definition file_read (path : string) : M string :=
  c ← open_r path; mret (universal_newlines c).

(** [with open(path) as f: for line in f] *)
Definition file_readlines (path : string) : M (list string) :=
  c ← open_r path; mret (file_lines c).

(** ** Database calls *)

(** [cursor.execute(stmt, data)] followed by [cursor.fetchall()]. *)
Definition cursor_execute (stmt : string) (data : option (list value)) : M (list row) := λ w,
  let '(r, d) := engine (w_db w) stmt data in
  (r, World (w_fs w) d (w_sent w ++ [(stmt, data)])).

(** [connection()] *)
Definition connection : M unit :=
  match connection_failure with
  | Some e => raise e
  | None => mret tt
  end.

(** [error(message)]: prints and exits with status 1. *)
Definition error {A} (e : exn) : M A := raise (SystemExit 1).

(** [execute(conn, stmt, data)] *)
Definition execute (stmt : string) (data : option (list value)) : M unit :=
  cursor_execute stmt data ;; mret tt.

(** [d[k]] *)
Definition getitem (d : row) (k : string) : M value :=
  match d !! k with
  | Some v => mret v
  | None => raise (KeyError k)
  end.

(** [d[k]] for a key that is itself a value: the keys of a cursor row are
    strings. *)
Definition getitem_value (d : row) (k : value) : M value :=
  match k with
  | VStr s => getitem d s
  | _ => raise (KeyError (str k))
  end.

Definition get_table_names : M (list value) :=
  rows ← cursor_execute "show tables" None;
  mret (List.concat (map (λ r : row, (map_to_list r).*2) rows)).

Definition get_create_table_stmt (table_name : string) : M value :=
  rows ← cursor_execute ("show create table " +:+ table_name) None;
  match rows with
  | result :: _ => getitem result "Create Table"
  | [] => raise TypeError
  end.

Definition get_columns (table_name : string) : M (list row) :=
  cursor_execute ("desc " +:+ table_name) None.

Definition get_rows (table_name : string) : M (list row) :=
  cursor_execute ("select * from " +:+ table_name) None.

(** ** The program *)

Definition LONG_COLUMN : list string := ["text"; "mediumtext"; "longtext"].

(** [v in l] for a list of [str]: equality with one of its elements. *)
Definition value_in (v : value) (l : list string) : bool :=
  match v with
  | VStr s => bool_decide (s ∈ l)
  | _ => false
  end.

Definition drop_table_if_exists (table_name : string) : M unit :=
  try_except (execute ("DROP TABLE " +:+ table_name) None)
    (λ e, match e with MySQLError InternalError _ => true | _ => false end)
    (λ e, match e with
          | MySQLError _ message =>
              match String.index 0 "Unknown table " message with
              | Some _ => mret tt
              | None => raise e
              end
          | _ => raise e
          end).

(** Lines 143-148: the sidecar directories. *)
Definition dump_column_dirs (table_dir : string) (columns : list row) : M unit :=
  for_each columns (λ column,
    ty ← getitem column "Type";
    if value_in ty LONG_COLUMN then
      field ← getitem column "Field";
      os_mkdir (os_path_join table_dir ("column_" +:+ str field))
    else mret tt).

(** Lines 156-164: the cells of row [i], appended to [text_list]. *)
Fixpoint dump_cells (table_dir : string) (i : nat) (r : row)
    (columns : list row) (text_list : list string) : M (list string) :=
  match columns with
  | [] => mret text_list
  | column :: columns' =>
      ty ← getitem column "Type";
      if value_in ty LONG_COLUMN then
        field ← getitem column "Field";
        let path := os_path_join (os_path_join table_dir ("column_" +:+ str field))
                      (pretty i +:+ ".txt") in
        open_w path;;
        key ← getitem column "Field";
        v ← getitem_value r key;
        file_write path (VStr (str v));;
        dump_cells table_dir i r columns' (text_list ++ ["_"])
      else
        key ← getitem column "Field";
        v ← getitem_value r key;
        dump_cells table_dir i r columns' (text_list ++ [str v])
  end.

(** Lines 149-165: the loop over [enumerate(get_rows(...))], from index
    [i], appending to [rows]. *)
Fixpoint dump_rows (table_dir : string) (columns : list row) (i : nat)
    (rs : list row) (rows : string) : M string :=
  match rs with
  | [] => mret rows
  | r :: rs' =>
      text_list ← dump_cells table_dir i r columns [];
      dump_rows table_dir columns (S i) rs' (rows +:+ json_dumps text_list +:+ newline)
  end.

Definition dump_table (table_dir table_name : string) : M unit :=
  os_mkdir table_dir;;
  open_w (os_path_join table_dir "create_table.sql");;
  stmt ← get_create_table_stmt table_name;
  file_write (os_path_join table_dir "create_table.sql") stmt;;
  open_w (os_path_join table_dir "desc_table.yaml");;
  columns ← get_columns table_name;
  file_write (os_path_join table_dir "desc_table.yaml") (VStr (yaml_dump columns));;
  dump_column_dirs table_dir columns;;
  rs ← get_rows table_name;
  rows ← dump_rows table_dir columns 0 rs "";
  open_w (os_path_join table_dir "rows.txt");;
  file_write (os_path_join table_dir "rows.txt") (VStr rows).

Definition is_ConnectionError (e : exn) : bool :=
  match e with ConnectionError _ => true | _ => false end.

(** Lines 172-179 of [dump]: the dataset root is removed and created. *)
Definition dump_prepare (data_dir : string) : M unit :=
  isdir ← os_path_isdir data_dir;
  (if isdir : bool then shutil_rmtree data_dir
   else
     isfile ← os_path_isfile data_dir;
     if isfile : bool then os_remove data_dir else mret tt : M unit);;
  os_mkdir data_dir.

(** The loop of [dump]; [os.path.join] accepts only a [str]. *)
Definition dump_tables (data_dir : string) : M unit :=
  tables ← get_table_names;
  for_each tables (λ table,
    match table with
    | VStr name => dump_table (os_path_join data_dir name) name
    | _ => raise TypeError
    end).

Definition dump (data_dir : string) : M unit :=
  dump_prepare data_dir;;
  try_except (connection;; dump_tables data_dir) is_ConnectionError error.

(** Lines 212-221: the placeholders and the positions of the long
    columns, from position [i] on. *)
Fixpoint check_columns (i : nat) (columns : list row)
    (placeholders : list string) (bigDataFlags : gmap nat string)
    : M (list string * gmap nat string) :=
  match columns with
  | [] => mret (placeholders, bigDataFlags)
  | column :: columns' =>
      ty ← getitem column "Type";
      if value_in ty LONG_COLUMN then
        field ← getitem column "Field";
        check_columns (S i) columns' (placeholders ++ ["%s"])
          (<[i := "column_" +:+ str field]> bigDataFlags)
      else check_columns (S i) columns' (placeholders ++ ["%s"]) bigDataFlags
  end.

Definition insert_stmt (table_name : string) (placeholders : list string) : string :=
  "INSERT INTO " +:+ table_name +:+ " VALUE (" +:+ str_join ", " placeholders +:+ ")".

(** Lines 232-238: [pending] is what [enumerate(data)] has still to
    yield, from position [i]; [data] is the list being overwritten. *)
Fixpoint decode_row (table_dir : string) (bigDataFlags : gmap nat string)
    (lineNumber i : nat) (pending data : list value) : M (list value) :=
  match pending with
  | [] => mret data
  | v :: pending' =>
      x ← match bigDataFlags !! i with
          | Some column_dir =>
              c ← file_read (os_path_join (os_path_join table_dir column_dir)
                               (pretty lineNumber +:+ ".txt"));
              mret (VStr c)
          | None => mret v
          end;
      decode_row table_dir bigDataFlags lineNumber (S i) pending' (<[i := x]> data)
  end.

Definition json_loads_line (line : string) : M (list value) :=
  match json_loads line with
  | Some data => mret data
  | None => raise JSONDecodeError
  end.

(** Lines 231-239: one line of [rows.txt]. *)
Definition recover_line (table_dir : string) (bigDataFlags : gmap nat string)
    (stmt : string) (lineNumber : nat) (line : string) : M unit :=
  data ← json_loads_line line;
  data' ← decode_row table_dir bigDataFlags lineNumber 0 data data;
  execute stmt (Some data').

(** Lines 225-240: the loop over the lines, from [lineNumber]. *)
Fixpoint recover_lines (table_dir : string) (bigDataFlags : gmap nat string)
    (stmt : string) (lineNumber : nat) (lines : list string) : M unit :=
  match lines with
  | [] => mret tt
  | line :: lines' =>
      recover_line table_dir bigDataFlags stmt lineNumber line;;
      recover_lines table_dir bigDataFlags stmt (S lineNumber) lines'
  end.

Definition not_a_directory (path : string) : exn :=
  RecoverError (dquote +:+ path +:+ dquote +:+ " is not a directory").

Definition yaml_load_text (text : string) : M (list row) :=
  match yaml_load text with
  | Some columns => mret columns
  | None => raise YAMLError
  end.

Definition recover_table (table_dir table_name : string) : M unit :=
  isdir ← os_path_isdir table_dir;
  if negb isdir then raise (not_a_directory table_dir)
  else
    drop_table_if_exists table_name;;
    sql ← file_read (os_path_join table_dir "create_table.sql");
    execute sql None;;
    text ← file_read (os_path_join table_dir "desc_table.yaml");
    columns ← yaml_load_text text;
    '(placeholders, bigDataFlags) ← check_columns 0 columns [] ∅;
    lines ← file_readlines (os_path_join table_dir "rows.txt");
    recover_lines table_dir bigDataFlags (insert_stmt table_name placeholders) 0 lines.

(** The loop of [recover]. *)
Definition recover_tables (data_dir : string) : M unit :=
  tables ← os_listdir data_dir;
  for_each tables (λ table, recover_table (os_path_join data_dir table) table).

Definition recover (data_dir : string) : M unit :=
  isdir ← os_path_isdir data_dir;
  if negb isdir then raise (not_a_directory data_dir)
  else try_except (connection;; recover_tables data_dir) is_ConnectionError error.

(** Lines 264-272: the command; the elapsed time it prints is left out. *)
Definition main (action : string) : M unit :=
  if bool_decide (action = "dump") then dump "data"
  else if bool_decide (action = "recover") then recover "data"
  else mret tt.

End Program.

(** ** A reference platform

    A small database engine, a YAML codec for descriptors and a JSON array
    reader, enough to run the program on concrete data.  The engine keeps
    its tables in creation order and understands the statements the
    program sends; a missing table is reported in the way MySQL and
    pymysql report it to the program ([InternalError] 1051 for [DROP
    TABLE], [ProgrammingError] 1146 otherwise).  A descriptor carries the
    two keys the program reads, [Field] and [Type]. *)
Module Reference.

Fixpoint strip_prefix (p s : string) : option string :=
  match p, s with
  | "", _ => Some s
  | String a p', String b s' =>
      if bool_decide (a = b) then strip_prefix p' s' else None
  | _, "" => None
  end.

(** [s.split(sep, 1)] when [sep] occurs in [s]. *)
Fixpoint split_once (sep s : string) : option (string * string) :=
  match strip_prefix sep s with
  | Some rest => Some ("", rest)
  | None =>
      match s with
      | "" => None
      | String c s' =>
          match split_once sep s' with
          | Some (a, b) => Some (String c a, b)
          | None => None
          end
      end
  end.

Fixpoint split_all (fuel : nat) (sep s : string) : list string :=
  match fuel with
  | O => [s]
  | S fuel' =>
      match split_once sep s with
      | Some (a, b) => a :: split_all fuel' sep b
      | None => [s]
      end
  end.

Fixpoint parse_digits (acc : Z) (s : string) : option Z :=
  match s with
  | "" => Some acc
  | String c s' =>
      match Ascii.is_nat c with
      | Some d => parse_digits (10 * acc + Z.of_nat d)%Z s'
      | None => None
      end
  end.

Definition parse_int (s : string) : option Z :=
  match s with
  | "" => None
  | String "-" s' => if bool_decide (s' = "") then None else Z.opp <$> parse_digits 0 s'
  | _ => parse_digits 0 s
  end.

Record table := Table {
  t_create : string;
  t_columns : list (string * string);
  t_rows : list row
}.

Definition descriptor (c : string * string) : row :=
  {[ "Field" := VStr c.1; "Type" := VStr c.2 ]}.

Fixpoint find_table (name : string) (d : list (string * table)) : option table :=
  match d with
  | [] => None
  | (n, t) :: d' => if bool_decide (n = name) then Some t else find_table name d'
  end.

Definition remove_table (name : string) (d : list (string * table)) : list (string * table) :=
  filter (λ nt, nt.1 ≠ name) d.

Fixpoint update_table (name : string) (t : table) (d : list (string * table))
    : list (string * table) :=
  match d with
  | [] => []
  | (n, t0) :: d' =>
      if bool_decide (n = name) then (n, t) :: d' else (n, t0) :: update_table name t d'
  end.

Definition unknown_table (name : string) : exn :=
  MySQLError InternalError
    ("(1051, " +:+ dquote +:+ "Unknown table 'db." +:+ name +:+ "'" +:+ dquote +:+ ")").

Definition no_such_table (name : string) : exn :=
  MySQLError ProgrammingError
    ("(1146, " +:+ dquote +:+ "Table 'db." +:+ name +:+ "' doesn't exist" +:+ dquote +:+ ")").

(** [CREATE TABLE name (field type, field type, ...)] *)
Definition parse_create (stmt : string) : option (string * table) :=
  rest ← strip_prefix "CREATE TABLE " stmt;
  '(name, body) ← split_once " (" rest;
  body' ← strip_prefix ")" (String.rev body);
  columns ← mapM (split_once " ") (split_all (String.length body) ", " (String.rev body'));
  Some (name, Table stmt columns []).

(** What the engine stores for a parameter in a column of type [ty]. *)
Definition coerce (ty : string) (v : value) : option value :=
  match v with
  | VNone => Some VNone
  | VInt z => Some (if bool_decide (ty = "int") then VInt z else VStr (pretty z))
  | VStr s => if bool_decide (ty = "int") then VInt <$> parse_int s else Some (VStr s)
  end.

Fixpoint insert_row (columns : list (string * string)) (data : list value) : option row :=
  match columns, data with
  | [], [] => Some ∅
  | c :: columns', v :: data' =>
      x ← coerce c.2 v;
      r ← insert_row columns' data';
      Some (<[c.1 := x]> r)
  | _, _ => None
  end.

Definition run (d : list (string * table)) (stmt : string) (data : option (list value))
    : outcome (list row) * list (string * table) :=
  if bool_decide (stmt = "show tables") then
    (Ok (map (λ nt, {[ "Tables_in_db" := VStr nt.1 ]}) d), d)
  else if strip_prefix "show create table " stmt is Some name then
    match find_table name d with
    | Some t => (Ok [{[ "Table" := VStr name; "Create Table" := VStr (t_create t) ]}], d)
    | None => (Raise (no_such_table name), d)
    end
  else if strip_prefix "desc " stmt is Some name then
    match find_table name d with
    | Some t => (Ok (map descriptor (t_columns t)), d)
    | None => (Raise (no_such_table name), d)
    end
  else if strip_prefix "select * from " stmt is Some name then
    match find_table name d with
    | Some t => (Ok (t_rows t), d)
    | None => (Raise (no_such_table name), d)
    end
  else if strip_prefix "DROP TABLE " stmt is Some name then
    match find_table name d with
    | Some _ => (Ok [], remove_table name d)
    | None => (Raise (unknown_table name), d)
    end
  else if strip_prefix "INSERT INTO " stmt is Some rest then
    match split_once " VALUE (" rest, data with
    | Some (name, _), Some vs =>
        match find_table name d with
        | Some t =>
            match insert_row (t_columns t) vs with
            | Some r =>
                (Ok [], update_table name (Table (t_create t) (t_columns t) (t_rows t ++ [r])) d)
            | None => (Raise (MySQLError DataError "(1366, 'Incorrect value')"), d)
            end
        | None => (Raise (no_such_table name), d)
        end
    | _, _ => (Raise (MySQLError ProgrammingError "(1064, 'syntax error')"), d)
    end
  else
    match parse_create stmt with
    | Some (name, t) =>
        match find_table name d with
        | Some _ => (Raise (MySQLError OperationalError "(1050, 'Table already exists')"), d)
        | None => (Ok [], d ++ [(name, t)])
        end
    | None => (Raise (MySQLError ProgrammingError "(1064, 'syntax error')"), d)
    end.

(** One descriptor per line: [- {Field: f, Type: t}]. *)
Definition dump_descriptor (c : row) : string :=
  "- {Field: " +:+ str (default VNone (c !! "Field")) +:+ ", Type: " +:+
  str (default VNone (c !! "Type")) +:+ "}" +:+ newline.

Definition dump_descriptors (columns : list row) : string :=
  String.concat "" (map dump_descriptor columns).

Definition load_descriptor (line : string) : option row :=
  rest ← strip_prefix "- {Field: " line;
  '(field, rest') ← split_once ", Type: " rest;
  '(ty, _) ← split_once ("}" +:+ newline) rest';
  Some (descriptor (field, ty)).

Definition load_descriptors (text : string) : option (list row) :=
  mapM load_descriptor (lines_from "" text).

(** The reader of a JSON array of strings, one character at a time. *)
Inductive json_state :=
  | JOpen | JItem | JString (cur : string) | JEscape (cur : string)
  | JUnicode (cur : string) (digits : list ascii) | JNext | JClose.

Definition hex_value (c : ascii) : option N :=
  match Ascii.is_nat c with
  | Some d => Some (N.of_nat d)
  | None =>
      match c with
      | "a" => Some 10 | "b" => Some 11 | "c" => Some 12
      | "d" => Some 13 | "e" => Some 14 | "f" => Some 15
      | _ => None
      end%char%N
  end.

Definition unescape (c : ascii) : option ascii :=
  if bool_decide (c = "034"%char) then Some c
  else match c with
       | "\" => Some "\" | "/" => Some "/" | "n" => Some "010" | "r" => Some "013"
       | "t" => Some "009" | "b" => Some "008" | "f" => Some "012"
       | _ => None
       end%char.

Fixpoint json_read (st : json_state) (acc : list string) (s : string)
    : option (list string) :=
  match s with
  | "" => match st with JClose => Some (rev acc) | _ => None end
  | String c s' =>
      match st with
      | JOpen =>
          if Ascii.is_space c then json_read JOpen acc s'
          else if bool_decide (c = "["%char) then json_read JItem acc s'
          else None
      | JItem =>
          if Ascii.is_space c then json_read JItem acc s'
          else if bool_decide (c = "034"%char) then json_read (JString "") acc s'
          else if bool_decide (c = "]"%char) && bool_decide (acc = [])
          then json_read JClose acc s'
          else None
      | JString cur =>
          if bool_decide (c = "034"%char) then json_read JNext (String.rev cur :: acc) s'
          else if bool_decide (c = "\"%char) then json_read (JEscape cur) acc s'
          else json_read (JString (String c cur)) acc s'
      | JEscape cur =>
          if bool_decide (c = "u"%char) then json_read (JUnicode cur []) acc s'
          else match unescape c with
               | Some x => json_read (JString (String x cur)) acc s'
               | None => None
               end
      | JUnicode cur digits =>
          match hex_value c, digits with
          | Some lo, [d3; d2; d1] =>
              match hex_value d1, hex_value d2, hex_value d3 with
              | Some hi, Some 0%N, Some 0%N =>
                  json_read (JString (String (ascii_of_N (16 * hi + lo)) cur)) acc s'
              | _, _, _ => None
              end
          | Some _, _ => json_read (JUnicode cur (c :: digits)) acc s'
          | None, _ => None
          end
      | JNext =>
          if Ascii.is_space c then json_read JNext acc s'
          else if bool_decide (c = ","%char) then json_read JItem acc s'
          else if bool_decide (c = "]"%char) then json_read JClose acc s'
          else None
      | JClose => if Ascii.is_space c then json_read JClose acc s' else None
      end
  end.

Definition read_array (line : string) : option (list value) :=
  map VStr <$> json_read JOpen [] line.

Global Instance platform : Platform := {|
  db := list (string * table);
  engine := run;
  yaml_dump := dump_descriptors;
  yaml_load := load_descriptors;
  json_loads := read_array;
  listdir_order := λ l, l;
  connection_failure := None
|}.

End Reference.

(** * Specification vocabulary

    The closed forms below say what [dump_table] writes and what
    [recover_table] reads back; they are stated over the same paths the
    program computes. *)

(** ** The dataset a dump leaves behind *)

(** The name of a sidecar file. *)
Definition cell_file (i : nat) : string := pretty i +:+ ".txt".

Definition is_long (c : row) : bool :=
  match c !! "Type" with
  | Some ty => value_in ty LONG_COLUMN
  | None => false
  end.

Definition column_dir (c : row) : string :=
  "column_" +:+ match c !! "Field" with Some v => str v | None => "" end.

(** The string form of the cell of row [r] in column [c]. *)
Definition cell_text (r c : row) : string :=
  match c !! "Field" with
  | Some (VStr f) => match r !! f with Some v => str v | None => "" end
  | _ => ""
  end.

Definition cell_path (table_dir : string) (c : row) (i : nat) : list string :=
  resolve (os_path_join (os_path_join table_dir (column_dir c)) (cell_file i)).

(** The array of one row line. *)
Definition encode_row (columns : list row) (r : row) : list string :=
  map (λ c, if is_long c then "_" else cell_text r c) columns.

Definition rows_text (columns rs : list row) : string :=
  String.concat "" (map (λ r, json_dumps (encode_row columns r) +:+ newline) rs).

Definition make_dirs (table_dir : string) (columns : list row) (f : fs) : fs :=
  foldl (λ f c, if is_long c
                then <[resolve (os_path_join table_dir (column_dir c)) := Dir]> f
                else f) f columns.

Definition write_cells (table_dir : string) (i : nat) (r : row)
    (columns : list row) (f : fs) : fs :=
  foldl (λ f c, if is_long c
                then <[cell_path table_dir c i := File (cell_text r c)]> f
                else f) f columns.

Fixpoint write_rows (table_dir : string) (columns : list row) (i : nat)
    (rs : list row) (f : fs) : fs :=
  match rs with
  | [] => f
  | r :: rs' => write_rows table_dir columns (S i) rs' (write_cells table_dir i r columns f)
  end.

(** Every column names a cell of the row. *)
Definition readable (columns : list row) (r : row) : Prop :=
  Forall (λ c : row, ∃ f v, c !! "Field" = Some (VStr f) ∧ r !! f = Some v) columns.

(** A descriptor whose type can be read, and whose name can be read when
    the column is long. *)
Definition described (c : row) : Prop :=
  is_Some (c !! "Type") ∧ (is_long c = true → is_Some (c !! "Field")).

(** The long columns have directory names that are one path component. *)
Definition plain_columns (columns : list row) : bool :=
  forallb (λ c, negb (is_long c) || plain_name (column_dir c)) columns.

(** [c] occurs in [s]. *)
Fixpoint has_char (c : ascii) (s : string) : bool :=
  match s with
  | "" => false
  | String c' s' => bool_decide (c' = c) || has_char c s'
  end.


(** Every entry of the file system lies in a directory. *)
Definition fs_wf (f : fs) : Prop :=
  map_Forall (λ q _, fs_node f (removelast q) = Some Dir) f.

(** The sidecar directories of the long columns exist below [p], and
    no sidecar file name is taken by a directory. *)
Definition sidecars_ready (p : list string) (columns : list row) (f : fs) : Prop :=
  ∀ c : row, c ∈ columns → is_long c = true →
    f !! (p ++ [column_dir c]) = Some Dir ∧
    ∀ i, f !! (p ++ [column_dir c; cell_file i]) ≠ Some Dir.

(** ** What [recover_table] reads back *)

(** The long-column positions [check_columns] collects. *)
Fixpoint flags_from (i : nat) (columns : list row) (flags : gmap nat string)
    : gmap nat string :=
  match columns with
  | [] => flags
  | c :: columns' =>
      flags_from (S i) columns' (if is_long c then <[i := column_dir c]> flags else flags)
  end.


(** [decodes f table_dir flags n i pending outs]: on file system [f], the
    loop of lines 232-238 for line [n] turns what is pending from position
    [i] into [outs]. *)
Inductive decodes (f : fs) (table_dir : string) (flags : gmap nat string) (n : nat)
    : nat → list value → list value → Prop :=
  | decodes_nil i : decodes f table_dir flags n i [] []
  | decodes_long i v pending outs d c :
      flags !! i = Some d →
      fs_node f (resolve (os_path_join (os_path_join table_dir d) (cell_file n)))
        = Some (File c) →
      decodes f table_dir flags n (S i) pending outs →
      decodes f table_dir flags n i (v :: pending) (VStr (universal_newlines c) :: outs)
  | decodes_scalar i v pending outs :
      flags !! i = None →
      decodes f table_dir flags n (S i) pending outs →
      decodes f table_dir flags n i (v :: pending) (v :: outs).

(** A statement sent to the engine that is [stmt] with parameters. *)
Definition is_insert (stmt : string) (e : string * option (list value)) : Prop :=
  e.1 = stmt ∧ is_Some e.2.

Section Vocabulary.
Context `{P : Platform}.

(** What the engine answers to the three queries of [dump_table], asked in
    this order from state [d]: the create statement, the descriptors, the
    rows, and the state it is left in. *)
Definition snapshot (d : db) (table_name : string)
    : option (string * list row * list row * db) :=
  match engine d ("show create table " +:+ table_name) None with
  | (Ok (result :: _), d1) =>
      match result !! "Create Table" with
      | Some (VStr sql) =>
          match engine d1 ("desc " +:+ table_name) None with
          | (Ok columns, d2) =>
              match engine d2 ("select * from " +:+ table_name) None with
              | (Ok rs, d3) => Some (sql, columns, rs, d3)
              | _ => None
              end
          | _ => None
          end
      | _ => None
      end
  | _ => None
  end.

Definition dump_queries (table_name : string) : list (string * option (list value)) :=
  [("show create table " +:+ table_name, None);
   ("desc " +:+ table_name, None);
   ("select * from " +:+ table_name, None)].

(** The table directory [dump_table] builds on top of [f]. *)
Definition dataset_of (table_dir sql : string) (columns rs : list row) (f : fs) : fs :=
  <[resolve (os_path_join table_dir "rows.txt") := File (rows_text columns rs)]>
    (write_rows table_dir columns 0 rs
      (make_dirs table_dir columns
        (<[resolve (os_path_join table_dir "desc_table.yaml") := File (yaml_dump columns)]>
          (<[resolve (os_path_join table_dir "create_table.sql") := File sql]>
            (<[resolve table_dir := Dir]> f))))).


End Vocabulary.

(** A computation that leaves the file system alone. *)
Definition fs_preserving `{P : Platform} {A} (m : M A) : Prop :=
  ∀ w, w_fs (m w).2 = w_fs w.

(** A computation whose final world is always related to its initial
    world by [R]. *)
Definition respects `{P : Platform} {A} (R : world → world → Prop) (m : M A) : Prop :=
  ∀ w, R w (m w).2.

(** One of the four read-only statements [dump] sends, without
    parameters. *)
Definition is_query (e : string * option (list value)) : Prop :=
  e.2 = None ∧
  (e.1 = "show tables" ∨
   ∃ table_name, e.1 = "show create table " +:+ table_name ∨
                 e.1 = "desc " +:+ table_name ∨
                 e.1 = "select * from " +:+ table_name).

(** A computation that hands the driver only statements satisfying [Q]. *)
Definition sends `{P : Platform} {A} (Q : string * option (list value) → Prop)
    (m : M A) : Prop :=
  ∀ w, ∃ sent, w_sent (m w).2 = w_sent w ++ sent ∧ Forall Q sent.

(** ** The round trip *)



(** The round trip as the claim words it: whenever the dump of table
    [table_name] and the recovery of its directory into the database
    [target] both succeed, the recovered table holds the rows of the
    original. *)
Definition reproduces `{P : Platform} (table_dir table_name : string)
    (w : world) (target : db) : Prop :=
  ∀ w1 w2,
    dump_table table_dir table_name w = (Ok tt, w1) →
    recover_table table_dir table_name (World (w_fs w1) target []) = (Ok tt, w2) →
    (get_rows table_name w2).1 = (get_rows table_name w).1.

(** ** Concrete tables on the reference platform *)

Module Examples.
Import Reference.

(** The table of the end-to-end scenario. *)
Definition users : table :=
  Table "CREATE TABLE users (id int, name varchar(50), bio text)"
    [("id", "int"); ("name", "varchar(50)"); ("bio", "text")]
    [ {[ "id" := VInt 1; "name" := VStr "Alice";
         "bio" := VStr ("hello" +:+ newline +:+ "world") ]};
      {[ "id" := VInt 2; "name" := VStr "Bob"; "bio" := VNone ]} ].

Definition users_world : world := World ∅ [("users", users)] [].

(** The same table without the NULL. *)
Definition authors : table :=
  Table "CREATE TABLE authors (id int, name varchar(50), bio text)"
    [("id", "int"); ("name", "varchar(50)"); ("bio", "text")]
    [ {[ "id" := VInt 1; "name" := VStr "Alice";
         "bio" := VStr ("hello" +:+ newline +:+ "world") ]};
      {[ "id" := VInt 2; "name" := VStr "Bob"; "bio" := VStr "" ]} ].

Definition authors_world : world := World ∅ [("authors", authors)] [].



(** The reference platform as [connection()] finds it when there is no
    [config] module. *)
Definition unconfigured : Platform := {|
  db := list (string * table);
  engine := run;
  yaml_dump := dump_descriptors;
  yaml_load := load_descriptors;
  json_loads := read_array;
  listdir_order := λ l, l;
  connection_failure :=
    connection_outcome (NoConfig "No module named 'config'") (λ _, None)
|}.

(** The table [users] with the string [None] where it has the NULL. *)
Definition users_none : table :=
  Table (t_create users) (t_columns users)
    [ {[ "id" := VInt 1; "name" := VStr "Alice";
         "bio" := VStr ("hello" +:+ newline +:+ "world") ]};
      {[ "id" := VInt 2; "name" := VStr "Bob"; "bio" := VStr "None" ]} ].

End Examples.

(** * Properties *)

(** ** Strings and paths *)

Lemma str_app_cons c s t : String c s +:+ t = String c (s +:+ t).
Proof. reflexivity. Qed.

Lemma str_app_nil_r s : s +:+ "" = s.
Proof. induction s as [|c s IH]; [done|]. by rewrite str_app_cons, IH. Qed.

Lemma str_app_assoc s t u : (s +:+ t) +:+ u = s +:+ t +:+ u.
Proof. induction s as [|c s IH]; [done|]. by rewrite !str_app_cons, IH. Qed.

Lemma split_path_not_nil s : split_path s ≠ [].
Proof.
  destruct s as [|c s]; simpl; [done|].
  destruct (is_sep c); [done|]. by destruct (split_path s).
Qed.

Lemma split_path_app a b :
  split_path (a +:+ "/" +:+ b) = split_path a ++ split_path b.
Proof.
  induction a as [|c a IH]; [done|].
  rewrite str_app_cons. simpl. destruct (is_sep c); simpl; [by rewrite IH|].
  rewrite IH. pose proof (split_path_not_nil a). by destruct (split_path a).
Qed.

Lemma split_path_plain b : has_sep b = false → split_path b = [b].
Proof.
  induction b as [|c b IH]; simpl; [done|].
  intros [Hc Hb]%orb_false_iff. by rewrite Hc, IH.
Qed.

Lemma endswith_sep_inv a : endswith_sep a = true → ∃ a0, a = a0 +:+ "/".
Proof.
  induction a as [|c a IH]; simpl; [done|].
  destruct a as [|c' a'].
  - unfold is_sep. intros ->%bool_decide_eq_true. by exists "".
  - intros [a0 ->]%IH. by exists (String c a0).
Qed.

(** Joining a plain name goes one level down. *)
Lemma resolve_join a b :
  plain_name b = true → resolve (os_path_join a b) = resolve a ++ [b].
Proof.
  unfold plain_name. rewrite !andb_true_iff, !negb_true_iff, !bool_decide_eq_false.
  intros [[[Hsep Hne] Hdot] Hdd].
  assert (Hstep : ∀ st, resolve_step st b = st ++ [b]).
  { intros st. unfold resolve_step. by rewrite !bool_decide_eq_false_2. }
  assert (startswith_sep b = false) as Hs.
  { destruct b; simpl in *; [done|]. by apply orb_false_iff in Hsep as [-> _]. }
  unfold os_path_join, resolve. rewrite Hs. case_bool_decide as Ha.
  - subst a. change ("" +:+ b) with b. rewrite split_path_plain by done. apply Hstep.
  - destruct (endswith_sep a) eqn:He; cbn [orb].
    + apply endswith_sep_inv in He as [a0 ->].
      rewrite str_app_assoc.
      rewrite <-(str_app_nil_r (a0 +:+ "/")), str_app_assoc.
      rewrite !split_path_app, !foldl_app, (split_path_plain b) by done.
      cbn [foldl split_path]. rewrite Hstep. done.
    + rewrite split_path_app, foldl_app, (split_path_plain b) by done. apply Hstep.
Qed.

Lemma has_sep_app a b : has_sep (a +:+ b) = has_sep a || has_sep b.
Proof.
  induction a as [|c a IH]; [done|].
  rewrite str_app_cons. simpl. by rewrite IH, orb_assoc.
Qed.

Lemma has_sep_pretty_N_go x s : has_sep s = false → has_sep (pretty_N_go x s) = false.
Proof.
  revert s. induction (N.lt_wf_0 x) as [x _ IH]; intros s Hs.
  assert (x = 0 ∨ 0 < x)%N as [->|?] by lia.
  - by rewrite pretty_N_go_0.
  - rewrite pretty_N_go_step by done. apply IH.
    { by apply N.div_lt. }
    simpl. rewrite Hs, orb_false_r. unfold pretty_N_char, is_sep.
    by repeat case_match.
Qed.

Lemma has_sep_pretty_nat (i : nat) : has_sep (pretty i) = false.
Proof.
  unfold pretty, pretty_nat, pretty, pretty_N. case_decide; [done|].
  by apply has_sep_pretty_N_go.
Qed.

Lemma str_length_app s t : String.length (s +:+ t) = String.length s + String.length t.
Proof. induction s as [|c s IH]; [done|]. rewrite str_app_cons. simpl. by rewrite IH. Qed.

Lemma str_app_cancel_r a b s : a +:+ s = b +:+ s → a = b.
Proof.
  revert b. induction a as [|c a IH]; intros [|d b] Heq; [done|..].
  - apply (f_equal String.length) in Heq.
    rewrite !str_length_app in Heq. simpl in Heq. lia.
  - apply (f_equal String.length) in Heq.
    rewrite !str_length_app in Heq. simpl in Heq. lia.
  - rewrite !str_app_cons in Heq. injection Heq as -> Heq. f_equal. by apply IH.
Qed.

Lemma plain_cell_file i : plain_name (cell_file i) = true.
Proof.
  unfold plain_name, cell_file.
  rewrite has_sep_app, has_sep_pretty_nat.
  change (has_sep ".txt") with false.
  assert (∀ s, String.length s < 4 → pretty i +:+ ".txt" ≠ s) as Hlen.
  { intros s Hs Heq. rewrite <-Heq, str_length_app in Hs. simpl in Hs. lia. }
  rewrite (bool_decide_eq_false_2 (_ = "")) by (apply Hlen; simpl; lia).
  rewrite (bool_decide_eq_false_2 (_ = ".")) by (apply Hlen; simpl; lia).
  rewrite (bool_decide_eq_false_2 (_ = "..")) by (apply Hlen; simpl; lia).
  done.
Qed.

Lemma cell_file_inj i j : cell_file i = cell_file j → i = j.
Proof. unfold cell_file. by intros ?%str_app_cancel_r%(inj pretty). Qed.

(** ** One computation step at a time *)

Section Steps.
Context `{P : Platform}.

Lemma bind_run {A B} (m : M A) (k : A → M B) w :
  (m ≫= k) w = match m w with
               | (Ok a, w') => k a w'
               | (Raise e, w') => (Raise e, w')
               end.
Proof. reflexivity. Qed.

Lemma bind_Ok_inv {A B} (m : M A) (k : A → M B) w b w' :
  (m ≫= k) w = (Ok b, w') → ∃ a w1, m w = (Ok a, w1) ∧ k a w1 = (Ok b, w').
Proof. rewrite bind_run. destruct (m w) as [[a|e] w1]; [eauto|done]. Qed.

Lemma bind_Ok {A B} (m : M A) (k : A → M B) w a w1 :
  m w = (Ok a, w1) → (m ≫= k) w = k a w1.
Proof. rewrite bind_run. by intros ->. Qed.

Lemma bind_Raise {A B} (m : M A) (k : A → M B) w e w1 :
  m w = (Raise e, w1) → (m ≫= k) w = (Raise e, w1).
Proof. rewrite bind_run. by intros ->. Qed.

Lemma ret_run {A} (a : A) w : (mret a : M A) w = (Ok a, w).
Proof. reflexivity. Qed.

(** A run is known from its outcome and its final world. *)
Lemma run_Ok {A} (m : M A) (w : world) (a : A) :
  (m w).1 = Ok a → m w = (Ok a, (m w).2).
Proof. destruct (m w) as [r w1]. simpl. by intros ->. Qed.

Lemma set_fs_id w : set_fs (w_fs w) w = w.
Proof. by destruct w. Qed.

Lemma set_fs_set_fs f g w : set_fs f (set_fs g w) = set_fs f w.
Proof. reflexivity. Qed.

Lemma os_mkdir_Ok_inv path w u w' :
  os_mkdir path w = (Ok u, w') →
  fs_node (w_fs w) (resolve path) = None ∧
  fs_node (w_fs w) (removelast (resolve path)) = Some Dir ∧
  w' = set_fs (<[resolve path := Dir]> (w_fs w)) w.
Proof.
  unfold os_mkdir. destruct (fs_node _ (resolve path)); [done|].
  destruct (fs_node _ (removelast _)) as [[]|]; naive_solver.
Qed.

Lemma os_mkdir_Ok path w :
  fs_node (w_fs w) (resolve path) = None →
  fs_node (w_fs w) (removelast (resolve path)) = Some Dir →
  os_mkdir path w = (Ok tt, set_fs (<[resolve path := Dir]> (w_fs w)) w).
Proof. unfold os_mkdir. by intros -> ->. Qed.

Lemma open_w_Ok_inv path w u w' :
  open_w path w = (Ok u, w') →
  fs_node (w_fs w) (resolve path) ≠ Some Dir ∧
  w' = set_fs (<[resolve path := File ""]> (w_fs w)) w.
Proof.
  unfold open_w. destruct (fs_node _ (resolve path)) as [[]|]; [naive_solver|done|].
  destruct (fs_node _ (removelast _)) as [[]|]; naive_solver.
Qed.

Lemma file_write_Ok_inv path v w u w' :
  file_write path v w = (Ok u, w') →
  ∃ s c, v = VStr s ∧ w_fs w !! resolve path = Some (File c) ∧
    w' = set_fs (<[resolve path := File (c +:+ s)]> (w_fs w)) w.
Proof.
  unfold file_write. destruct v as [| |s]; [done..|].
  destruct (w_fs w !! resolve path) as [[c|]|]; naive_solver.
Qed.

Lemma getitem_Ok_inv (d : row) k w v w' :
  getitem d k w = (Ok v, w') → d !! k = Some v ∧ w' = w.
Proof.
  unfold getitem. destruct (d !! k); [rewrite ret_run|unfold raise]; by intros [= <- <-].
Qed.

Lemma getitem_value_Ok_inv (d : row) k w v w' :
  getitem_value d k w = (Ok v, w') → ∃ f, k = VStr f ∧ d !! f = Some v ∧ w' = w.
Proof.
  destruct k as [| |f]; [done..|]. simpl. intros [??]%getitem_Ok_inv. eauto.
Qed.

Lemma cursor_execute_inv stmt data w r w' :
  cursor_execute stmt data w = (r, w') →
  ∃ d, engine (w_db w) stmt data = (r, d) ∧
    w' = World (w_fs w) d (w_sent w ++ [(stmt, data)]).
Proof.
  unfold cursor_execute. destruct (engine _ _ _) as [r0 d]. intros [= <- <-]. eauto.
Qed.

Lemma open_r_inv path w r w' :
  open_r path w = (r, w') → w' = w.
Proof.
  unfold open_r. destruct (fs_node _ _) as [[]|]; congruence.
Qed.

End Steps.

(** Splits a successful run of [m ≫= k] into the run of [m] and the run
    of [k]. *)
Ltac inv_bind H :=
  let a := fresh "a" in
  let w := fresh "w" in
  let H1 := fresh "Hstep" in
  apply bind_Ok_inv in H as (a & w & H1 & H).

(** ** What [dump_table] does when it succeeds *)

Section Dump.
Context `{P : Platform}.

Lemma encode_row_cons c columns r :
  encode_row (c :: columns) r =
  (if is_long c then "_" else cell_text r c) :: encode_row columns r.
Proof. reflexivity. Qed.

Lemma write_cells_cons table_dir i r c columns f :
  write_cells table_dir i r (c :: columns) f =
  write_cells table_dir i r columns
    (if is_long c then <[cell_path table_dir c i := File (cell_text r c)]> f else f).
Proof. reflexivity. Qed.

Lemma dump_cells_Ok_inv table_dir i r columns text_list w text_list' w' :
  dump_cells table_dir i r columns text_list w = (Ok text_list', w') →
  text_list' = text_list ++ encode_row columns r ∧
  w' = set_fs (write_cells table_dir i r columns (w_fs w)) w ∧
  readable columns r.
Proof.
  revert text_list w text_list' w'.
  induction columns as [|c columns IH]; intros tl w tl' w' H.
  { injection H as <- <-. unfold write_cells. simpl. rewrite app_nil_r, set_fs_id.
    split_and!; [done..|constructor]. }
  simpl in H. inv_bind H. apply getitem_Ok_inv in Hstep as [Hty ->].
  assert (Hlong : is_long c = value_in a LONG_COLUMN) by (unfold is_long; by rewrite Hty).
  rewrite encode_row_cons, write_cells_cons, Hlong.
  destruct (value_in a LONG_COLUMN).
  - inv_bind H. apply getitem_Ok_inv in Hstep as [Hf ->].
    inv_bind H. apply open_w_Ok_inv in Hstep as [_ ->].
    inv_bind H. apply getitem_Ok_inv in Hstep as [Hf' ->].
    inv_bind H. apply getitem_value_Ok_inv in Hstep as (f & -> & Hv & ->).
    inv_bind H. apply file_write_Ok_inv in Hstep as (s & c0 & [= <-] & Hc & ->).
    simpl in Hc. rewrite lookup_insert_eq in Hc. injection Hc as <-.
    assert (a0 = VStr f) as -> by congruence.
    apply IH in H as (-> & -> & Hr).
    assert (cell_text r c = str a3) as -> by (unfold cell_text; by rewrite Hf, Hv).
    unfold cell_path, column_dir, cell_file. rewrite Hf. simpl. rewrite insert_insert_eq.
    split_and!; [by rewrite <-app_assoc|done|].
    constructor; [eauto|done].
  - inv_bind H. apply getitem_Ok_inv in Hstep as [Hf ->].
    inv_bind H. apply getitem_value_Ok_inv in Hstep as (f & -> & Hv & ->).
    apply IH in H as (-> & -> & Hr).
    assert (cell_text r c = str a1) as -> by (unfold cell_text; by rewrite Hf, Hv).
    split_and!; [by rewrite <-app_assoc|done|].
    constructor; [eauto|done].
Qed.

Lemma rows_text_cons columns r rs :
  rows_text columns (r :: rs) =
  json_dumps (encode_row columns r) +:+ newline +:+ rows_text columns rs.
Proof.
  unfold rows_text. cbn [map]. destruct (map _ rs) eqn:E; simpl; [|by rewrite str_app_assoc].
  by rewrite str_app_nil_r.
Qed.

Lemma dump_rows_Ok_inv table_dir columns i rs rows w rows' w' :
  dump_rows table_dir columns i rs rows w = (Ok rows', w') →
  rows' = rows +:+ rows_text columns rs ∧
  w' = set_fs (write_rows table_dir columns i rs (w_fs w)) w ∧
  Forall (readable columns) rs.
Proof.
  revert i rows w rows' w'.
  induction rs as [|r rs IH]; intros i rows w rows' w' H.
  { injection H as <- <-. simpl. by rewrite str_app_nil_r, set_fs_id. }
  simpl in H. inv_bind H. apply dump_cells_Ok_inv in Hstep as (-> & -> & Hr).
  apply IH in H as (-> & -> & Hrs). simpl.
  rewrite rows_text_cons, !str_app_assoc. by split_and!; [..|constructor].
Qed.

Lemma make_dirs_cons table_dir c columns f :
  make_dirs table_dir (c :: columns) f =
  make_dirs table_dir columns
    (if is_long c then <[resolve (os_path_join table_dir (column_dir c)) := Dir]> f else f).
Proof. reflexivity. Qed.

Lemma dump_column_dirs_Ok_inv table_dir columns w u w' :
  dump_column_dirs table_dir columns w = (Ok u, w') →
  w' = set_fs (make_dirs table_dir columns (w_fs w)) w ∧ Forall described columns.
Proof.
  unfold dump_column_dirs. revert w w'.
  induction columns as [|c columns IH]; intros w w' H.
  { injection H as <-. unfold make_dirs. simpl. by rewrite set_fs_id. }
  simpl in H. inv_bind H. inv_bind Hstep. apply getitem_Ok_inv in Hstep0 as [Hty ->].
  assert (Hlong : is_long c = value_in a0 LONG_COLUMN) by (unfold is_long; by rewrite Hty).
  rewrite make_dirs_cons, Hlong. destruct (value_in a0 LONG_COLUMN) eqn:Hin.
  - inv_bind Hstep. apply getitem_Ok_inv in Hstep0 as [Hf ->].
    apply os_mkdir_Ok_inv in Hstep as (_ & _ & ->).
    apply IH in H as [-> Hd]. unfold column_dir. rewrite Hf. split; [reflexivity|].
    constructor; [|done]. by split; [rewrite Hty|rewrite Hf].
  - injection Hstep as _ <-. apply IH in H as [-> Hd]. split; [done|].
    constructor; [|done]. split; [by rewrite Hty|]. by rewrite Hlong.
Qed.

Lemma get_create_table_stmt_Ok_inv table_name w v w' :
  get_create_table_stmt table_name w = (Ok v, w') →
  ∃ result rest d,
    engine (w_db w) ("show create table " +:+ table_name) None = (Ok (result :: rest), d) ∧
    result !! "Create Table" = Some v ∧
    w' = World (w_fs w) d (w_sent w ++ [("show create table " +:+ table_name, None)]).
Proof.
  unfold get_create_table_stmt. intros H. inv_bind H.
  apply cursor_execute_inv in Hstep as (d & He & ->).
  destruct a as [|result rest]; [done|].
  apply getitem_Ok_inv in H as [Hv ->]. eauto 10.
Qed.

Lemma dump_table_Ok_inv table_dir table_name w u w' :
  dump_table table_dir table_name w = (Ok u, w') →
  ∃ sql columns rs d,
    snapshot (w_db w) table_name = Some (sql, columns, rs, d) ∧
    w' = World (dataset_of table_dir sql columns rs (w_fs w)) d
           (w_sent w ++ dump_queries table_name) ∧
    Forall described columns ∧
    Forall (readable columns) rs ∧
    fs_node (w_fs w) (resolve table_dir) = None ∧
    fs_node (w_fs w) (removelast (resolve table_dir)) = Some Dir.
Proof.
  unfold dump_table. intros H.
  inv_bind H. apply os_mkdir_Ok_inv in Hstep as (Hnone & Hparent & ->).
  inv_bind H. apply open_w_Ok_inv in Hstep as (_ & ->).
  inv_bind H. apply get_create_table_stmt_Ok_inv in Hstep as (result & rest & d1 & He1 & Hsql & ->).
  inv_bind H. apply file_write_Ok_inv in Hstep as (sql & c & -> & Hc & ->).
  simpl in Hc. rewrite lookup_insert_eq in Hc. injection Hc as <-.
  simpl in H. rewrite insert_insert_eq in H.
  inv_bind H. apply open_w_Ok_inv in Hstep as (_ & ->).
  inv_bind H. apply cursor_execute_inv in Hstep as (d2 & He2 & ->).
  inv_bind H. apply file_write_Ok_inv in Hstep as (? & c & [= <-] & Hc & ->).
  simpl in Hc. rewrite lookup_insert_eq in Hc. injection Hc as <-.
  simpl in H. rewrite insert_insert_eq in H.
  inv_bind H. apply dump_column_dirs_Ok_inv in Hstep as [-> Hdesc].
  inv_bind H. apply cursor_execute_inv in Hstep as (d3 & He3 & ->).
  inv_bind H. apply dump_rows_Ok_inv in Hstep as (-> & -> & Hrs).
  inv_bind H. apply open_w_Ok_inv in Hstep as (_ & ->).
  apply file_write_Ok_inv in H as (? & c & [= <-] & Hc & ->).
  simpl in Hc. rewrite lookup_insert_eq in Hc. injection Hc as <-.
  simpl. rewrite insert_insert_eq.
  exists sql, a3, a6, d3. split_and!; [|..|done|done|done|done].
  - unfold snapshot. simpl in He1. rewrite He1, Hsql. simpl in He2. rewrite He2.
    simpl in He3. by rewrite He3.
  - unfold dataset_of, set_fs. simpl. f_equal.
    unfold dump_queries. by rewrite <-!app_assoc.
Qed.

End Dump.
(** ** Looking a path up in a dumped table directory *)

Section Lookup.
Context `{P : Platform}.

Lemma plain_columns_elem (columns : list row) (c : row) :
  plain_columns columns = true → c ∈ columns → is_long c = true →
  plain_name (column_dir c) = true.
Proof.
  unfold plain_columns. rewrite forallb_forall. intros H Hc Hl.
  apply list_elem_of_In, H in Hc. by rewrite Hl in Hc.
Qed.

Lemma cell_path_plain table_dir (c : row) i :
  plain_name (column_dir c) = true →
  cell_path table_dir c i = resolve table_dir ++ [column_dir c; cell_file i].
Proof.
  intros Hc. unfold cell_path.
  rewrite !resolve_join, <-app_assoc by auto using plain_cell_file. done.
Qed.

Lemma column_dir_text (r c c' : row) (columns : list row) :
  readable columns r → c ∈ columns → c' ∈ columns →
  column_dir c' = column_dir c → cell_text r c' = cell_text r c.
Proof.
  unfold readable. rewrite Forall_forall. intros Hr Hc Hc' Heq.
  destruct (Hr _ Hc) as (f & v & Hf & Hv). destruct (Hr _ Hc') as (f' & v' & Hf' & Hv').
  unfold column_dir in Heq. rewrite Hf, Hf' in Heq. simpl in Heq.
  apply (inj _) in Heq as ->. unfold cell_text. by rewrite Hf, Hf'.
Qed.

Lemma write_cells_other (table_dir : string) (i : nat) (r : row) (columns : list row) (f : fs) (q : list string) :
  (∀ c : row, c ∈ columns → is_long c = true → q ≠ cell_path table_dir c i) →
  write_cells table_dir i r columns f !! q = f !! q.
Proof.
  revert f. induction columns as [|c columns IH]; intros f Hq; [done|].
  rewrite write_cells_cons, IH by (intros; apply Hq; [by right|done]).
  destruct (is_long c) eqn:Hl; [|done].
  rewrite lookup_insert_ne; [done|]. intros Heq. by eapply Hq; [left|..].
Qed.

Lemma write_cells_cell (table_dir : string) (i : nat) (r : row) (columns : list row) (f : fs) (c : row) :
  c ∈ columns → is_long c = true →
  (∀ c' : row, c' ∈ columns → is_long c' = true →
     cell_path table_dir c' i = cell_path table_dir c i → cell_text r c' = cell_text r c) →
  write_cells table_dir i r columns f !! cell_path table_dir c i = Some (File (cell_text r c)).
Proof.
  intros Hc Hl Hsame.
  assert (∀ cs f, (∀ c' : row, c' ∈ cs → c' ∈ columns) →
    f !! cell_path table_dir c i = Some (File (cell_text r c)) →
    write_cells table_dir i r cs f !! cell_path table_dir c i = Some (File (cell_text r c))) as Hkeep.
  { induction cs as [|c' cs IH]; intros f0 Hsub Hf0; [done|].
    rewrite write_cells_cons. apply IH; [intros; apply Hsub; by right|].
    destruct (is_long c') eqn:Hl'; [|done].
    destruct (decide (cell_path table_dir c' i = cell_path table_dir c i)) as [Heq|Hne].
    - rewrite Heq, lookup_insert_eq. do 2 f_equal. apply Hsame; [apply Hsub; by left|done..].
    - by rewrite lookup_insert_ne. }
  apply list_elem_of_split in Hc as (l1 & l2 & Hcols).
  assert (write_cells table_dir i r columns f =
          write_cells table_dir i r l2
            (<[cell_path table_dir c i := File (cell_text r c)]> (write_cells table_dir i r l1 f))) as ->.
  { rewrite Hcols. unfold write_cells at 1. rewrite foldl_app. cbn [foldl]. by rewrite Hl. }
  apply Hkeep; [|by rewrite lookup_insert_eq].
  intros c' Hc'. rewrite Hcols. set_solver.
Qed.

Lemma write_rows_other (table_dir : string) (columns : list row) (i : nat)
    (rs : list row) (f : fs) (q : list string) :
  (∀ (c : row) k, c ∈ columns → is_long c = true → k < length rs →
     q ≠ cell_path table_dir c (i + k)) →
  write_rows table_dir columns i rs f !! q = f !! q.
Proof.
  revert i f. induction rs as [|r rs IH]; intros i f Hq; [done|].
  simpl. rewrite IH.
  - apply write_cells_other. intros c Hc Hl.
    specialize (Hq c 0 Hc Hl). rewrite Nat.add_0_r in Hq. apply Hq. simpl. lia.
  - intros c k Hc Hl Hk. specialize (Hq c (S k) Hc Hl).
    rewrite Nat.add_succ_r in Hq. apply Hq. simpl. lia.
Qed.

Lemma make_dirs_other (table_dir : string) (columns : list row) (f : fs) (q : list string) :
  (∀ c : row, c ∈ columns → is_long c = true →
     q ≠ resolve (os_path_join table_dir (column_dir c))) →
  make_dirs table_dir columns f !! q = f !! q.
Proof.
  revert f. induction columns as [|c columns IH]; intros f Hq; [done|].
  rewrite make_dirs_cons, IH by (intros; apply Hq; [by right|done]).
  destruct (is_long c) eqn:Hl; [|done].
  rewrite lookup_insert_ne; [done|]. intros Heq. by eapply Hq; [left|..].
Qed.

Lemma make_dirs_dir (table_dir : string) (columns : list row) (f : fs) (c : row) :
  c ∈ columns → is_long c = true →
  make_dirs table_dir columns f !! resolve (os_path_join table_dir (column_dir c)) = Some Dir.
Proof.
  intros Hc Hl.
  assert (∀ cs (f : fs) (q : list string), f !! q = Some Dir →
    make_dirs table_dir cs f !! q = Some Dir) as Hkeep.
  { induction cs as [|c' cs IH]; intros f0 q Hf0; [done|].
    rewrite make_dirs_cons. apply IH. destruct (is_long c'); [|done].
    destruct (decide (resolve (os_path_join table_dir (column_dir c')) = q)) as [<-|Hne].
    - by rewrite lookup_insert_eq.
    - by rewrite lookup_insert_ne. }
  apply list_elem_of_split in Hc as (l1 & l2 & ->).
  unfold make_dirs at 1. rewrite foldl_app. cbn [foldl]. rewrite Hl.
  apply Hkeep. by rewrite lookup_insert_eq.
Qed.

(** With plain directory names, row [i + k]'s cell of a long column is in
    its own file. *)
Lemma write_rows_cell (table_dir : string) (columns : list row) (i k : nat)
    (rs : list row) (f : fs) (r c : row) :
  plain_columns columns = true → Forall (readable columns) rs →
  rs !! k = Some r → c ∈ columns → is_long c = true →
  write_rows table_dir columns i rs f !! cell_path table_dir c (i + k)
  = Some (File (cell_text r c)).
Proof.
  intros Hplain Hrs Hk Hc Hl. revert i k f Hk.
  induction Hrs as [|r0 rs Hr0 Hrs IH]; intros i k f Hk; [done|].
  assert (Hpath : ∀ (c' : row) j, c' ∈ columns → is_long c' = true →
    cell_path table_dir c' j = resolve table_dir ++ [column_dir c'; cell_file j]).
  { intros. apply cell_path_plain. eauto using plain_columns_elem. }
  destruct k as [|k]; simpl in *.
  - injection Hk as ->. rewrite Nat.add_0_r, write_rows_other.
    + apply write_cells_cell; [done..|].
      intros c' Hc' Hl'. rewrite !Hpath by done.
      intros Heq%(inj (app _)). apply (column_dir_text r c c' columns); [done..|congruence].
    + intros c' j Hc' Hl' _. rewrite !Hpath by done.
      intros Heq%(inj (app _)). assert (cell_file i = cell_file (S i + j)) as ?%cell_file_inj by congruence. lia.
  - rewrite Nat.add_succ_r. change (S (i + k)) with (S i + k). by apply IH.
Qed.

Lemma column_dir_not (c : row) (name : string) :
  name = "rows.txt" ∨ name = "desc_table.yaml" ∨ name = "create_table.sql" →
  column_dir c ≠ name.
Proof.
  unfold column_dir. generalize (match c !! "Field" with Some v => str v | None => "" end).
  intros s [-> | [-> | ->]]; rewrite !str_app_cons; discriminate.
Qed.

Section Dataset.
Context (table_dir sql : string) (columns rs : list row) (f : fs).
Hypothesis Hplain : plain_columns columns = true.
Hypothesis Hreadable : Forall (readable columns) rs.
Hypothesis Hfresh : fs_node f (resolve table_dir) = None.

Let p := resolve table_dir.
Let ds := dataset_of table_dir sql columns rs f.

Lemma table_file_path (name : string) :
  plain_name name = true → resolve (os_path_join table_dir name) = p ++ [name].
Proof. apply resolve_join. Qed.

Lemma cell_path_in (c : row) i :
  c ∈ columns → is_long c = true →
  cell_path table_dir c i = p ++ [column_dir c; cell_file i].
Proof. intros. apply cell_path_plain. eauto using plain_columns_elem. Qed.

Lemma column_dir_path (c : row) :
  c ∈ columns → is_long c = true →
  resolve (os_path_join table_dir (column_dir c)) = p ++ [column_dir c].
Proof. intros. apply resolve_join. eauto using plain_columns_elem. Qed.

Lemma dataset_rows : ds !! (p ++ ["rows.txt"]) = Some (File (rows_text columns rs)).
Proof. unfold ds, dataset_of. by rewrite table_file_path, lookup_insert_eq. Qed.

(** A path that is no sidecar file and not [rows.txt] is as the first
    half of [dump_table] left it. *)
Lemma dataset_upper (q : list string) :
  q ≠ p ++ ["rows.txt"] → (∀ a b, q ≠ p ++ [a; b]) →
  ds !! q =
  make_dirs table_dir columns
    (<[p ++ ["desc_table.yaml"] := File (yaml_dump columns)]>
       (<[p ++ ["create_table.sql"] := File sql]> (<[p := Dir]> f))) !! q.
Proof.
  intros Hrows Hcells. unfold ds, dataset_of. rewrite !table_file_path by done.
  rewrite lookup_insert_ne by done. rewrite write_rows_other; [done|].
  intros c k Hc Hl _. rewrite cell_path_in by done. apply Hcells.
Qed.


Lemma dataset_file (name : string) :
  name = "desc_table.yaml" ∨ name = "create_table.sql" →
  ds !! (p ++ [name]) =
  Some (File (if bool_decide (name = "desc_table.yaml") then yaml_dump columns else sql)).
Proof.
  intros Hname.
  rewrite dataset_upper.
  - rewrite make_dirs_other.
    + destruct Hname as [->| ->]; [by rewrite lookup_insert_eq|].
      rewrite lookup_insert_ne by (by intros [=]%(inj (app p))).
      by rewrite lookup_insert_eq.
    + intros c Hc Hl. rewrite column_dir_path by done.
      intros [= Heq]%(inj (app p)). eapply column_dir_not; [|done]. tauto.
  - intros [= ->]%(inj (app p)). by destruct Hname.
  - by intros a b [=]%(inj (app p)).
Qed.

Lemma dataset_cell (i : nat) (r c : row) :
  rs !! i = Some r → c ∈ columns → is_long c = true →
  ds !! cell_path table_dir c i = Some (File (cell_text r c)).
Proof.
  intros Hi Hc Hl. unfold ds, dataset_of.
  rewrite lookup_insert_ne.
  - by apply (write_rows_cell _ _ 0).
  - rewrite table_file_path, cell_path_in by done. by intros [=]%(inj (app p)).
Qed.


End Dataset.

End Lookup.
(** ** Text: lines and newlines *)

Lemma has_char_app c a b : has_char c (a +:+ b) = has_char c a || has_char c b.
Proof.
  induction a as [|c' a IH]; [done|].
  rewrite str_app_cons. simpl. by rewrite IH, orb_assoc.
Qed.

Lemma universal_newlines_id s :
  has_char "013" s = false → universal_newlines s = s.
Proof.
  induction s as [|c s IH]; [done|]. simpl.
  intros [Hc Hs]%orb_false_iff. rewrite Hc. f_equal. by apply IH.
Qed.

Lemma rev_app_app s t : String.rev_app s t = String.rev s +:+ t.
Proof.
  unfold String.rev. revert t. induction s as [|c s IH]; intros t; [done|].
  simpl. rewrite (IH (String c t)), (IH (String c "")). by rewrite str_app_assoc.
Qed.

Lemma lines_from_line cur l rest :
  has_char "010" l = false →
  lines_from cur (l +:+ newline +:+ rest)
  = (String.rev cur +:+ l +:+ newline) :: lines_from "" rest.
Proof.
  revert cur. induction l as [|c l IH]; intros cur Hl.
  - change ("" +:+ newline +:+ rest) with (String "010" rest). simpl.
    unfold String.rev. simpl. by rewrite rev_app_app.
  - simpl in Hl. apply orb_false_iff in Hl as [Hc Hl].
    rewrite str_app_cons. simpl. rewrite Hc, IH by done.
    unfold String.rev. simpl. by rewrite rev_app_app, str_app_assoc.
Qed.

Lemma has_char_json_escape_char c x :
  (c = "010" ∨ c = "013")%char → has_char c (json_escape_char x) = false.
Proof.
  intros Hc. unfold json_escape_char.
  repeat (case_bool_decide; [by destruct Hc as [-> | ->]|]).
  destruct (bool_decide (32 ≤ N_of_ascii x)%N && bool_decide (N_of_ascii x ≤ 126)%N) eqn:Hr.
  - apply andb_true_iff in Hr as [Hlo%bool_decide_eq_true _]. simpl.
    rewrite orb_false_r. apply bool_decide_eq_false. intros ->.
    destruct Hc as [-> | ->]; vm_compute in Hlo; by apply Hlo.
  - unfold hex_digit. rewrite !str_app_cons. simpl.
    destruct Hc as [-> | ->]; by repeat case_match.
Qed.

Lemma has_char_json_dumps c l :
  (c = "010" ∨ c = "013")%char → has_char c (json_dumps l) = false.
Proof.
  intros Hc.
  assert (has_char c dquote = false) as Hq by (by destruct Hc as [-> | ->]).
  assert (∀ s, has_char c (json_escape s) = false) as Hesc.
  { induction s as [|x s IH]; [done|]. simpl.
    by rewrite has_char_app, has_char_json_escape_char, IH. }
  assert (∀ s, has_char c (json_string s) = false) as Hstr.
  { intros s. unfold json_string. by rewrite !has_char_app, Hesc, Hq. }
  unfold json_dumps. rewrite !has_char_app.
  assert (has_char c (str_join ", " (map json_string l)) = false) as ->.
  { induction l as [|s l IH]; [done|]. cbn [map str_join].
    destruct (map json_string l) eqn:E; [apply Hstr|].
    rewrite !has_char_app, Hstr, IH. by destruct Hc as [-> | ->]. }
  by destruct Hc as [-> | ->].
Qed.

Lemma has_char_rows_text c columns rs :
  c = "013"%char → has_char c (rows_text columns rs) = false.
Proof.
  intros ->. induction rs as [|r rs IH]; [done|].
  rewrite rows_text_cons, !has_char_app, has_char_json_dumps, IH by auto. done.
Qed.

(** The lines of a dumped [rows.txt] are the row lines, in row order. *)
Lemma file_lines_rows_text columns rs :
  file_lines (rows_text columns rs)
  = map (λ r, json_dumps (encode_row columns r) +:+ newline) rs.
Proof.
  unfold file_lines. rewrite universal_newlines_id by by apply has_char_rows_text.
  induction rs as [|r rs IH]; [done|].
  rewrite rows_text_cons, lines_from_line by (apply has_char_json_dumps; auto).
  cbn [map]. by rewrite IH.
Qed.
(** ** Computations that leave the file system alone *)

Create HintDb fsp discriminated.

Section Frame.
Context `{P : Platform}.

Lemma fsp_ret {A} (a : A) : fs_preserving (mret a).
Proof. done. Qed.

Lemma fsp_raise {A} e : fs_preserving (raise e : M A).
Proof. done. Qed.

Lemma fsp_bind {A B} (m : M A) (k : A → M B) :
  fs_preserving m → (∀ a, fs_preserving (k a)) → fs_preserving (m ≫= k).
Proof.
  intros Hm Hk w. rewrite bind_run. specialize (Hm w).
  destruct (m w) as [[a|e] w1]; simpl in *; [|done]. by rewrite Hk.
Qed.

Lemma fsp_try_except {A} (body : M A) handles handler :
  fs_preserving body → (∀ e, fs_preserving (handler e)) →
  fs_preserving (try_except body handles handler).
Proof.
  intros Hb Hh w. unfold try_except. specialize (Hb w).
  destruct (body w) as [[a|e] w1]; simpl in *; [done|].
  destruct (handles e); [|done]. by rewrite Hh.
Qed.

Lemma fsp_for_each {A} (l : list A) (body : A → M unit) :
  (∀ x, fs_preserving (body x)) → fs_preserving (for_each l body).
Proof.
  intros Hb. induction l as [|x l IH]; [done|]. simpl. by apply fsp_bind.
Qed.

Lemma fsp_os_path_isdir path : fs_preserving (os_path_isdir path).
Proof. done. Qed.

Lemma fsp_os_listdir path : fs_preserving (os_listdir path).
Proof. intros w. unfold os_listdir. by destruct (fs_node _ _) as [[]|]. Qed.

Lemma fsp_open_r path : fs_preserving (open_r path).
Proof. intros w. unfold open_r. by destruct (fs_node _ _) as [[]|]. Qed.

Lemma fsp_cursor_execute stmt data : fs_preserving (cursor_execute stmt data).
Proof. intros w. unfold cursor_execute. by destruct (engine _ _ _). Qed.

Lemma fsp_getitem (d : row) k : fs_preserving (getitem d k).
Proof. unfold getitem. by destruct (d !! k). Qed.

Lemma fsp_connection : fs_preserving connection.
Proof. unfold connection. by destruct connection_failure. Qed.

Lemma fsp_json_loads_line line : fs_preserving (json_loads_line line).
Proof. unfold json_loads_line. by destruct (json_loads line). Qed.

Lemma fsp_yaml_load_text text : fs_preserving (yaml_load_text text).
Proof. unfold yaml_load_text. by destruct (yaml_load text). Qed.

End Frame.

Global Hint Resolve fsp_ret fsp_raise fsp_os_path_isdir fsp_os_listdir fsp_open_r
  fsp_cursor_execute fsp_getitem fsp_connection fsp_json_loads_line
  fsp_yaml_load_text : fsp.
Global Hint Extern 2 (fs_preserving (_ ≫= _)) => apply fsp_bind; [|intros ?] : fsp.
Global Hint Extern 2 (fs_preserving (try_except _ _ _)) =>
  apply fsp_try_except; [|intros ?] : fsp.
Global Hint Extern 2 (fs_preserving (for_each _ _)) => apply fsp_for_each; intros ? : fsp.
Global Hint Extern 3 (fs_preserving (match ?x with _ => _ end)) => destruct x : fsp.

Section FrameProgram.
Context `{P : Platform}.

Lemma fsp_execute stmt data : fs_preserving (execute stmt data).
Proof. unfold execute. auto with fsp. Qed.

Lemma fsp_file_read path : fs_preserving (file_read path).
Proof. unfold file_read. auto with fsp. Qed.

Lemma fsp_file_readlines path : fs_preserving (file_readlines path).
Proof. unfold file_readlines. auto with fsp. Qed.

Lemma fsp_drop_table_if_exists table_name :
  fs_preserving (drop_table_if_exists table_name).
Proof.
  unfold drop_table_if_exists. apply fsp_try_except; [apply fsp_execute|].
  intros e. destruct e; auto with fsp.
Qed.

Lemma fsp_check_columns i columns placeholders flags :
  fs_preserving (check_columns i columns placeholders flags).
Proof.
  revert i placeholders flags.
  induction columns as [|c columns IH]; intros i ph flags; simpl; auto 8 with fsp.
Qed.

Lemma fsp_decode_row table_dir flags lineNumber i pending data :
  fs_preserving (decode_row table_dir flags lineNumber i pending data).
Proof.
  revert i data. induction pending as [|v pending IH]; intros i data; simpl; [auto with fsp|].
  apply fsp_bind; [|auto]. destruct (flags !! i); auto using fsp_file_read with fsp.
Qed.

Lemma fsp_recover_line table_dir flags stmt lineNumber line :
  fs_preserving (recover_line table_dir flags stmt lineNumber line).
Proof.
  unfold recover_line. auto 6 using fsp_decode_row, fsp_execute with fsp.
Qed.

Lemma fsp_recover_lines table_dir flags stmt lineNumber lines :
  fs_preserving (recover_lines table_dir flags stmt lineNumber lines).
Proof.
  revert lineNumber. induction lines as [|line lines IH]; intros n; simpl; [auto with fsp|].
  apply fsp_bind; auto using fsp_recover_line.
Qed.

Lemma fsp_recover_table table_dir table_name :
  fs_preserving (recover_table table_dir table_name).
Proof.
  unfold recover_table.
  apply fsp_bind; [auto with fsp|]. intros isdir.
  destruct (negb isdir); [auto with fsp|].
  repeat (apply fsp_bind; [auto using fsp_drop_table_if_exists, fsp_file_read, fsp_execute,
    fsp_check_columns, fsp_file_readlines with fsp|intros ?]).
  match goal with x : (_ * _)%type |- _ => destruct x end.
  repeat (apply fsp_bind; [auto using fsp_file_readlines with fsp|intros ?]).
  apply fsp_recover_lines.
Qed.

Lemma fsp_recover data_dir : fs_preserving (recover data_dir).
Proof.
  unfold recover, recover_tables, error.
  apply fsp_bind; [auto with fsp|]. intros isdir.
  destruct (negb isdir); [auto with fsp|].
  apply fsp_try_except; [|auto with fsp].
  repeat (apply fsp_bind; [auto with fsp|intros ?]).
  apply fsp_for_each. intros. apply fsp_recover_table.
Qed.

End FrameProgram.
(** ** What [recover_table] reads back *)

Section Recover.
Context `{P : Platform}.

Lemma check_columns_Ok_inv i columns ph flags w ph' flags' w' :
  check_columns i columns ph flags w = (Ok (ph', flags'), w') →
  ph' = ph ++ replicate (length columns) "%s" ∧
  flags' = flags_from i columns flags ∧ w' = w.
Proof.
  revert i ph flags.
  induction columns as [|c columns IH]; intros i ph flags H.
  { injection H as <- <- <-. by rewrite app_nil_r. }
  simpl in H. inv_bind H. apply getitem_Ok_inv in Hstep as [Hty ->].
  assert (Hlong : is_long c = value_in a LONG_COLUMN) by (unfold is_long; by rewrite Hty).
  simpl. rewrite Hlong. destruct (value_in a LONG_COLUMN).
  - inv_bind H. apply getitem_Ok_inv in Hstep as [Hf ->].
    apply IH in H as (-> & -> & ->). unfold column_dir. rewrite Hf.
    by rewrite <-app_assoc.
  - apply IH in H as (-> & -> & ->). by rewrite <-app_assoc.
Qed.

Lemma getitem_Ok (d : row) k v w : d !! k = Some v → getitem d k w = (Ok v, w).
Proof. unfold getitem. by intros ->. Qed.


Lemma flags_from_lookup (i : nat) (columns : list row) (flags : gmap nat string) (k : nat) :
  flags_from i columns flags !! k =
  match (if decide (i ≤ k)%nat then columns !! (k - i) else None) with
  | Some c => if is_long c then Some (column_dir c) else flags !! k
  | None => flags !! k
  end.
Proof.
  revert i flags. induction columns as [|c columns IH]; intros i flags; simpl.
  { by case_decide. }
  rewrite IH. destruct (decide (i = k)) as [->|Hne].
  - rewrite decide_False, decide_True by lia. rewrite Nat.sub_diag. simpl.
    destruct (is_long c); [by rewrite lookup_insert_eq|done].
  - assert ((if is_long c then <[i:=column_dir c]> flags else flags) !! k = flags !! k) as ->.
    { destruct (is_long c); [by rewrite lookup_insert_ne|done]. }
    destruct (decide (S i ≤ k)%nat).
    + rewrite decide_True by lia. by replace (k - i) with (S (k - S i)) by lia.
    + by rewrite decide_False by lia.
Qed.

Lemma flags_lookup (columns : list row) (k : nat) :
  flags_from 0 columns ∅ !! k =
  match columns !! k with
  | Some c => if is_long c then Some (column_dir c) else None
  | None => None
  end.
Proof.
  rewrite flags_from_lookup, decide_True, Nat.sub_0_r by lia.
  destruct (columns !! k) as [c|]; [|done]. by destruct (is_long c).
Qed.

Lemma file_read_Ok path w c :
  fs_node (w_fs w) (resolve path) = Some (File c) →
  file_read path w = (Ok (universal_newlines c), w).
Proof. intros H. unfold file_read, open_r. rewrite bind_run. by rewrite H. Qed.



Lemma execute_run stmt data w :
  execute stmt data w =
  (match (engine (w_db w) stmt data).1 with Ok _ => Ok tt | Raise e => Raise e end,
   World (w_fs w) (engine (w_db w) stmt data).2 (w_sent w ++ [(stmt, data)])).
Proof.
  unfold execute, cursor_execute. rewrite bind_run.
  by destruct (engine _ _ _) as [[rows|e] d].
Qed.

Section Dumped.
Context (table_dir sql : string) (columns rs : list row) (f : fs).
Hypothesis Hplain : plain_columns columns = true.
Hypothesis Hreadable : Forall (readable columns) rs.
Hypothesis Hdescribed : Forall described columns.
Hypothesis Hfresh : fs_node f (resolve table_dir) = None.
Hypothesis Hyaml : yaml_load (universal_newlines (yaml_dump columns)) = Some columns.
Hypothesis Hjson : Forall (λ r,
  json_loads (json_dumps (encode_row columns r) +:+ newline)
  = Some (map VStr (encode_row columns r))) rs.

Let ds := dataset_of table_dir sql columns rs f.

Lemma fs_node_ne (g : fs) (p : list string) : p ≠ [] → fs_node g p = g !! p.
Proof. by destruct p. Qed.

Lemma fs_node_app (g : fs) (p l : list string) :
  l ≠ [] → fs_node g (p ++ l) = g !! (p ++ l).
Proof. intros Hl. destruct p, l; done. Qed.




End Dumped.
End Recover.
(** * The claims *)

(** ** The end-to-end scenario *)

Example users_rows_txt :
  w_fs (dump_table (P := Reference.platform) "users" "users" Examples.users_world).2 !! ["users"; "rows.txt"]
  = Some (File ("[" +:+ dquote +:+ "1" +:+ dquote +:+ ", " +:+ dquote +:+ "Alice" +:+ dquote
                +:+ ", " +:+ dquote +:+ "_" +:+ dquote +:+ "]" +:+ newline +:+
                "[" +:+ dquote +:+ "2" +:+ dquote +:+ ", " +:+ dquote +:+ "Bob" +:+ dquote
                +:+ ", " +:+ dquote +:+ "_" +:+ dquote +:+ "]" +:+ newline)).
Proof. vm_compute. reflexivity. Qed.

Example users_sidecars :
  w_fs (dump_table (P := Reference.platform) "users" "users" Examples.users_world).2 !! ["users"; "column_bio"; "0.txt"]
  = Some (File ("hello" +:+ newline +:+ "world")) ∧
  w_fs (dump_table (P := Reference.platform) "users" "users" Examples.users_world).2 !! ["users"; "column_bio"; "1.txt"]
  = Some (File "None").
Proof. split; vm_compute; reflexivity. Qed.


Example round_trip_without_null :
  reproduces (P := Reference.platform) "authors" "authors" Examples.authors_world [].
Proof.
  intros w1 w2 H1 H2.
  assert (w1 = (dump_table "authors" "authors" Examples.authors_world).2) as ->
    by by rewrite H1.
  assert (w2 = (recover_table "authors" "authors"
      (World (w_fs (dump_table "authors" "authors" Examples.authors_world).2) [] [])).2) as ->
    by by rewrite H2.
  vm_compute. reflexivity.
Qed.

Section Claims.
Context `{P : Platform}.



End Claims.

Section Decode.
Context `{P : Platform}.

Lemma file_read_Ok_inv path w s w' :
  file_read path w = (Ok s, w') →
  ∃ c, fs_node (w_fs w) (resolve path) = Some (File c) ∧
    s = universal_newlines c ∧ w' = w.
Proof.
  unfold file_read, open_r. rewrite bind_run.
  destruct (fs_node _ _) as [[c|]|]; [|done..]. intros [= <- <-]. eauto.
Qed.

Lemma decode_row_Ok_inv table_dir flags n i pending done w outs w' :
  decode_row table_dir flags n i pending (done ++ pending) w = (Ok outs, w') →
  length done = i →
  ∃ outs', outs = done ++ outs' ∧
    decodes (w_fs w) table_dir flags n i pending outs' ∧ w' = w.
Proof.
  revert i done. induction pending as [|v pending IH]; intros i done H <-.
  { injection H as <- <-. exists []. split_and!; [done|constructor|done]. }
  simpl in H. inv_bind H.
  rewrite insert_app_r_alt, Nat.sub_diag in H by done. simpl in H.
  rewrite (cons_middle _ done pending), app_assoc in H.
  destruct (flags !! length done) as [dir|] eqn:Hflag.
  - inv_bind Hstep. apply file_read_Ok_inv in Hstep0 as (c & Hc & -> & ->).
    injection Hstep as <- <-.
    apply IH in H as (outs' & -> & Hd & ->); [|rewrite length_app; simpl; lia].
    exists (VStr (universal_newlines c) :: outs').
    split_and!; [by rewrite <-app_assoc| |done].
    by eapply decodes_long.
  - injection Hstep as <- <-.
    apply IH in H as (outs' & -> & Hd & ->); [|rewrite length_app; simpl; lia].
    exists (v :: outs').
    split_and!; [by rewrite <-app_assoc| |done].
    by eapply decodes_scalar.
Qed.

Lemma decodes_length f table_dir flags n i pending outs :
  decodes f table_dir flags n i pending outs → length outs = length pending.
Proof. induction 1; simpl; congruence. Qed.

Lemma decodes_lookup_long f table_dir flags n i pending outs (k : nat) d :
  decodes f table_dir flags n i pending outs →
  k < length pending → flags !! (i + k) = Some d →
  ∃ c, fs_node f (resolve (os_path_join (os_path_join table_dir d) (cell_file n)))
       = Some (File c) ∧
    outs !! k = Some (VStr (universal_newlines c)).
Proof.
  intros Hd. revert k.
  induction Hd as [i|i v pending outs d' c Hflag Hfile Hd IH|i v pending outs Hflag Hd IH];
    intros k Hk Hf; simpl in Hk; [lia|..].
  - destruct k as [|k].
    + rewrite Nat.add_0_r, Hflag in Hf. injection Hf as ->. eauto.
    + apply IH; [lia|]. by rewrite Nat.add_succ_comm.
  - destruct k as [|k].
    + by rewrite Nat.add_0_r, Hflag in Hf.
    + apply IH; [lia|]. by rewrite Nat.add_succ_comm.
Qed.

Lemma decodes_lookup_scalar f table_dir flags n i pending outs (k : nat) :
  decodes f table_dir flags n i pending outs →
  flags !! (i + k) = None → outs !! k = pending !! k.
Proof.
  intros Hd. revert k.
  induction Hd as [i|i v pending outs d' c Hflag Hfile Hd IH|i v pending outs Hflag Hd IH];
    intros k Hf; [done|..].
  - destruct k as [|k].
    + by rewrite Nat.add_0_r, Hflag in Hf.
    + apply IH. by rewrite Nat.add_succ_comm.
  - destruct k as [|k]; [done|].
    apply IH. by rewrite Nat.add_succ_comm.
Qed.

End Decode.

Section Claims2.
Context `{P : Platform}.





End Claims2.




Section Claims3.
Context `{P : Platform}.

Lemma fs_wf_ancestor (f : fs) (p l : list string) n :
  fs_wf f → f !! (p ++ l) = Some n → l ≠ [] → fs_node f p = Some Dir.
Proof.
  intros Hwf. revert n. induction l as [|x l IH] using rev_ind; intros n Hl Hne; [done|].
  apply Hwf in Hl. rewrite app_assoc, removelast_last in Hl.
  destruct l as [|y l]; [by rewrite app_nil_r in Hl|].
  rewrite fs_node_app in Hl by done. by eapply IH.
Qed.

Lemma removelast_not_prefix (p : list string) : p ≠ [] → ¬ p `prefix_of` removelast p.
Proof.
  intros Hp [k Hk]. apply (f_equal length) in Hk.
  destruct p as [|x p] using rev_ind; [done|].
  rewrite removelast_last, !length_app in Hk. simpl in Hk. lia.
Qed.

(** C5.  Whatever occupies the dataset root, a file or a directory,
    [dump] first removes it with everything below it and creates the
    directory anew; the tables are dumped from the world in which the
    root is an empty directory and every path outside it is as before. *)
Theorem dump_prepare_fresh (data_dir : string) (w : world) (n : node) :
  resolve data_dir ≠ [] →
  fs_wf (w_fs w) →
  w_fs w !! resolve data_dir = Some n →
  ∃ f',
    dump_prepare data_dir w = (Ok tt, set_fs f' w) ∧
    f' !! resolve data_dir = Some Dir ∧
    (∀ q, resolve data_dir `prefix_of` q → q ≠ resolve data_dir → f' !! q = None) ∧
    (∀ q, ¬ resolve data_dir `prefix_of` q → f' !! q = w_fs w !! q) ∧
    dump data_dir w
    = try_except (connection;; dump_tables data_dir) is_ConnectionError error (set_fs f' w).
Proof.
  intros Hp Hwf Hn. set (p := resolve data_dir) in *.
  assert (Hparent : fs_node (w_fs w) (removelast p) = Some Dir) by by eapply Hwf.
  assert (Hnode : fs_node (w_fs w) p = Some n) by by rewrite fs_node_ne.
  assert (Hother : ∀ g : fs, (∀ q, ¬ p `prefix_of` q → g !! q = w_fs w !! q) →
    fs_node g (removelast p) = Some Dir).
  { intros g Hg. destruct (removelast p) as [|x l] eqn:E; [done|].
    simpl. rewrite Hg; [by rewrite <-Hparent|].
    rewrite <-E. by apply removelast_not_prefix. }
  assert (∃ f1, (isdir ← os_path_isdir data_dir;
                 if isdir : bool then shutil_rmtree data_dir
                 else isfile ← os_path_isfile data_dir;
                      if isfile : bool then os_remove data_dir else mret tt) w
                = (Ok tt, set_fs f1 w) ∧
          (∀ q, p `prefix_of` q → f1 !! q = None) ∧
          (∀ q, ¬ p `prefix_of` q → f1 !! q = w_fs w !! q)) as (f1 & Hrun & Hin & Hout).
  { rewrite bind_run. unfold os_path_isdir at 1. fold p. rewrite Hnode.
    destruct n as [c|].
    - rewrite bool_decide_eq_false_2 by done. exists (delete p (w_fs w)).
      rewrite bind_run. unfold os_path_isfile at 1, os_remove. fold p. rewrite Hnode.
      cbv zeta. fold p. rewrite ?Hnode.
      split_and!; [done| |].
      + intros q [l ->]. destruct l as [|x l].
        * by rewrite app_nil_r, lookup_delete_eq.
        * rewrite lookup_delete_ne.
          2:{ intros Heq. apply (f_equal length) in Heq. rewrite length_app in Heq.
              simpl in Heq. lia. }
          destruct (w_fs w !! (p ++ x :: l)) as [n|] eqn:E; [|done].
          eapply fs_wf_ancestor in E; [|done..]. congruence.
      + intros q Hq. rewrite lookup_delete_ne; [done|]. by intros <-.
    - rewrite bool_decide_eq_true_2 by done. exists (fs_rmtree (w_fs w) p).
      unfold shutil_rmtree. cbv zeta. fold p. rewrite Hnode.
      split_and!.
      + by destruct p.
      + intros q Hq. unfold fs_rmtree. apply map_lookup_filter_None. right.
        intros n _ Hnot. by apply Hnot.
      + intros q Hq. unfold fs_rmtree.
        destruct (w_fs w !! q) as [n|] eqn:E.
        * by apply map_lookup_filter_Some.
        * apply map_lookup_filter_None. by left. }
  assert (Hmk : os_mkdir data_dir (set_fs f1 w) = (Ok tt, set_fs (<[p := Dir]> f1) w)).
  { rewrite os_mkdir_Ok; simpl; fold p; [done| |by apply Hother].
    rewrite fs_node_ne by done. by apply Hin. }
  assert (Hprep : dump_prepare data_dir w = (Ok tt, set_fs (<[p := Dir]> f1) w)).
  { unfold dump_prepare. rewrite bind_run in Hrun |- *.
    destruct (os_path_isdir data_dir w) as [[isdir|e] w0]; [|done].
    rewrite !(bind_run _ (λ _, os_mkdir data_dir)).
    rewrite Hrun. done. }
  exists (<[p := Dir]> f1). split_and!.
  - done.
  - by rewrite lookup_insert_eq.
  - intros q Hq Hne. rewrite lookup_insert_ne by done. by apply Hin.
  - intros q Hq. rewrite lookup_insert_ne; [by apply Hout|]. by intros <-.
  - unfold dump. by erewrite bind_Ok.
Qed.

End Claims3.

Lemma dump_prepare_fresh_witness :
  ∃ f',
    dump_prepare (P := Reference.platform) "data"
      (@World Reference.platform {[ ["data"] := File "stray" ]} [] [])
    = (Ok tt, @World Reference.platform f' [] []) ∧
    f' !! ["data"] = Some Dir.
Proof.
  destruct (dump_prepare_fresh (P := Reference.platform) "data"
    (@World Reference.platform {[ ["data"] := File "stray" ]} [] []) (File "stray"))
    as (f' & H1 & H2 & _).
  - vm_compute. discriminate.
  - apply map_Forall_insert_2; [reflexivity|apply map_Forall_empty].
  - vm_compute. reflexivity.
  - exists f'. split; [exact H1|exact H2].
Defined.
Section Claims4.
Context `{P : Platform}.

Lemma encode_row_lookup (columns : list row) (r : row) (j : nat) :
  encode_row columns r !! j
  = (λ c, if is_long c then "_" else cell_text r c) <$> columns !! j.
Proof. unfold encode_row. by rewrite list_lookup_fmap. Qed.

(** C6.  After a successful [dump_table], [rows.txt] holds one line per
    row of the table, in row order; each line is the [json.dumps] array of
    the row, which contains no line break, followed by a newline; every
    array has one slot per descriptor, in descriptor order, and the slot
    of a long column holds the sentinel. *)
Theorem rows_artifact_shape (table_dir table_name : string) (w w1 : world)
    (sql : string) (columns rs : list row) (d : db) :
  dump_table table_dir table_name w = (Ok tt, w1) →
  snapshot (w_db w) table_name = Some (sql, columns, rs, d) →
  w_fs w1 !! resolve (os_path_join table_dir "rows.txt")
    = Some (File (rows_text columns rs)) ∧
  file_lines (rows_text columns rs)
    = map (λ r, json_dumps (encode_row columns r) +:+ newline) rs ∧
  ∀ r : row,
    has_char "010" (json_dumps (encode_row columns r)) = false ∧
    length (encode_row columns r) = length columns ∧
    ∀ (j : nat) (c : row), columns !! j = Some c →
      encode_row columns r !! j = Some (if is_long c then "_" else cell_text r c).
Proof.
  intros Hdump Hsnap.
  apply dump_table_Ok_inv in Hdump
    as (sql' & columns' & rs' & d' & Hsnap' & -> & Hdesc & Hread & Hfresh & _).
  rewrite Hsnap in Hsnap'. injection Hsnap' as <- <- <- <-. cbn [w_fs].
  split_and!.
  - by rewrite table_file_path, dataset_rows.
  - apply file_lines_rows_text.
  - intros r. split_and!.
    + apply has_char_json_dumps. auto.
    + unfold encode_row. by rewrite length_map.
    + intros j c Hj. by rewrite encode_row_lookup, Hj.
Qed.

(** Reading does not change the world. *)
Lemma file_read_world path w : (file_read path w).2 = w.
Proof.
  unfold file_read, open_r. rewrite bind_run. by destruct (fs_node _ _) as [[]|].
Qed.

Lemma file_readlines_world path w : (file_readlines path w).2 = w.
Proof.
  unfold file_readlines, open_r. rewrite bind_run. by destruct (fs_node _ _) as [[]|].
Qed.

Lemma file_readlines_Ok_inv path w lines w' :
  file_readlines path w = (Ok lines, w') →
  ∃ c, fs_node (w_fs w) (resolve path) = Some (File c) ∧ lines = file_lines c.
Proof.
  unfold file_readlines, open_r. rewrite bind_run.
  destruct (fs_node _ _) as [[c|]|]; [|done..]. intros [= <- <-]. eauto.
Qed.

Lemma check_columns_world i columns ph flags w :
  (check_columns i columns ph flags w).2 = w.
Proof.
  revert i ph flags. induction columns as [|c columns IH]; intros i ph flags; [done|].
  simpl. rewrite bind_run. unfold getitem at 1. destruct (c !! "Type") as [ty|]; [|done].
  rewrite ret_run. destruct (value_in ty LONG_COLUMN); [|apply IH].
  rewrite bind_run. unfold getitem at 1. destruct (c !! "Field") as [v|]; [|done].
  rewrite ret_run. apply IH.
Qed.

Lemma decode_row_world table_dir flags n i pending data w :
  (decode_row table_dir flags n i pending data w).2 = w.
Proof.
  revert i data. induction pending as [|v pending IH]; intros i data; [done|].
  simpl. rewrite bind_run. destruct (flags !! i) as [dir|].
  - rewrite bind_run.
    pose proof (file_read_world
      (os_path_join (os_path_join table_dir dir) (pretty n +:+ ".txt")) w) as Hw.
    destruct (file_read _ w) as [[c|e] w0]; simpl in Hw; subst w0; [|done].
    rewrite ret_run. apply IH.
  - rewrite ret_run. apply IH.
Qed.

Lemma recover_lines_sent table_dir flags stmt n lines w :
  ∃ sent,
    w_sent (recover_lines table_dir flags stmt n lines w).2 = w_sent w ++ sent ∧
    Forall (is_insert stmt) sent ∧
    ((recover_lines table_dir flags stmt n lines w).1 = Ok tt →
     length sent = length lines).
Proof.
  revert n w. induction lines as [|line lines IH]; intros n w.
  { exists []. by rewrite app_nil_r. }
  simpl. rewrite bind_run.
  assert (∃ sent1,
    w_sent (recover_line table_dir flags stmt n line w).2 = w_sent w ++ sent1 ∧
    Forall (is_insert stmt) sent1 ∧
    ((recover_line table_dir flags stmt n line w).1 = Ok tt → length sent1 = 1))
    as (sent1 & Hs1 & Hf1 & Hl1).
  { unfold recover_line, json_loads_line. rewrite bind_run.
    destruct (json_loads line) as [data|]; [|exists []; by rewrite app_nil_r].
    rewrite ret_run, bind_run.
    pose proof (decode_row_world table_dir flags n 0 data data w) as Hw.
    destruct (decode_row _ _ _ _ _ _ w) as [[data'|e] w0]; simpl in Hw; subst w0;
      [|exists []; by rewrite app_nil_r].
    rewrite execute_run. exists [(stmt, Some data')]. simpl.
    split_and!; [done| |done]. constructor; [|done]. by split. }
  destruct (recover_line _ _ _ _ _ w) as [[u|e] w0]; simpl in *.
  - destruct u. destruct (IH (S n) w0) as (sent & Hs & Hf & Hl).
    exists (sent1 ++ sent). rewrite Hs, Hs1, app_assoc.
    split_and!; [done|by apply Forall_app|].
    intros Hok. rewrite length_app, Hl, Hl1 by done. done.
  - exists sent1. by split_and!.
Qed.

(** C7.  [recover_table] builds the INSERT statement once, from the
    table name and one [%s] per descriptor of [desc_table.yaml]; apart
    from the DROP and the stored create statement that come first, every
    statement it executes is that one statement with a list of
    parameters, and a recovery that succeeds has executed it once for
    every line of [rows.txt]. *)
Theorem recover_table_insert_template (table_dir table_name text : string)
    (columns : list row) (w : world) :
  fs_node (w_fs w) (resolve (os_path_join table_dir "desc_table.yaml")) = Some (File text) →
  yaml_load (universal_newlines text) = Some columns →
  let stmt := "INSERT INTO " +:+ table_name +:+ " VALUE ("
              +:+ str_join ", " (replicate (length columns) "%s") +:+ ")" in
  ∃ sent,
    w_sent (recover_table table_dir table_name w).2 = w_sent w ++ sent ∧
    Forall (is_insert stmt) (drop 2 sent) ∧
    ((recover_table table_dir table_name w).1 = Ok tt →
     ∃ rows, fs_node (w_fs w) (resolve (os_path_join table_dir "rows.txt"))
             = Some (File rows) ∧
       length sent = 2 + length (file_lines rows)).
Proof.
  intros Hdesc Hyaml stmt. unfold recover_table.
  pose (drop_stmt := ("DROP TABLE " +:+ table_name, @None (list value))).
  assert (Hstop : ∀ (r : outcome ()) w' sent,
    w_sent w' = w_sent w ++ sent → (∀ u, r ≠ Ok u) → (length sent ≤ 2)%nat →
    ∃ sent0, w_sent (r, w').2 = w_sent w ++ sent0 ∧
      Forall (is_insert stmt) (drop 2 sent0) ∧
      ((r, w').1 = Ok tt →
       ∃ rows, fs_node (w_fs w) (resolve (os_path_join table_dir "rows.txt"))
               = Some (File rows) ∧
         length sent0 = 2 + length (file_lines rows))).
  { intros r w' sent Hs Hr Hlen. exists sent. split_and!; [done| |by intros ?%Hr].
    rewrite drop_ge by done. constructor. }
  rewrite bind_run. unfold os_path_isdir.
  destruct (bool_decide (fs_node _ _ = Some Dir)); cbn [negb];
    [|unfold raise; apply (Hstop _ _ []); [by rewrite app_nil_r|done|simpl; lia]].
  rewrite bind_run.
  pose proof (fsp_drop_table_if_exists table_name w) as Hfs1.
  assert (w_sent (drop_table_if_exists table_name w).2 = w_sent w ++ [drop_stmt]) as Hs1.
  { unfold drop_table_if_exists, try_except. rewrite execute_run.
    destruct (engine _ _ _).1 as [rows|e]; [done|].
    destruct e as [| | | | | | | | | | | |[] message]; try done.
    by destruct (String.index _ _ _). }
  destruct (drop_table_if_exists table_name w) as [[u|e] w1]; simpl in Hfs1, Hs1;
    [|apply (Hstop _ _ [drop_stmt]); [done|done|simpl; lia]].
  rewrite bind_run.
  pose proof (file_read_world (os_path_join table_dir "create_table.sql") w1) as Hw.
  destruct (file_read _ w1) as [[sql|e] w0]; simpl in Hw; subst w0;
    [|apply (Hstop _ _ [drop_stmt]); [done|done|simpl; lia]].
  rewrite bind_run, execute_run.
  set (w2 := World (w_fs w1) _ _).
  assert (Hs2 : w_sent w2 = w_sent w ++ [drop_stmt; (sql, None)]).
  { unfold w2. simpl. by rewrite Hs1, <-app_assoc. }
  destruct (engine _ _ _).1 as [rows|e];
    [|apply (Hstop _ _ [drop_stmt; (sql, None)]); [done|done|simpl; lia]].
  erewrite bind_Ok by (apply file_read_Ok; simpl; by rewrite Hfs1).
  unfold yaml_load_text. rewrite Hyaml, bind_run, ret_run. cbv beta iota.
  rewrite bind_run.
  pose proof (check_columns_world 0 columns [] ∅ w2) as Hw.
  destruct (check_columns 0 columns [] ∅ w2) as [[[ph flags]|e] w0] eqn:Hcheck;
    simpl in Hw; subst w0;
    [|apply (Hstop _ _ [drop_stmt; (sql, None)]); [done|done|simpl; lia]].
  apply check_columns_Ok_inv in Hcheck as (-> & -> & _). rewrite app_nil_l.
  rewrite bind_run.
  pose proof (file_readlines_world (os_path_join table_dir "rows.txt") w2) as Hw.
  destruct (file_readlines _ w2) as [[lines|e] w0] eqn:Hlines; simpl in Hw; subst w0;
    [|apply (Hstop _ _ [drop_stmt; (sql, None)]); [done|done|simpl; lia]].
  destruct (recover_lines_sent table_dir (flags_from 0 columns ∅)
    (insert_stmt table_name (replicate (length columns) "%s")) 0 lines w2)
    as (sent & Hs & Hf & Hl).
  exists ([drop_stmt; (sql, None)] ++ sent).
  rewrite Hs, Hs2, <-app_assoc. split_and!; [done|done|].
  intros Hok. apply file_readlines_Ok_inv in Hlines as (rows_text & Hrows & ->).
  simpl in Hrows. rewrite Hfs1 in Hrows.
  exists rows_text. split; [done|].
  rewrite length_app, Hl by done. done.
Qed.

(** C8.  Recovering changes nothing under the dataset root, nor anywhere
    else in the file system: whatever the outcome, [recover] and
    [recover_table] leave the file system they found. *)
Theorem recover_leaves_dataset (data_dir table_dir table_name : string) (w : world) :
  w_fs (recover data_dir w).2 = w_fs w ∧
  w_fs (recover_table table_dir table_name w).2 = w_fs w.
Proof. split; [apply fsp_recover|apply fsp_recover_table]. Qed.

Lemma decode_row_agree table_dir flags n (pending1 pending2 : list value) i seen w :
  length pending1 = length pending2 →
  (∀ k : nat, flags !! (i + k) = None → pending1 !! k = pending2 !! k) →
  length seen = i →
  decode_row table_dir flags n i pending1 (seen ++ pending1) w
  = decode_row table_dir flags n i pending2 (seen ++ pending2) w.
Proof.
  revert pending2 i seen.
  induction pending1 as [|v1 pending1 IH]; intros [|v2 pending2] i seen Hlen Hsame <-;
    [done..|].
  simpl. rewrite !bind_run.
  assert (Hnext : ∀ x,
    decode_row table_dir flags n (S (length seen)) pending1
      (<[length seen := x]> (seen ++ v1 :: pending1)) w
    = decode_row table_dir flags n (S (length seen)) pending2
      (<[length seen := x]> (seen ++ v2 :: pending2)) w).
  { intros x. rewrite !insert_app_r_alt, !Nat.sub_diag by done. simpl.
    rewrite (cons_middle _ seen pending1), (cons_middle _ seen pending2), !app_assoc.
    apply IH.
    - simpl in Hlen. lia.
    - intros k Hk. apply (Hsame (S k)). by rewrite Nat.add_succ_r.
    - rewrite length_app. simpl. lia. }
  destruct (flags !! length seen) as [dir|] eqn:Hflag.
  - rewrite bind_run.
    pose proof (file_read_world
      (os_path_join (os_path_join table_dir dir) (pretty n +:+ ".txt")) w) as Hw.
    destruct (file_read _ w) as [[c|e] w0]; simpl in Hw; subst w0; [|done].
    rewrite ret_run. apply Hnext.
  - rewrite !ret_run. specialize (Hsame 0). rewrite Nat.add_0_r in Hsame.
    specialize (Hsame Hflag). injection Hsame as ->. apply Hnext.
Qed.

(** C9.  Two lines of [rows.txt] whose arrays have the same length and
    agree at every position that is not a long column's are recovered
    alike, whatever they hold at the long positions: same outcome, same
    INSERT with the same parameters, same database. *)
Theorem recover_line_ignores_long_slots (table_dir : string) (flags : gmap nat string)
    (stmt : string) (n : nat) (line1 line2 : string) (data1 data2 : list value)
    (w : world) :
  json_loads line1 = Some data1 →
  json_loads line2 = Some data2 →
  length data1 = length data2 →
  (∀ k : nat, flags !! k = None → data1 !! k = data2 !! k) →
  recover_line table_dir flags stmt n line1 w = recover_line table_dir flags stmt n line2 w.
Proof.
  intros H1 H2 Hlen Hsame. unfold recover_line, json_loads_line. rewrite H1, H2.
  rewrite !(bind_run (mret _)), !ret_run. cbv beta iota.
  pose proof (decode_row_agree table_dir flags n data1 data2 0 [] w Hlen Hsame eq_refl) as H.
  simpl in H. by rewrite !bind_run, H.
Qed.

Lemma for_each_app {A} (l1 l2 : list A) (body : A → M unit) w :
  for_each (l1 ++ l2) body w = (for_each l1 body;; for_each l2 body) w.
Proof.
  revert w. induction l1 as [|x l1 IH]; intros w; [done|].
  simpl. rewrite !bind_run. destruct (body x w) as [[u|e] w1]; [|done].
  by rewrite IH, bind_run.
Qed.

(** C10.  An entry of the dataset root that is not a directory is not
    skipped: once the entries listed before it have been recovered,
    [recover_table] is called on it and raises [RecoverError] without
    touching the database, and [recover] ends with that exception, the
    entries listed after it untouched. *)
Theorem recover_stops_at_stray_entry (data_dir entry : string) (pre post : list string)
    (w w1 : world) :
  connection_failure = None →
  fs_node (w_fs w) (resolve data_dir) = Some Dir →
  listdir_order (fs_children (w_fs w) (resolve data_dir)) = pre ++ entry :: post →
  for_each pre (λ table, recover_table (os_path_join data_dir table) table) w = (Ok tt, w1) →
  fs_node (w_fs w) (resolve (os_path_join data_dir entry)) ≠ Some Dir →
  recover_table (os_path_join data_dir entry) entry w1
    = (Raise (not_a_directory (os_path_join data_dir entry)), w1) ∧
  recover data_dir w = (Raise (not_a_directory (os_path_join data_dir entry)), w1).
Proof.
  intros Hconn Hdir Hlist Hpre Hentry.
  assert (Hfs : w_fs w1 = w_fs w).
  { pose proof (fsp_for_each pre
      (λ table, recover_table (os_path_join data_dir table) table)
      (λ table, fsp_recover_table _ _) w) as H.
    by rewrite Hpre in H. }
  assert (Hstray : recover_table (os_path_join data_dir entry) entry w1
    = (Raise (not_a_directory (os_path_join data_dir entry)), w1)).
  { unfold recover_table. rewrite bind_run. unfold os_path_isdir at 1.
    rewrite Hfs, bool_decide_eq_false_2 by done. done. }
  split; [done|].
  unfold recover. rewrite bind_run. unfold os_path_isdir at 1.
  rewrite bool_decide_eq_true_2 by done. cbn [negb].
  unfold try_except, connection, recover_tables. rewrite Hconn.
  rewrite bind_run, ret_run, bind_run. unfold os_listdir at 1. rewrite Hdir, Hlist.
  rewrite for_each_app, bind_run, Hpre. simpl. rewrite bind_run, Hstray. done.
Qed.

End Claims4.
Lemma rows_artifact_shape_witness :
  let w1 := (dump_table (P := Reference.platform) "users" "users" Examples.users_world).2 in
  w_fs w1 !! ["users"; "rows.txt"]
  = Some (File (rows_text (map Reference.descriptor (Reference.t_columns Examples.users))
                  (Reference.t_rows Examples.users))).
Proof.
  intros w1.
  refine (proj1 (rows_artifact_shape (P := Reference.platform)
    "users" "users" Examples.users_world w1
    (Reference.t_create Examples.users) _ _ [("users", Examples.users)] _ _)).
  - vm_compute. reflexivity.
  - vm_compute. reflexivity.
Defined.

Lemma recover_table_insert_template_witness :
  let w1 := @World Reference.platform
    (w_fs (dump_table (P := Reference.platform) "users" "users" Examples.users_world).2)
    [] [] in
  ∃ sent,
    w_sent (recover_table "users" "users" w1).2 = w_sent w1 ++ sent ∧
    Forall (is_insert "INSERT INTO users VALUE (%s, %s, %s)") (drop 2 sent).
Proof.
  intros w1.
  destruct (recover_table_insert_template (P := Reference.platform) "users" "users"
    (Reference.dump_descriptors (map Reference.descriptor (Reference.t_columns Examples.users)))
    (map Reference.descriptor (Reference.t_columns Examples.users)) w1) as (sent & H1 & H2 & _).
  - vm_compute. reflexivity.
  - vm_compute. reflexivity.
  - exists sent. split; [exact H1|exact H2].
Defined.

Lemma recover_line_ignores_long_slots_witness :
  let line1 := "[" +:+ dquote +:+ "2" +:+ dquote +:+ ", " +:+ dquote +:+ "_" +:+ dquote +:+ "]" in
  let line2 := "[" +:+ dquote +:+ "2" +:+ dquote +:+ ", " +:+ dquote +:+ "x" +:+ dquote +:+ "]" in
  let w := @World Reference.platform {[ ["t"] := Dir ]} [] [] in
  recover_line "t" {[ 1 := "column_bio" ]} "INSERT INTO t VALUE (%s, %s)" 0 line1 w
  = recover_line "t" {[ 1 := "column_bio" ]} "INSERT INTO t VALUE (%s, %s)" 0 line2 w.
Proof.
  intros line1 line2 w.
  refine (recover_line_ignores_long_slots (P := Reference.platform) "t" {[ 1 := "column_bio" ]}
    "INSERT INTO t VALUE (%s, %s)" 0 line1 line2 [VStr "2"; VStr "_"] [VStr "2"; VStr "x"] w
    _ _ _ _).
  - vm_compute. reflexivity.
  - vm_compute. reflexivity.
  - reflexivity.
  - intros [|[|k]] Hk; [reflexivity|vm_compute in Hk; discriminate Hk|reflexivity].
Defined.

Lemma recover_stops_at_stray_entry_witness :
  let w := @World Reference.platform
    {[ ["data"] := Dir; ["data"; "notes.txt"] := File "stray" ]} [] [] in
  recover "data" w = (Raise (not_a_directory "data/notes.txt"), w).
Proof.
  intros w.
  refine (proj2 (recover_stops_at_stray_entry (P := Reference.platform)
    "data" "notes.txt" [] [] w w _ _ _ _ _)).
  - reflexivity.
  - vm_compute. reflexivity.
  - vm_compute. reflexivity.
  - reflexivity.
  - vm_compute. discriminate.
Defined.

(** ** The row index, written and read back *)

Lemma has_char_pretty_N_go c x s :
  Ascii.is_nat c = None → has_char c s = false → has_char c (pretty_N_go x s) = false.
Proof.
  intros Hc. revert s. induction (N.lt_wf_0 x) as [x _ IH]; intros s Hs.
  assert (x = 0 ∨ 0 < x)%N as [->|?] by lia.
  - by rewrite pretty_N_go_0.
  - rewrite pretty_N_go_step by done. apply IH.
    { by apply N.div_lt. }
    simpl. rewrite Hs, orb_false_r. apply bool_decide_eq_false_2. intros <-.
    unfold pretty_N_char in Hc. by repeat case_match.
Qed.

Lemma has_char_pretty_nat c (i : nat) : Ascii.is_nat c = None → has_char c (pretty i) = false.
Proof.
  intros Hc. unfold pretty, pretty_nat, pretty, pretty_N. case_decide.
  - simpl. rewrite orb_false_r. apply bool_decide_eq_false_2. by intros <-.
  - by apply has_char_pretty_N_go.
Qed.

Lemma cell_file_not (i : nat) (name : string) :
  name = "rows.txt" ∨ name = "desc_table.yaml" ∨ name = "create_table.sql" →
  cell_file i ≠ name.
Proof.
  intros Hname Heq.
  assert (has_char "s" (cell_file i) = false) as Hs.
  { unfold cell_file. by rewrite has_char_app, has_char_pretty_nat. }
  rewrite Heq in Hs. by destruct Hname as [->|[->| ->]].
Qed.

Lemma cell_path_dir table_dir (c : row) (i : nat) :
  cell_path table_dir c i = resolve (os_path_join table_dir (column_dir c)) ++ [cell_file i].
Proof. unfold cell_path. apply resolve_join, plain_cell_file. Qed.

Section Sidecars.
Context `{P : Platform}.

(** The directory of a long column, as [dump_table] and [recover_table]
    compute it. *)
Let D (table_dir : string) (c : row) : list string :=
  resolve (os_path_join table_dir (column_dir c)).

(** A successful [dump_column_dirs] has made one new directory per long
    column: none of them was there before, and no two long columns share
    one. *)
Lemma dump_column_dirs_fresh table_dir columns w u w' :
  dump_column_dirs table_dir columns w = (Ok u, w') →
  (∀ c : row, c ∈ columns → is_long c = true → fs_node (w_fs w) (D table_dir c) = None) ∧
  (∀ c c' : row, c ∈ columns → c' ∈ columns → is_long c = true → is_long c' = true →
     D table_dir c = D table_dir c' → c = c').
Proof.
  unfold dump_column_dirs. revert w w'.
  induction columns as [|c columns IH]; intros w w' H.
  { split; [by intros c ?%elem_of_nil|by intros c c' ?%elem_of_nil]. }
  simpl in H. inv_bind H. inv_bind Hstep. apply getitem_Ok_inv in Hstep0 as [Hty ->].
  assert (Hlong : is_long c = value_in a0 LONG_COLUMN) by (unfold is_long; by rewrite Hty).
  destruct (value_in a0 LONG_COLUMN) eqn:Hin.
  - inv_bind Hstep. apply getitem_Ok_inv in Hstep0 as [Hf ->].
    apply os_mkdir_Ok_inv in Hstep as (Hnone & _ & ->).
    assert (Hdir : resolve (os_path_join table_dir ("column_" +:+ str a1)) = D table_dir c).
    { unfold D, column_dir. by rewrite Hf. }
    rewrite Hdir in *.
    apply IH in H as [Hfresh Hinj]. cbn [w_fs set_fs] in Hfresh.
    assert (Hrest : ∀ c' : row, c' ∈ columns → is_long c' = true →
      D table_dir c' ≠ D table_dir c ∧ fs_node (w_fs w) (D table_dir c') = None).
    { intros c' Hc' Hl'. specialize (Hfresh c' Hc' Hl').
      destruct (D table_dir c') as [|x l] eqn:E; [done|]. cbn [fs_node] in *.
      split.
      - intros Heq. by rewrite Heq, lookup_insert_eq in Hfresh.
      - apply lookup_insert_None in Hfresh as [Hfresh _]. done. }
    split.
    + intros c' [->|Hc']%elem_of_cons Hl'; [done|]. by apply Hrest.
    + intros c1 c2 [->|H1]%elem_of_cons [->|H2]%elem_of_cons Hl1 Hl2 Heq; [done|..].
      * by destruct (Hrest c2 H2 Hl2) as [[] _].
      * by destruct (Hrest c1 H1 Hl1) as [[] _].
      * by apply Hinj.
  - injection Hstep as _ <-. apply IH in H as [Hfresh Hinj]. split.
    + intros c' [->|Hc']%elem_of_cons Hl'; [congruence|]. by apply Hfresh.
    + intros c1 c2 [->|H1]%elem_of_cons [->|H2]%elem_of_cons Hl1 Hl2 Heq; try congruence.
      by apply Hinj.
Qed.

Lemma write_rows_cell_distinct (table_dir : string) (columns : list row) (i k : nat)
    (rs : list row) (f : fs) (r c : row) :
  (∀ c' : row, c' ∈ columns → is_long c' = true →
     D table_dir c' = D table_dir c → c' = c) →
  rs !! k = Some r → c ∈ columns → is_long c = true →
  write_rows table_dir columns i rs f !! cell_path table_dir c (i + k)
  = Some (File (cell_text r c)).
Proof.
  intros Hinj Hk Hc Hl. revert i k f Hk.
  induction rs as [|r0 rs IH]; intros i k f Hk; [done|].
  destruct k as [|k]; simpl in *.
  - injection Hk as ->. rewrite Nat.add_0_r, write_rows_other.
    + apply write_cells_cell; [done..|].
      intros c' Hc' Hl'. rewrite !cell_path_dir.
      intros Heq%app_inj_tail. destruct Heq as [Heq _].
      by rewrite (Hinj c' Hc' Hl' Heq).
    + intros c' j Hc' Hl' _. rewrite !cell_path_dir.
      intros [_ Heq%cell_file_inj]%app_inj_tail. lia.
  - rewrite Nat.add_succ_r. change (S (i + k)) with (S i + k). by apply IH.
Qed.

Lemma drop_table_if_exists_Ok_inv table_name w u w' :
  drop_table_if_exists table_name w = (Ok u, w') →
  w' = World (w_fs w) (engine (w_db w) ("DROP TABLE " +:+ table_name) None).2
         (w_sent w ++ [("DROP TABLE " +:+ table_name, None)]).
Proof.
  unfold drop_table_if_exists, try_except. rewrite execute_run. intros H.
  destruct (engine _ _ _).1 as [rows|e]; [by injection H as <-|].
  destruct e as [| | | | | | | | | | | |[] message]; try done.
  destruct (String.index 0 "Unknown table " message); [|done].
  by injection H as <-.
Qed.

(** The parameters of the INSERTs of a successful [recover_lines]: the
    one of line [k], counted from the first, holds at every long position
    what the sidecar file numbered [n + k] holds. *)
Lemma recover_lines_params table_dir (flags : gmap nat string) stmt n lines w w' :
  recover_lines table_dir flags stmt n lines w = (Ok tt, w') →
  ∃ params : list (list value),
    w_sent w' = w_sent w ++ map (λ ps, (stmt, Some ps)) params ∧
    length params = length lines ∧
    ∀ (k j : nat) (ps : list value) (d : string),
      params !! k = Some ps → flags !! j = Some d → j < length ps →
      ∃ content,
        fs_node (w_fs w) (resolve (os_path_join (os_path_join table_dir d)
                                     (cell_file (n + k)))) = Some (File content) ∧
        ps !! j = Some (VStr (universal_newlines content)).
Proof.
  revert n w. induction lines as [|line lines IH]; intros n w H.
  { injection H as <-. exists []. simpl. rewrite app_nil_r. split_and!; [done..|].
    by intros k j ps d ?. }
  cbn [recover_lines] in H. inv_bind H. unfold recover_line in Hstep.
  inv_bind Hstep. unfold json_loads_line in Hstep0.
  destruct (json_loads line) as [data|]; [|done]. injection Hstep0 as <- <-.
  inv_bind Hstep.
  apply (decode_row_Ok_inv _ _ _ 0 _ []) in Hstep0 as (outs & -> & Hd & ->); [|done].
  rewrite execute_run in Hstep.
  destruct (engine _ _ _).1 as [rows|e]; [|done]. injection Hstep as _ <-.
  apply IH in H as (params & Hsent & Hlen & Hparams). cbn [w_fs w_sent] in *.
  exists (outs :: params). split_and!.
  - rewrite Hsent, <-app_assoc. done.
  - simpl. by rewrite Hlen.
  - intros [|k] j ps d Hps Hflag Hj.
    + injection Hps as <-. rewrite Nat.add_0_r.
      eapply (decodes_lookup_long _ _ _ _ _ _ _ j); [done| |done].
      by rewrite <-(decodes_length _ _ _ _ _ _ _ Hd).
    + rewrite Nat.add_succ_r. by apply (Hparams k j ps d).
Qed.

Lemma dump_table_Ok_dirs table_dir table_name w u w' sql columns rs d :
  dump_table table_dir table_name w = (Ok u, w') →
  snapshot (w_db w) table_name = Some (sql, columns, rs, d) →
  (∀ c : row, c ∈ columns → is_long c = true →
     fs_node (<[resolve (os_path_join table_dir "desc_table.yaml") := File (yaml_dump columns)]>
                (<[resolve (os_path_join table_dir "create_table.sql") := File sql]>
                   (<[resolve table_dir := Dir]> (w_fs w))))
       (D table_dir c) = None) ∧
  (∀ c c' : row, c ∈ columns → c' ∈ columns → is_long c = true → is_long c' = true →
     D table_dir c = D table_dir c' → c = c').
Proof.
  unfold dump_table. intros H Hsnap.
  inv_bind H. apply os_mkdir_Ok_inv in Hstep as (Hnone & Hparent & ->).
  inv_bind H. apply open_w_Ok_inv in Hstep as (_ & ->).
  inv_bind H. apply get_create_table_stmt_Ok_inv in Hstep as (result & rest & d1 & He1 & Hsql & ->).
  inv_bind H. apply file_write_Ok_inv in Hstep as (sql' & c & -> & Hc & ->).
  simpl in Hc. rewrite lookup_insert_eq in Hc. injection Hc as <-.
  simpl in H. rewrite insert_insert_eq in H.
  inv_bind H. apply open_w_Ok_inv in Hstep as (_ & ->).
  inv_bind H. apply cursor_execute_inv in Hstep as (d2 & He2 & ->).
  inv_bind H. apply file_write_Ok_inv in Hstep as (? & c & [= <-] & Hc & ->).
  simpl in Hc. rewrite lookup_insert_eq in Hc. injection Hc as <-.
  simpl in H. rewrite insert_insert_eq in H.
  inv_bind H. apply dump_column_dirs_fresh in Hstep.
  unfold snapshot in Hsnap. simpl in He1, He2. rewrite He1, Hsql, He2 in Hsnap.
  destruct (engine d2 _ None) as [[rs'|e] d3]; [|done].
  injection Hsnap as <- <- <- <-. exact Hstep.
Qed.

End Sidecars.

Section IndexClaim.
Context `{P : Platform}.

(** C2.  In the directory a successful [dump_table] leaves behind, for
    every table: line [i] of [rows.txt], counted from 0, is the line of
    row [i]; the file [<i>.txt] in the directory of each long column
    holds the string form of row [i]'s cell in that column; and a
    [recover_table] that succeeds on this directory sends, after the
    DROP and the create statement, one INSERT per row, the INSERT
    numbered [k] holding at each long position what [<k>.txt] of that
    column's directory holds (read as text), which is row [k]'s cell when
    the descriptors are read back as written. *)
Theorem sidecar_index_is_line_number (table_dir table_name target : string)
    (w w1 : world) (sql : string) (columns rs : list row) (d : db) :
  dump_table table_dir table_name w = (Ok tt, w1) →
  snapshot (w_db w) table_name = Some (sql, columns, rs, d) →
  (∃ text, w_fs w1 !! resolve (os_path_join table_dir "rows.txt") = Some (File text) ∧
     file_lines text = map (λ r, json_dumps (encode_row columns r) +:+ newline) rs) ∧
  (∀ (i : nat) (r c : row), rs !! i = Some r → c ∈ columns → is_long c = true →
     w_fs w1 !! cell_path table_dir c i = Some (File (cell_text r c))) ∧
  (∀ w2 w3 : world, w_fs w2 = w_fs w1 →
     recover_table table_dir target w2 = (Ok tt, w3) →
     ∃ (columns' : list row) (first second : string * option (list value))
       (params : list (list value)),
       yaml_load (universal_newlines (yaml_dump columns)) = Some columns' ∧
       w_sent w3 = w_sent w2 ++ [first; second] ++
         map (λ ps, (insert_stmt target (replicate (length columns') "%s"), Some ps)) params ∧
       length params = length rs ∧
       ∀ (k j : nat) (ps : list value) (c : row),
         params !! k = Some ps → columns' !! j = Some c → is_long c = true →
         j < length ps →
         (∃ content,
            w_fs w1 !! cell_path table_dir c k = Some (File content) ∧
            ps !! j = Some (VStr (universal_newlines content))) ∧
         (columns' = columns → ∀ r, rs !! k = Some r →
            ps !! j = Some (VStr (universal_newlines (cell_text r c))))).
Proof.
  intros Hdump Hsnap.
  destruct (dump_table_Ok_dirs _ _ _ _ _ _ _ _ _ Hdump Hsnap) as [Hnew Hinj].
  apply dump_table_Ok_inv in Hdump
    as (sql' & columns' & rs' & d' & Hsnap' & -> & Hdesc & Hread & Hfresh & _).
  rewrite Hsnap in Hsnap'. injection Hsnap' as <- <- <- <-. cbn [w_fs].
  set (ds := dataset_of table_dir sql columns rs (w_fs w)).
  assert (Hp : resolve table_dir ≠ []) by (by destruct (resolve table_dir)).
  assert (Hrows : ds !! resolve (os_path_join table_dir "rows.txt")
                  = Some (File (rows_text columns rs))).
  { unfold ds, dataset_of. by rewrite lookup_insert_eq. }
  assert (Hcell : ∀ (i : nat) (r c : row), rs !! i = Some r → c ∈ columns →
    is_long c = true → ds !! cell_path table_dir c i = Some (File (cell_text r c))).
  { intros i r c Hi Hc Hl. unfold ds, dataset_of.
    rewrite lookup_insert_ne.
    - apply (write_rows_cell_distinct _ _ 0); [|done..].
      intros c' Hc' Hl' Heq. by apply Hinj.
    - rewrite (resolve_join table_dir "rows.txt"), cell_path_dir by done.
      intros [_ Heq]%app_inj_tail. symmetry in Heq. revert Heq. apply cell_file_not. tauto. }
  assert (Hyaml : ds !! resolve (os_path_join table_dir "desc_table.yaml")
                  = Some (File (yaml_dump columns))).
  { unfold ds, dataset_of.
    rewrite !(resolve_join table_dir) by done.
    rewrite lookup_insert_ne by (by intros [=]%(inj (app _))).
    rewrite write_rows_other.
    2:{ intros c k Hc Hl _. rewrite cell_path_dir.
        intros [_ Heq]%app_inj_tail. symmetry in Heq. revert Heq. apply cell_file_not. tauto. }
    rewrite make_dirs_other; [by rewrite lookup_insert_eq|].
    intros c Hc Hl Heq. specialize (Hnew c Hc Hl).
    rewrite !(resolve_join table_dir) in Hnew by done.
    rewrite <-Heq, fs_node_app, lookup_insert_eq in Hnew by done. done. }
  split_and!.
  - exists (rows_text columns rs). split; [done|]. apply file_lines_rows_text.
  - done.
  - intros w2 w3 Hfs Hrec. unfold recover_table in Hrec.
    inv_bind Hrec. unfold os_path_isdir in Hstep. injection Hstep as <- <-.
    destruct (bool_decide _); [|done]. cbn [negb] in Hrec.
    inv_bind Hrec. apply drop_table_if_exists_Ok_inv in Hstep as ->.
    inv_bind Hrec. apply file_read_Ok_inv in Hstep as (create & _ & -> & ->).
    inv_bind Hrec. rewrite execute_run in Hstep. cbn [w_fs w_db w_sent] in Hstep.
    destruct (engine _ (universal_newlines create) None) as [[rows|e] d2]; [|done].
    cbn [fst snd] in Hstep. injection Hstep as _ <-.
    inv_bind Hrec. apply file_read_Ok_inv in Hstep as (text & Htext & -> & ->).
    cbn [w_fs] in Htext. rewrite Hfs, fs_node_ne, Hyaml in Htext.
    2:{ rewrite (resolve_join table_dir) by done. by destruct (resolve table_dir). }
    injection Htext as <-.
    inv_bind Hrec. unfold yaml_load_text in Hstep.
    destruct (yaml_load _) as [columns'|] eqn:Hload; [|done]. injection Hstep as <- <-.
    inv_bind Hrec.
    match type of Hstep with _ = (Ok ?x, _) => destruct x as [placeholders flags] end.
    apply check_columns_Ok_inv in Hstep as (-> & -> & ->). rewrite app_nil_l in Hrec.
    inv_bind Hrec.
    match type of Hstep with file_readlines ?path ?w' = _ =>
      pose proof (file_readlines_world path w') as Hw end.
    rewrite Hstep in Hw. simpl in Hw. subst w0.
    apply file_readlines_Ok_inv in Hstep as (text & Htext & ->).
    cbn [w_fs] in Htext. rewrite Hfs, fs_node_ne, Hrows in Htext.
    2:{ rewrite (resolve_join table_dir) by done. by destruct (resolve table_dir). }
    injection Htext as <-.
    apply recover_lines_params in Hrec as (params & Hsent & Hlen & Hparams).
    cbn [w_fs w_sent] in Hsent, Hparams.
    exists columns', ("DROP TABLE " +:+ target, None), (universal_newlines create, None), params.
    split_and!.
    + done.
    + rewrite Hsent, <-!app_assoc. done.
    + by rewrite Hlen, file_lines_rows_text, length_map.
    + intros k j ps c Hps Hj Hl Hlt.
      destruct (Hparams k j ps (column_dir c) Hps) as (content & Hfile & Hval); [|done|].
      { by rewrite flags_lookup, Hj, Hl. }
      rewrite Hfs in Hfile. change (resolve _) with (cell_path table_dir c (0 + k)) in Hfile.
      cbn [Nat.add] in Hfile. rewrite fs_node_ne in Hfile.
      2:{ rewrite cell_path_dir. by intros [_ [=]]%app_eq_nil. }
      split; [by exists content|].
      intros -> r Hr.
      assert (Hc : c ∈ columns) by by eapply list_elem_of_lookup_2.
      rewrite (Hcell k r c Hr Hc Hl) in Hfile. by injection Hfile as <-.
Qed.

End IndexClaim.

Lemma sidecar_index_is_line_number_witness :
  let columns := map Reference.descriptor (Reference.t_columns Examples.users) in
  let rs := Reference.t_rows Examples.users in
  let w1 := (dump_table (P := Reference.platform) "users" "users" Examples.users_world).2 in
  let w2 := @World Reference.platform (w_fs w1) [] [] in
  let w3 := (recover_table (P := Reference.platform) "users" "users" w2).2 in
  w_fs w1 !! cell_path "users" (Reference.descriptor ("bio", "text")) 1 = Some (File "None") ∧
  ∃ (columns' : list row) (first second : string * option (list value))
    (params : list (list value)),
    yaml_load (universal_newlines (yaml_dump columns)) = Some columns' ∧
    w_sent w3 = w_sent w2 ++ [first; second] ++
      map (λ ps, (insert_stmt "users" (replicate (length columns') "%s"), Some ps)) params ∧
    length params = length rs ∧
    ∀ (k j : nat) (ps : list value) (c : row),
      params !! k = Some ps → columns' !! j = Some c → is_long c = true →
      j < length ps →
      (∃ content,
         w_fs w1 !! cell_path "users" c k = Some (File content) ∧
         ps !! j = Some (VStr (universal_newlines content))) ∧
      (columns' = columns → ∀ r, rs !! k = Some r →
         ps !! j = Some (VStr (universal_newlines (cell_text r c)))).
Proof.
  intros columns rs w1 w2 w3.
  destruct (sidecar_index_is_line_number (P := Reference.platform)
    "users" "users" "users" Examples.users_world w1
    (Reference.t_create Examples.users) columns rs [("users", Examples.users)])
    as (_ & Hwritten & Hread).
  - refine (run_Ok (P := Reference.platform) (dump_table "users" "users")
      Examples.users_world tt _).
    vm_compute. reflexivity.
  - vm_compute. reflexivity.
  - split.
    + refine (Hwritten 1 {[ "id" := VInt 2; "name" := VStr "Bob"; "bio" := VNone ]}
        (Reference.descriptor ("bio", "text")) _ _ _).
      * vm_compute. reflexivity.
      * do 2 apply list_elem_of_further. apply list_elem_of_here.
      * vm_compute. reflexivity.
    + refine (Hread w2 w3 eq_refl _).
      refine (run_Ok (P := Reference.platform) (recover_table "users" "users") w2 tt _).
      vm_compute. reflexivity.
Defined.

(** * Further properties *)

(** ** Connecting, and the two top-level runs *)

Section Runs.
Context `{P : Platform}.

Lemma connection_run w :
  connection w = (match connection_failure with Some e => Raise e | None => Ok tt end, w).
Proof. unfold connection. by destruct connection_failure. Qed.

Lemma dump_prepare_world data_dir w :
  w_db (dump_prepare data_dir w).2 = w_db w ∧
  w_sent (dump_prepare data_dir w).2 = w_sent w.
Proof.
  assert (Hmk : ∀ w1, w_db (os_mkdir data_dir w1).2 = w_db w1 ∧
                      w_sent (os_mkdir data_dir w1).2 = w_sent w1).
  { intros w1. unfold os_mkdir. destruct (fs_node _ (resolve data_dir)); [done|].
    by destruct (fs_node _ (removelast _)) as [[]|]. }
  assert (Hrm : ∀ w1, w_db (shutil_rmtree data_dir w1).2 = w_db w1 ∧
                      w_sent (shutil_rmtree data_dir w1).2 = w_sent w1).
  { intros w1. unfold shutil_rmtree. by destruct (fs_node _ (resolve data_dir)) as [[]|]. }
  assert (Hre : ∀ w1, w_db (os_remove data_dir w1).2 = w_db w1 ∧
                      w_sent (os_remove data_dir w1).2 = w_sent w1).
  { intros w1. unfold os_remove. by destruct (fs_node _ (resolve data_dir)) as [[]|]. }
  destruct (dump_prepare data_dir w) as [r w'] eqn:H. simpl.
  unfold dump_prepare in H. rewrite bind_run in H. unfold os_path_isdir in H.
  rewrite bind_run in H.
  destruct (bool_decide _).
  - destruct (Hrm w) as [Hd Hs]. destruct (shutil_rmtree data_dir w) as [[u|e] w1];
      simpl in Hd, Hs; [|injection H as <- <-; by split].
    destruct (Hmk w1) as [Hd1 Hs1]. rewrite H in Hd1, Hs1. simpl in *. split; congruence.
  - rewrite bind_run in H. unfold os_path_isfile in H.
    destruct (match fs_node _ _ with Some (File _) => true | _ => false end).
    + destruct (Hre w) as [Hd Hs]. destruct (os_remove data_dir w) as [[u|e] w1];
        simpl in Hd, Hs; [|injection H as <- <-; by split].
      destruct (Hmk w1) as [Hd1 Hs1]. rewrite H in Hd1, Hs1. simpl in *. split; congruence.
    + rewrite ret_run in H. destruct (Hmk w) as [Hd1 Hs1]. rewrite H in Hd1, Hs1. by split.
Qed.

(** X1.  [dump] removes and recreates the dataset root before it
    connects: when [connection()] then raises, the world is the one
    the preparation left, no statement has been sent, and the run ends
    with exit status 1 for a [ConnectionError] and with the exception
    itself otherwise. *)
Theorem dump_connection_failure (data_dir : string) (w w' : world) (e : exn) :
  dump_prepare data_dir w = (Ok tt, w') →
  connection_failure = Some e →
  dump data_dir w = (Raise (if is_ConnectionError e then SystemExit 1 else e), w') ∧
  w_db w' = w_db w ∧ w_sent w' = w_sent w.
Proof.
  intros Hprep Hconn. pose proof (dump_prepare_world data_dir w) as [Hdb Hsent].
  rewrite Hprep in Hdb, Hsent. split; [|done].
  unfold dump. erewrite bind_Ok by done.
  unfold try_except. rewrite bind_run, connection_run, Hconn.
  by destruct (is_ConnectionError e).
Qed.

(** X2.  [recover] checks the dataset root before anything else: when
    it is not a directory the run raises [RecoverError] and nothing has
    happened, whatever the configuration; when it is one and
    [connection()] raises, nothing has happened either and the run ends
    with exit status 1 for a [ConnectionError], with the exception
    itself otherwise. *)
Theorem recover_before_first_table (data_dir : string) (w : world) :
  (fs_node (w_fs w) (resolve data_dir) ≠ Some Dir →
   recover data_dir w = (Raise (not_a_directory data_dir), w)) ∧
  (∀ e, fs_node (w_fs w) (resolve data_dir) = Some Dir →
   connection_failure = Some e →
   recover data_dir w = (Raise (if is_ConnectionError e then SystemExit 1 else e), w)).
Proof.
  split.
  - intros Hdir. unfold recover. rewrite bind_run. unfold os_path_isdir at 1.
    by rewrite bool_decide_eq_false_2.
  - intros e Hdir Hconn. unfold recover. rewrite bind_run. unfold os_path_isdir at 1.
    rewrite bool_decide_eq_true_2 by done. cbn [negb].
    unfold try_except. rewrite bind_run, connection_run, Hconn.
    by destruct (is_ConnectionError e).
Qed.

(** X3.  Of the three actions only [dump] writes to the file system:
    [main] with any other action leaves every file as it was, and with
    an action that is neither [dump] nor [recover] it does nothing at
    all. *)
Theorem main_writes_only_on_dump (action : string) (w : world) :
  action ≠ "dump" →
  w_fs (main action w).2 = w_fs w ∧
  (action ≠ "recover" → main action w = (Ok tt, w)).
Proof.
  intros Hdump. unfold main. rewrite bool_decide_eq_false_2 by done. split.
  - case_bool_decide; [apply fsp_recover|done].
  - intros Hrec. by rewrite bool_decide_eq_false_2.
Qed.

(** X4.  [connection()] reports the first setting that is missing, in
    the order host, port, user, password, database, charset, as a
    [ConnectionError], and does not call [pymysql.connect]; with all
    six settings present its outcome is that of [pymysql.connect]. *)
Theorem connection_outcome_spec (configs : gmap string value)
    (pymysql_connect : list value → option exn) :
  let items := ["host"; "port"; "user"; "password"; "database"; "charset"] in
  connection_outcome (Config configs) pymysql_connect =
  match list_find (λ name, configs !! name = None) items with
  | Some (_, name) =>
      Some (ConnectionError ("Missing config item: " +:+ missing_attribute name))
  | None => pymysql_connect (omap (λ name, configs !! name) items)
  end.
Proof.
  intros items. unfold connection_outcome, items.
  destruct (configs !! "host") as [host|] eqn:E1;
    [|by cbn [list_find]; rewrite E1].
  destruct (configs !! "port") as [port|] eqn:E2;
    [|by cbn [list_find]; rewrite E1, E2].
  destruct (configs !! "user") as [user|] eqn:E3;
    [|by cbn [list_find]; rewrite E1, E2, E3].
  destruct (configs !! "password") as [password|] eqn:E4;
    [|by cbn [list_find]; rewrite E1, E2, E3, E4].
  destruct (configs !! "database") as [database|] eqn:E5;
    [|by cbn [list_find]; rewrite E1, E2, E3, E4, E5].
  destruct (configs !! "charset") as [charset|] eqn:E6;
    [|by cbn [list_find]; rewrite E1, E2, E3, E4, E5, E6].
  simpl. rewrite E1, E2, E3, E4, E5, E6. simpl. done.
Qed.

End Runs.

Section DumpRuns.
Context `{P : Platform}.

Lemma cursor_execute_run stmt data w :
  cursor_execute stmt data w =
  ((engine (w_db w) stmt data).1,
   World (w_fs w) (engine (w_db w) stmt data).2 (w_sent w ++ [(stmt, data)])).
Proof. unfold cursor_execute. by destruct (engine _ _ _). Qed.

Lemma open_w_Ok_any path w :
  fs_node (w_fs w) (resolve path) ≠ Some Dir →
  fs_node (w_fs w) (removelast (resolve path)) = Some Dir →
  open_w path w = (Ok tt, set_fs (<[resolve path := File ""]> (w_fs w)) w).
Proof.
  unfold open_w. intros Hn ->. by destruct (fs_node _ (resolve path)) as [[]|].
Qed.

Lemma removelast_two {A} (p : list A) (a b : A) : removelast (p ++ [a; b]) = p ++ [a].
Proof. change [a; b] with ([a] ++ [b]). by rewrite app_assoc, removelast_last. Qed.

Lemma fs_node_insert_below (f : fs) (p l : list string) (n : node) :
  l ≠ [] → fs_node (<[p ++ l := n]> f) p = fs_node f p.
Proof.
  intros Hl. destruct (decide (p = [])) as [->|Hp]; [done|].
  rewrite !fs_node_ne by done. apply lookup_insert_ne.
  intros Heq. apply Hl, (inj (app p)). by rewrite app_nil_r.
Qed.

Lemma fs_wf_fresh_below (f : fs) (p q : list string) :
  fs_wf f → fs_node f p = None → p `prefix_of` q → f !! q = None.
Proof.
  intros Hwf Hp [l ->]. destruct (f !! (p ++ l)) as [n|] eqn:E; [|done].
  destruct l as [|x l].
  - rewrite app_nil_r in E. destruct p; [done|]. simpl in Hp. congruence.
  - eapply fs_wf_ancestor in E; [|done..]. congruence.
Qed.

Lemma sidecars_ready_insert_file (p : list string) (columns : list row) (f : fs)
    (a b s : string) :
  sidecars_ready p columns f →
  sidecars_ready p columns (<[p ++ [a; b] := File s]> f).
Proof.
  intros Hr c Hc Hl. destruct (Hr c Hc Hl) as [Hd Hf]. split.
  - rewrite lookup_insert_ne; [done|]. by intros [=]%(inj (app p)).
  - intros i. destruct (decide (p ++ [a; b] = p ++ [column_dir c; cell_file i])) as [->|Hne].
    + by rewrite lookup_insert_eq.
    + rewrite lookup_insert_ne by done. apply Hf.
Qed.

Lemma dump_cells_Ok (table_dir : string) (i : nat) (r : row) (columns cs : list row)
    (text_list : list string) (w : world) :
  resolve table_dir ≠ [] →
  plain_columns columns = true →
  (∀ c : row, c ∈ cs → c ∈ columns) →
  Forall described cs → readable cs r →
  sidecars_ready (resolve table_dir) columns (w_fs w) →
  dump_cells table_dir i r cs text_list w
  = (Ok (text_list ++ encode_row cs r),
     set_fs (write_cells table_dir i r cs (w_fs w)) w) ∧
  sidecars_ready (resolve table_dir) columns (write_cells table_dir i r cs (w_fs w)).
Proof.
  intros Hp Hplain. revert text_list w.
  induction cs as [|c cs IH]; intros tl w Hsub Hdesc Hread Hready.
  { simpl. unfold write_cells. simpl. by rewrite app_nil_r, set_fs_id. }
  apply Forall_cons in Hdesc as [[[ty Hty] Hfield] Hdesc].
  apply Forall_cons in Hread as [(f & v & Hf & Hv) Hread].
  assert (Hc : c ∈ columns) by (apply Hsub; by left).
  assert (Hlong : is_long c = value_in ty LONG_COLUMN) by (unfold is_long; by rewrite Hty).
  assert (Htext : cell_text r c = str v) by (unfold cell_text; by rewrite Hf, Hv).
  rewrite encode_row_cons, write_cells_cons, Htext.
  cbn [dump_cells]. erewrite bind_Ok by by apply getitem_Ok.
  rewrite <-Hlong. destruct (is_long c) eqn:Hl.
  - assert (Hpath : resolve (os_path_join (os_path_join table_dir ("column_" +:+ str (VStr f)))
                               (pretty i +:+ ".txt"))
                    = resolve table_dir ++ [column_dir c; cell_file i]).
    { rewrite <-(cell_path_in table_dir columns) by done.
      unfold cell_path, column_dir, cell_file. by rewrite Hf. }
    destruct (Hready c Hc Hl) as [Hdir Hfile].
    erewrite bind_Ok by by apply getitem_Ok.
    rewrite !(bind_run (open_w _)).
    rewrite open_w_Ok_any; rewrite Hpath.
    2:{ rewrite fs_node_app by done. apply Hfile. }
    2:{ rewrite removelast_two, fs_node_app by done. apply Hdir. }
    erewrite bind_Ok by by apply getitem_Ok.
    erewrite bind_Ok by (simpl; by apply getitem_Ok).
    unfold file_write. rewrite bind_run. rewrite Hpath. simpl.
    rewrite lookup_insert_eq, insert_insert_eq.
    rewrite (cell_path_in table_dir columns) by done.
    edestruct (IH (tl ++ ["_"])
      (set_fs (<[resolve table_dir ++ [column_dir c; cell_file i] := File (str v)]> (w_fs w)) w))
      as [Hrun Hinv]; [intros; apply Hsub; by right|done..| |].
    { by apply sidecars_ready_insert_file. }
    rewrite <-app_assoc in Hrun. split; [exact Hrun|exact Hinv].
  - erewrite bind_Ok by by apply getitem_Ok.
    erewrite bind_Ok by (simpl; by apply getitem_Ok).
    edestruct (IH (tl ++ [str v]) w) as [Hrun Hinv];
      [intros; apply Hsub; by right|done..|].
    rewrite <-app_assoc in Hrun. split; [exact Hrun|exact Hinv].
Qed.

Lemma dump_rows_Ok (table_dir : string) (columns : list row) (i : nat)
    (rs : list row) (rows : string) (w : world) :
  resolve table_dir ≠ [] →
  plain_columns columns = true →
  Forall described columns → Forall (readable columns) rs →
  sidecars_ready (resolve table_dir) columns (w_fs w) →
  dump_rows table_dir columns i rs rows w
  = (Ok (rows +:+ rows_text columns rs),
     set_fs (write_rows table_dir columns i rs (w_fs w)) w) ∧
  sidecars_ready (resolve table_dir) columns (write_rows table_dir columns i rs (w_fs w)).
Proof.
  intros Hp Hplain Hdesc Hread. revert i rows w.
  induction Hread as [|r rs Hr Hread IH]; intros i rows w Hready.
  { simpl. by rewrite str_app_nil_r, set_fs_id. }
  destruct (dump_cells_Ok table_dir i r columns columns [] w) as [Hrun Hinv]; [done..|].
  cbn [dump_rows write_rows]. erewrite bind_Ok by exact Hrun.
  destruct (IH (S i) (rows +:+ json_dumps ([] ++ encode_row columns r) +:+ newline)
    (set_fs (write_cells table_dir i r columns (w_fs w)) w) Hinv) as [Hrun' Hinv'].
  split; [|exact Hinv'].
  rewrite rows_text_cons. rewrite !str_app_assoc in Hrun'. exact Hrun'.
Qed.

Lemma dump_column_dirs_Ok (table_dir : string) (cs : list row) (w : world) :
  fs_node (w_fs w) (resolve table_dir) = Some Dir →
  Forall described cs →
  Forall (λ c : row, is_long c = true → plain_name (column_dir c) = true) cs →
  NoDup (map column_dir (filter (λ c, is_long c = true) cs)) →
  (∀ c : row, c ∈ cs → is_long c = true →
     w_fs w !! (resolve table_dir ++ [column_dir c]) = None) →
  dump_column_dirs table_dir cs w
  = (Ok tt, set_fs (make_dirs table_dir cs (w_fs w)) w).
Proof.
  unfold dump_column_dirs. revert w.
  induction cs as [|c cs IH]; intros w Hdir Hdesc Hplain Hnodup Hnone.
  { simpl. unfold make_dirs. simpl. by rewrite set_fs_id. }
  apply Forall_cons in Hdesc as [[[ty Hty] Hfield] Hdesc].
  apply Forall_cons in Hplain as [Hpc Hplain].
  assert (Hlong : is_long c = value_in ty LONG_COLUMN) by (unfold is_long; by rewrite Hty).
  cbn [for_each]. rewrite make_dirs_cons.
  rewrite bind_run. erewrite bind_Ok by by apply getitem_Ok.
  rewrite <-Hlong. destruct (is_long c) eqn:Hl.
  - destruct Hfield as [v Hv]; [done|].
    erewrite bind_Ok by by apply getitem_Ok.
    assert (Hpath : resolve (os_path_join table_dir ("column_" +:+ str v))
                    = resolve table_dir ++ [column_dir c]).
    { rewrite <-(resolve_join table_dir (column_dir c)) by auto.
      unfold column_dir. by rewrite Hv. }
    rewrite os_mkdir_Ok; rewrite Hpath.
    2:{ rewrite fs_node_app by done. apply Hnone; [by left|done]. }
    2:{ by rewrite removelast_last. }
    rewrite filter_cons_True in Hnodup by done.
    cbn [map] in Hnodup. apply NoDup_cons in Hnodup as [Hnotin Hnodup].
    specialize (IH (set_fs (<[resolve table_dir ++ [column_dir c] := Dir]> (w_fs w)) w)).
    rewrite resolve_join by auto. apply IH; [|done..|].
    + simpl. by rewrite fs_node_insert_below.
    + intros c' Hc' Hl'. simpl. rewrite lookup_insert_ne.
      * apply Hnone; [by right|done].
      * intros Heq%(inj (app _)). apply Hnotin.
        assert (Hcd : column_dir c = column_dir c') by congruence. rewrite Hcd.
        apply list_elem_of_fmap_2, list_elem_of_filter. done.
  - rewrite ret_run. rewrite filter_cons_False in Hnodup by by rewrite Hl.
    apply IH; [done..|]. intros c' Hc' Hl'. apply Hnone; [by right|done].
Qed.

End DumpRuns.

Section DumpTable.
Context `{P : Platform}.

Lemma snapshot_inv (d : db) (table_name sql : string) (columns rs : list row) (d' : db) :
  snapshot d table_name = Some (sql, columns, rs, d') →
  ∃ result rest d1 d2,
    engine d ("show create table " +:+ table_name) None = (Ok (result :: rest), d1) ∧
    result !! "Create Table" = Some (VStr sql) ∧
    engine d1 ("desc " +:+ table_name) None = (Ok columns, d2) ∧
    engine d2 ("select * from " +:+ table_name) None = (Ok rs, d').
Proof.
  unfold snapshot. intros H.
  destruct (engine d _ None) as [[[|result rest]|e] d1] eqn:E1; [done| |done].
  destruct (result !! "Create Table") as [[| |sql']|] eqn:Es; [done..| |done].
  destruct (engine d1 _ None) as [[columns'|e] d2] eqn:E2; [|done].
  destruct (engine d2 _ None) as [[rs'|e] d3] eqn:E3; [|done].
  injection H as <- <- <- <-. eauto 10.
Qed.

(** X5.  [dump_table] refuses a table directory that already exists:
    it raises [FileExistsError] before any file is written or any query
    sent. *)
Theorem dump_table_existing_directory (table_dir table_name : string) (w : world) (n : node) :
  fs_node (w_fs w) (resolve table_dir) = Some n →
  dump_table table_dir table_name w = (Raise (FileExistsError table_dir), w).
Proof.
  intros Hn. unfold dump_table. rewrite bind_run. unfold os_mkdir at 1. by rewrite Hn.
Qed.

(** X6.  [dump_table] succeeds, and leaves exactly the table directory
    [dataset_of] describes, whenever the directory is new in a
    well-formed file system, the engine answers the three queries, every
    descriptor has a type (and a name when long), the long columns have
    distinct plain directory names, and every row has a cell for every
    column. *)
Theorem dump_table_succeeds (table_dir table_name sql : string)
    (columns rs : list row) (d : db) (w : world) :
  fs_wf (w_fs w) →
  fs_node (w_fs w) (resolve table_dir) = None →
  fs_node (w_fs w) (removelast (resolve table_dir)) = Some Dir →
  snapshot (w_db w) table_name = Some (sql, columns, rs, d) →
  Forall described columns →
  plain_columns columns = true →
  NoDup (map column_dir (filter (λ c, is_long c = true) columns)) →
  Forall (readable columns) rs →
  dump_table table_dir table_name w
  = (Ok tt, World (dataset_of table_dir sql columns rs (w_fs w)) d
              (w_sent w ++ dump_queries table_name)).
Proof.
  intros Hwf Hfresh Hparent Hsnap Hdesc Hplain Hnodup Hread.
  apply snapshot_inv in Hsnap as (result & rest & d1 & d2 & He1 & Hsql & He2 & He3).
  set (p := resolve table_dir) in *.
  assert (Hp : p ≠ []) by (by destruct p).
  assert (Hbelow : ∀ l, w_fs w !! (p ++ l) = None).
  { intros l. eapply fs_wf_fresh_below; [done..|]. by exists l. }
  assert (Hpl : ∀ l : list string, l ≠ [] → p ≠ p ++ l).
  { intros l Hl Heq. apply Hl, (inj (app p)). by rewrite app_nil_r. }
  assert (Hfile : ∀ name, plain_name name = true →
    resolve (os_path_join table_dir name) = p ++ [name]).
  { intros. by apply resolve_join. }
  unfold dump_table.
  erewrite bind_Ok by by apply os_mkdir_Ok.
  rewrite bind_run.
  rewrite open_w_Ok_any; cbn [w_fs set_fs]; rewrite (Hfile "create_table.sql") by done.
  2:{ rewrite fs_node_app by done. rewrite lookup_insert_ne by by apply Hpl.
      by rewrite Hbelow. }
  2:{ rewrite removelast_last, fs_node_ne by done. by rewrite lookup_insert_eq. }
  unfold get_create_table_stmt. rewrite !bind_run, cursor_execute_run.
  cbn [w_db w_fs w_sent set_fs]. rewrite He1. cbn [fst snd].
  unfold getitem. rewrite Hsql, ret_run. fold p.
  rewrite bind_run. unfold file_write at 1. rewrite (Hfile "create_table.sql") by done.
  cbn [w_db w_fs w_sent set_fs fst snd].
  rewrite lookup_insert_eq, insert_insert_eq.
  rewrite bind_run.
  rewrite open_w_Ok_any; cbn [w_db w_fs w_sent set_fs];
    rewrite (Hfile "desc_table.yaml") by done.
  2:{ rewrite fs_node_app by done.
      rewrite lookup_insert_ne by (by intros [=]%(inj (app p))).
      rewrite lookup_insert_ne by by apply Hpl. by rewrite Hbelow. }
  2:{ rewrite removelast_last, fs_node_ne by done.
      rewrite lookup_insert_ne by (intros Heq; by eapply Hpl; [|symmetry; exact Heq]).
      by rewrite lookup_insert_eq. }
  unfold get_columns. rewrite bind_run, cursor_execute_run.
  cbn [w_db w_fs w_sent set_fs]. rewrite He2. cbn [fst snd].
  rewrite bind_run. unfold file_write at 1. rewrite (Hfile "desc_table.yaml") by done.
  cbn [w_db w_fs w_sent set_fs].
  rewrite lookup_insert_eq, insert_insert_eq.
  set (f3 := <[p ++ ["desc_table.yaml"] := File ("" +:+ yaml_dump columns)]>
               (<[p ++ ["create_table.sql"] := File ("" +:+ sql)]> (<[p := Dir]> (w_fs w)))).
  assert (Hf3 : ∀ a l, a ≠ "desc_table.yaml" → a ≠ "create_table.sql" →
    f3 !! (p ++ a :: l) = None).
  { intros a l Ha1 Ha2. unfold f3.
    rewrite lookup_insert_ne by (intros [= ]%(inj (app p)); done).
    rewrite lookup_insert_ne by (intros [= ]%(inj (app p)); done).
    rewrite lookup_insert_ne by by apply Hpl. apply Hbelow. }
  assert (Hf3p : fs_node f3 p = Some Dir).
  { unfold f3. rewrite !fs_node_insert_below by done. by rewrite fs_node_ne, lookup_insert_eq. }
  assert (Hcd : ∀ c : row, column_dir c ≠ "desc_table.yaml" ∧ column_dir c ≠ "create_table.sql"
                           ∧ column_dir c ≠ "rows.txt").
  { intros c. split_and!; apply column_dir_not; auto. }
  rewrite bind_run.
  rewrite (dump_column_dirs_Ok table_dir columns); cbn [w_db w_fs w_sent set_fs]; fold p;
    [|done|done| |done|].
  2:{ apply Forall_forall. intros c Hc Hl. by eapply plain_columns_elem. }
  2:{ intros c Hc Hl. apply Hf3; apply Hcd. }
  unfold get_rows. rewrite bind_run, cursor_execute_run.
  cbn [w_db w_fs w_sent set_fs]. rewrite He3. cbn [fst snd].
  assert (Hready : sidecars_ready p columns (make_dirs table_dir columns f3)).
  { intros c Hc Hl. split.
    - rewrite <-(column_dir_path table_dir columns) by done. by apply make_dirs_dir.
    - intros i. rewrite make_dirs_other.
      + rewrite Hf3; [done|apply Hcd..].
      + intros c' Hc' Hl'. rewrite (column_dir_path table_dir columns) by done.
        by intros [=]%(inj (app p)). }
  rewrite bind_run.
  edestruct (dump_rows_Ok table_dir columns 0 rs ""
    (World (make_dirs table_dir columns f3) d
       (((w_sent w ++ [("show create table " +:+ table_name, None)])
         ++ [("desc " +:+ table_name, None)]) ++ [("select * from " +:+ table_name, None)])))
    as [Hrun Hinv]; [done..|].
  rewrite Hrun. cbn [w_db w_fs w_sent set_fs] in Hinv |- *.
  rewrite bind_run.
  rewrite open_w_Ok_any; cbn [w_db w_fs w_sent set_fs]; rewrite (Hfile "rows.txt") by done.
  2:{ rewrite fs_node_app by done. rewrite write_rows_other.
      - rewrite make_dirs_other.
        + by rewrite Hf3.
        + intros c Hc Hl. rewrite (column_dir_path table_dir columns) by done.
          by intros [=]%(inj (app p)).
      - intros c k Hc Hl _. rewrite (cell_path_in table_dir columns) by done.
        by intros [=]%(inj (app p)). }
  2:{ rewrite removelast_last, fs_node_ne by done. rewrite write_rows_other.
      - rewrite make_dirs_other; [by rewrite <-fs_node_ne|].
        intros c Hc Hl. rewrite (column_dir_path table_dir columns) by done. by apply Hpl.
      - intros c k Hc Hl _. rewrite (cell_path_in table_dir columns) by done. by apply Hpl. }
  unfold file_write. rewrite (Hfile "rows.txt") by done. cbn [w_db w_fs w_sent set_fs].
  rewrite lookup_insert_eq, insert_insert_eq.
  unfold dataset_of, dump_queries. rewrite !Hfile by done. fold p.
  by rewrite <-!app_assoc.
Qed.

End DumpTable.

Section Partial.
Context `{P : Platform}.

(** X7.  [dump_table] does not clean up after itself.  When
    [get_create_table_stmt] fails, because the engine raises, because it
    returns no row, or because the first row has no [Create Table] entry
    (as for a view), the exception leaves [dump_table] and the new
    directory stays behind with an empty [create_table.sql]; no further
    query is sent. *)
Theorem dump_table_without_create_statement (table_dir table_name : string) (w : world) :
  fs_wf (w_fs w) →
  fs_node (w_fs w) (resolve table_dir) = None →
  fs_node (w_fs w) (removelast (resolve table_dir)) = Some Dir →
  let r := engine (w_db w) ("show create table " +:+ table_name) None in
  let w' := World (<[resolve table_dir ++ ["create_table.sql"] := File ""]>
                     (<[resolve table_dir := Dir]> (w_fs w)))
              r.2 (w_sent w ++ [("show create table " +:+ table_name, None)]) in
  (∀ e, r.1 = Raise e → dump_table table_dir table_name w = (Raise e, w')) ∧
  (r.1 = Ok [] → dump_table table_dir table_name w = (Raise TypeError, w')) ∧
  (∀ result rest, r.1 = Ok (result :: rest) → result !! "Create Table" = None →
     dump_table table_dir table_name w = (Raise (KeyError "Create Table"), w')).
Proof.
  intros Hwf Hfresh Hparent r w'.
  set (p := resolve table_dir) in *.
  assert (Hp : p ≠ []) by (by destruct p).
  assert (Hbelow : ∀ l, w_fs w !! (p ++ l) = None).
  { intros l. eapply fs_wf_fresh_below; [done..|]. by exists l. }
  assert (Hpl : ∀ l : list string, l ≠ [] → p ≠ p ++ l).
  { intros l Hl Heq. apply Hl, (inj (app p)). by rewrite app_nil_r. }
  assert (Hfile : resolve (os_path_join table_dir "create_table.sql")
                  = p ++ ["create_table.sql"]) by by apply resolve_join.
  assert (Hrun : dump_table table_dir table_name w
    = (match r.1 with
       | Ok (result :: _) => getitem result "Create Table"
       | Ok [] => raise TypeError
       | Raise e => raise e
       end ≫= λ stmt,
         file_write (os_path_join table_dir "create_table.sql") stmt;;
         open_w (os_path_join table_dir "desc_table.yaml");;
         columns ← get_columns table_name;
         file_write (os_path_join table_dir "desc_table.yaml") (VStr (yaml_dump columns));;
         dump_column_dirs table_dir columns;;
         rs ← get_rows table_name;
         rows ← dump_rows table_dir columns 0 rs "";
         open_w (os_path_join table_dir "rows.txt");;
         file_write (os_path_join table_dir "rows.txt") (VStr rows)) w').
  { unfold dump_table.
    erewrite bind_Ok by by apply os_mkdir_Ok.
    rewrite bind_run.
    rewrite open_w_Ok_any; cbn [w_fs set_fs]; rewrite Hfile.
    2:{ rewrite fs_node_app by done. rewrite lookup_insert_ne by by apply Hpl.
        by rewrite Hbelow. }
    2:{ rewrite removelast_last, fs_node_ne by done. by rewrite lookup_insert_eq. }
    unfold get_create_table_stmt. rewrite !bind_run, cursor_execute_run.
    cbn [w_db w_fs w_sent set_fs fst snd]. fold r. fold p. fold w'.
    by destruct (r.1) as [[|result rest]|e]. }
  rewrite Hrun. split_and!.
  - intros e ->. done.
  - intros ->. done.
  - intros result rest -> Hkey. rewrite bind_run. unfold getitem. by rewrite Hkey.
Qed.

(** X8.  [recover_table] drops the table before it looks for the files:
    on a directory without [create_table.sql] it raises
    [FileNotFoundError] only after the DROP statement has been executed,
    and nothing recreates the table. *)
Theorem recover_table_drops_first (table_dir table_name : string) (w w1 : world) :
  fs_node (w_fs w) (resolve table_dir) = Some Dir →
  fs_node (w_fs w) (resolve (os_path_join table_dir "create_table.sql")) = None →
  drop_table_if_exists table_name w = (Ok tt, w1) →
  recover_table table_dir table_name w
  = (Raise (FileNotFoundError (os_path_join table_dir "create_table.sql")), w1) ∧
  w_sent w1 = w_sent w ++ [("DROP TABLE " +:+ table_name, None)] ∧
  w_db w1 = (engine (w_db w) ("DROP TABLE " +:+ table_name) None).2.
Proof.
  intros Hdir Hfile Hdrop.
  assert (Hw1 : w1 = World (w_fs w) (engine (w_db w) ("DROP TABLE " +:+ table_name) None).2
                       (w_sent w ++ [("DROP TABLE " +:+ table_name, None)])).
  { unfold drop_table_if_exists, try_except in Hdrop. rewrite execute_run in Hdrop.
    destruct (engine _ _ _).1 as [rows|e]; [by injection Hdrop as <-|].
    destruct e as [| | | | | | | | | | | |[] message]; try done.
    destruct (String.index 0 "Unknown table " message); [|done].
    by injection Hdrop as <-. }
  split; [|by rewrite Hw1].
  unfold recover_table. rewrite bind_run. unfold os_path_isdir at 1.
  rewrite bool_decide_eq_true_2 by done. cbn [negb].
  erewrite bind_Ok by exact Hdrop.
  rewrite bind_run. unfold file_read. rewrite bind_run. unfold open_r.
  rewrite Hw1 at 1. cbn [w_fs]. by rewrite Hfile.
Qed.

End Partial.

Section Sends.
Context `{P : Platform}.
Context (Q : string * option (list value) → Prop).

Lemma sends_quiet {A} (m : M A) : (∀ w, w_sent (m w).2 = w_sent w) → sends Q m.
Proof. intros H w. exists []. by rewrite app_nil_r. Qed.

Lemma sends_bind {A B} (m : M A) (k : A → M B) :
  sends Q m → (∀ a, sends Q (k a)) → sends Q (m ≫= k).
Proof.
  intros Hm Hk w. rewrite bind_run. destruct (Hm w) as (s1 & Hs1 & Hq1).
  destruct (m w) as [[a|e] w1]; simpl in Hs1; [|by exists s1].
  destruct (Hk a w1) as (s2 & Hs2 & Hq2). exists (s1 ++ s2).
  rewrite Hs2, Hs1, app_assoc. split; [done|by apply Forall_app].
Qed.

Lemma sends_for_each {A} (l : list A) (body : A → M unit) :
  (∀ x, sends Q (body x)) → sends Q (for_each l body).
Proof.
  intros Hb. induction l as [|x l IH]; [by apply sends_quiet|].
  simpl. apply sends_bind; [apply Hb|by intros _].
Qed.

Lemma sends_try_except {A} (body : M A) handles handler :
  sends Q body → (∀ e, sends Q (handler e)) → sends Q (try_except body handles handler).
Proof.
  intros Hb Hh w. unfold try_except. destruct (Hb w) as (s1 & Hs1 & Hq1).
  destruct (body w) as [[a|e] w1]; simpl in Hs1; [by exists s1|].
  destruct (handles e); [|by exists s1].
  destruct (Hh e w1) as (s2 & Hs2 & Hq2). exists (s1 ++ s2).
  rewrite Hs2, Hs1, app_assoc. split; [done|by apply Forall_app].
Qed.

Lemma sends_cursor_execute stmt data :
  Q (stmt, data) → sends Q (cursor_execute stmt data).
Proof.
  intros Hq w. rewrite cursor_execute_run. exists [(stmt, data)]. split; [done|].
  by constructor.
Qed.

Lemma sends_getitem (d : row) k : sends Q (getitem d k).
Proof. apply sends_quiet. intros w. unfold getitem. by destruct (d !! k). Qed.

Lemma sends_getitem_value (d : row) k : sends Q (getitem_value d k).
Proof. destruct k; try by apply sends_quiet. apply sends_getitem. Qed.

Lemma sends_os_mkdir path : sends Q (os_mkdir path).
Proof.
  apply sends_quiet. intros w. unfold os_mkdir.
  destruct (fs_node _ (resolve path)); [done|].
  by destruct (fs_node _ (removelast _)) as [[]|].
Qed.

Lemma sends_open_w path : sends Q (open_w path).
Proof.
  apply sends_quiet. intros w. unfold open_w.
  destruct (fs_node _ (resolve path)) as [[]|]; [done..|].
  by destruct (fs_node _ (removelast _)) as [[]|].
Qed.

Lemma sends_file_write path v : sends Q (file_write path v).
Proof.
  apply sends_quiet. intros w. unfold file_write.
  destruct v; [done..|]. by destruct (w_fs w !! resolve path) as [[]|].
Qed.

Lemma sends_dump_cells table_dir i r columns text_list :
  sends Q (dump_cells table_dir i r columns text_list).
Proof.
  revert text_list. induction columns as [|c columns IH]; intros tl;
    [by apply sends_quiet|].
  cbn [dump_cells]. apply sends_bind; [apply sends_getitem|intros ty].
  destruct (value_in ty LONG_COLUMN).
  - apply sends_bind; [apply sends_getitem|intros field].
    apply sends_bind; [apply sends_open_w|intros _].
    apply sends_bind; [apply sends_getitem|intros key].
    apply sends_bind; [apply sends_getitem_value|intros v].
    apply sends_bind; [apply sends_file_write|intros _]. apply IH.
  - apply sends_bind; [apply sends_getitem|intros key].
    apply sends_bind; [apply sends_getitem_value|intros v]. apply IH.
Qed.

Lemma sends_dump_rows table_dir columns i rs rows :
  sends Q (dump_rows table_dir columns i rs rows).
Proof.
  revert i rows. induction rs as [|r rs IH]; intros i rows; [by apply sends_quiet|].
  cbn [dump_rows]. apply sends_bind; [apply sends_dump_cells|intros tl]. apply IH.
Qed.

Lemma sends_dump_column_dirs table_dir columns :
  sends Q (dump_column_dirs table_dir columns).
Proof.
  apply sends_for_each. intros c.
  apply sends_bind; [apply sends_getitem|intros ty].
  destruct (value_in ty LONG_COLUMN); [|by apply sends_quiet].
  apply sends_bind; [apply sends_getitem|intros field]. apply sends_os_mkdir.
Qed.

Lemma sends_dump_prepare data_dir : sends Q (dump_prepare data_dir).
Proof.
  apply sends_quiet. intros w. apply dump_prepare_world.
Qed.

End Sends.

Section SendsDump.
Context `{P : Platform}.

Lemma sends_dump_table table_dir table_name :
  sends is_query (dump_table table_dir table_name).
Proof.
  assert (Hq : ∀ stmt, (∃ t, stmt = "show create table " +:+ t ∨ stmt = "desc " +:+ t ∨
                             stmt = "select * from " +:+ t) →
               sends is_query (cursor_execute stmt None)).
  { intros stmt Ht. apply sends_cursor_execute. split; [done|by right]. }
  unfold dump_table.
  apply sends_bind; [apply sends_os_mkdir|intros _].
  apply sends_bind; [apply sends_open_w|intros _].
  apply sends_bind.
  { unfold get_create_table_stmt. apply sends_bind; [apply Hq; eauto|].
    intros [|result rest]; [by apply sends_quiet|apply sends_getitem]. }
  intros stmt.
  apply sends_bind; [apply sends_file_write|intros _].
  apply sends_bind; [apply sends_open_w|intros _].
  apply sends_bind; [apply Hq; eauto|intros columns].
  apply sends_bind; [apply sends_file_write|intros _].
  apply sends_bind; [apply sends_dump_column_dirs|intros _].
  apply sends_bind; [apply Hq; eauto|intros rs].
  apply sends_bind; [apply sends_dump_rows|intros rows].
  apply sends_bind; [apply sends_open_w|intros _].
  apply sends_file_write.
Qed.

(** X9.  [dump] only reads the database: whatever the outcome, every
    statement it hands to the driver is [show tables],
    [show create table t], [desc t] or [select * from t], without
    parameters. *)
Theorem dump_sends_only_queries (data_dir : string) (w : world) :
  ∃ sent, w_sent (dump data_dir w).2 = w_sent w ++ sent ∧ Forall is_query sent.
Proof.
  revert w. change (sends is_query (dump data_dir)). unfold dump.
  apply sends_bind; [apply sends_dump_prepare|intros _].
  apply sends_try_except; [|intros e; by apply sends_quiet].
  apply sends_bind.
  { apply sends_quiet. intros w. by rewrite connection_run. }
  intros _. unfold dump_tables. apply sends_bind.
  - unfold get_table_names. apply sends_bind; [|intros rows; by apply sends_quiet].
    apply sends_cursor_execute. split; [done|by left].
  - intros tables. apply sends_for_each. intros [| |name]; [by apply sends_quiet..|].
    apply sends_dump_table.
Qed.

End SendsDump.

Section Directory.
Context `{P : Platform}.

Lemma write_cells_lookup (table_dir : string) (i : nat) (r : row) (columns : list row)
    (f : fs) (q : list string) :
  write_cells table_dir i r columns f !! q = f !! q ∨
  ∃ c : row, c ∈ columns ∧ is_long c = true ∧ q = cell_path table_dir c i.
Proof.
  revert f. induction columns as [|c columns IH]; intros f; [by left|].
  rewrite write_cells_cons.
  destruct (IH (if is_long c then <[cell_path table_dir c i := File (cell_text r c)]> f else f))
    as [->|(c' & Hc' & Hl' & ->)].
  - destruct (is_long c) eqn:Hl; [|by left].
    destruct (decide (cell_path table_dir c i = q)) as [<-|Hne].
    + right. exists c. split_and!; [by left|done..].
    + left. by rewrite lookup_insert_ne.
  - right. exists c'. split_and!; [by right|done..].
Qed.

Lemma write_rows_lookup (table_dir : string) (columns : list row) (i : nat)
    (rs : list row) (f : fs) (q : list string) :
  write_rows table_dir columns i rs f !! q = f !! q ∨
  ∃ (c : row) (k : nat), c ∈ columns ∧ is_long c = true ∧ k < length rs ∧
    q = cell_path table_dir c (i + k).
Proof.
  revert i f. induction rs as [|r rs IH]; intros i f; [by left|].
  simpl. destruct (IH (S i) (write_cells table_dir i r columns f))
    as [->|(c & k & Hc & Hl & Hk & ->)].
  - destruct (write_cells_lookup table_dir i r columns f q) as [->|(c & Hc & Hl & ->)];
      [by left|].
    right. exists c, 0. rewrite Nat.add_0_r. split_and!; [done..|lia|done].
  - right. exists c, (S k). rewrite Nat.add_succ_r. split_and!; [done..|lia|done].
Qed.

Lemma make_dirs_lookup (table_dir : string) (columns : list row) (f : fs)
    (q : list string) :
  make_dirs table_dir columns f !! q = f !! q ∨
  ∃ c : row, c ∈ columns ∧ is_long c = true ∧
    q = resolve (os_path_join table_dir (column_dir c)).
Proof.
  revert f. induction columns as [|c columns IH]; intros f; [by left|].
  rewrite make_dirs_cons.
  destruct (IH (if is_long c
                then <[resolve (os_path_join table_dir (column_dir c)) := Dir]> f else f))
    as [->|(c' & Hc' & Hl' & ->)].
  - destruct (is_long c) eqn:Hl; [|by left].
    destruct (decide (resolve (os_path_join table_dir (column_dir c)) = q)) as [<-|Hne].
    + right. exists c. split_and!; [by left|done..].
    + left. by rewrite lookup_insert_ne.
  - right. exists c'. split_and!; [by right|done..].
Qed.

(** Where a path of the dumped directory comes from. *)
Lemma dataset_lookup (table_dir sql : string) (columns rs : list row) (f : fs)
    (q : list string) :
  plain_columns columns = true →
  let p := resolve table_dir in
  dataset_of table_dir sql columns rs f !! q = f !! q ∨
  q = p ∨
  (∃ name, q = p ++ [name] ∧
     (name ∈ ["create_table.sql"; "desc_table.yaml"; "rows.txt"] ∨
      ∃ c : row, c ∈ columns ∧ is_long c = true ∧ name = column_dir c)) ∨
  (∃ (c : row) (i : nat), c ∈ columns ∧ is_long c = true ∧ i < length rs ∧
     q = p ++ [column_dir c; cell_file i]).
Proof.
  intros Hplain p. unfold dataset_of.
  rewrite !(table_file_path table_dir) by done. fold p.
  destruct (decide (q = p ++ ["rows.txt"])) as [->|Hrows].
  { right; right; left. exists "rows.txt". split; [done|left].
    do 2 apply list_elem_of_further. apply list_elem_of_here. }
  rewrite lookup_insert_ne by done.
  match goal with |- write_rows _ _ _ _ ?g !! _ = _ ∨ _ =>
    destruct (write_rows_lookup table_dir columns 0 rs g q)
      as [->|(c & k & Hc & Hl & Hk & ->)] end.
  2:{ do 3 right. exists c, k. rewrite (cell_path_in table_dir columns) by done.
      split_and!; done. }
  match goal with |- make_dirs _ _ ?g !! _ = _ ∨ _ =>
    destruct (make_dirs_lookup table_dir columns g q) as [->|(c & Hc & Hl & ->)] end.
  2:{ right; right; left. exists (column_dir c).
      rewrite (column_dir_path table_dir columns) by done. split; [done|]. right. eauto. }
  destruct (decide (q = p ++ ["desc_table.yaml"])) as [->|Hdesc].
  { right; right; left. exists "desc_table.yaml". split; [done|left].
    apply list_elem_of_further, list_elem_of_here. }
  rewrite lookup_insert_ne by done.
  destruct (decide (q = p ++ ["create_table.sql"])) as [->|Hcreate].
  { right; right; left. exists "create_table.sql". split; [done|left].
    apply list_elem_of_here. }
  rewrite lookup_insert_ne by done.
  destruct (decide (q = p)) as [->|Hq]; [by right; left|].
  left. by rewrite lookup_insert_ne.
Qed.

(** X10.  A successful [dump_table] on a table whose long columns have
    plain names writes below its table directory only: every other path
    of the file system is as it was. *)
Theorem dump_table_stays_in_its_directory (table_dir table_name : string)
    (w w1 : world) (sql : string) (columns rs : list row) (d : db) (q : list string) :
  dump_table table_dir table_name w = (Ok tt, w1) →
  snapshot (w_db w) table_name = Some (sql, columns, rs, d) →
  plain_columns columns = true →
  ¬ resolve table_dir `prefix_of` q →
  w_fs w1 !! q = w_fs w !! q.
Proof.
  intros Hdump Hsnap Hplain Hq.
  apply dump_table_Ok_inv in Hdump
    as (sql' & columns' & rs' & d' & Hsnap' & -> & Hdesc & Hread & Hfresh & _).
  rewrite Hsnap in Hsnap'. injection Hsnap' as <- <- <- <-. cbn [w_fs].
  destruct (dataset_lookup table_dir sql columns rs (w_fs w) q Hplain)
    as [H|[->|[(name & -> & _)|(c & i & _ & _ & _ & ->)]]]; [done|..].
  - by destruct Hq.
  - destruct Hq. by eexists.
  - destruct Hq. by eexists.
Qed.

(** X11.  In a directory that a successful [dump_table] built in a
    well-formed file system (long columns with plain names), the entries
    are exactly: [create_table.sql], [desc_table.yaml], [rows.txt] and one
    directory per long column; in these directories, one file [<i>.txt]
    for every long column and every row index [i], and no other; and
    nothing lies deeper. *)
Theorem dump_table_directory_entries (table_dir table_name : string)
    (w w1 : world) (sql : string) (columns rs : list row) (d : db) :
  dump_table table_dir table_name w = (Ok tt, w1) →
  snapshot (w_db w) table_name = Some (sql, columns, rs, d) →
  plain_columns columns = true →
  fs_wf (w_fs w) →
  let p := resolve table_dir in
  (∀ name, is_Some (w_fs w1 !! (p ++ [name])) ↔
     name ∈ ["create_table.sql"; "desc_table.yaml"; "rows.txt"] ∨
     ∃ c : row, c ∈ columns ∧ is_long c = true ∧ name = column_dir c) ∧
  (∀ a b, is_Some (w_fs w1 !! (p ++ [a; b])) ↔
     ∃ (c : row) (i : nat), c ∈ columns ∧ is_long c = true ∧ i < length rs ∧
       a = column_dir c ∧ b = cell_file i) ∧
  (∀ a b c l, w_fs w1 !! (p ++ a :: b :: c :: l) = None).
Proof.
  intros Hdump Hsnap Hplain Hwf p. subst p.
  apply dump_table_Ok_inv in Hdump
    as (sql' & columns' & rs' & d' & Hsnap' & -> & Hdesc & Hread & Hfresh & _).
  rewrite Hsnap in Hsnap'. injection Hsnap' as <- <- <- <-. cbn [w_fs].
  assert (Hbelow : ∀ l, w_fs w !! (resolve table_dir ++ l) = None).
  { intros l. eapply fs_wf_fresh_below; [done..|]. by exists l. }
  assert (Hpl : ∀ l : list string, l ≠ [] → resolve table_dir ++ l ≠ resolve table_dir).
  { intros l Hl Heq. apply Hl, (inj (app (resolve table_dir))). by rewrite app_nil_r. }
  split_and!.
  - intros name. split.
    + intros [n Hn].
      destruct (dataset_lookup table_dir sql columns rs (w_fs w) (resolve table_dir ++ [name]) Hplain)
        as [H|[H|[(name' & [= ->]%(inj (app _)) & H)|(c & i & _ & _ & _ & [=]%(inj (app _)))]]].
      * rewrite H, Hbelow in Hn. done.
      * by apply Hpl in H.
      * done.
    + intros [Hname|(c & Hc & Hl & ->)].
      * apply elem_of_cons in Hname as [->|Hname];
          [by erewrite (dataset_file _ _ _ _ _ Hplain); [|right]|].
        apply elem_of_cons in Hname as [->|Hname];
          [by erewrite (dataset_file _ _ _ _ _ Hplain); [|left]|].
        apply elem_of_cons in Hname as [->|Hname]; [|by apply elem_of_nil in Hname].
        by erewrite dataset_rows.
      * rewrite (dataset_upper _ _ _ _ _ Hplain).
        -- rewrite <-(column_dir_path table_dir columns) by done.
           by rewrite make_dirs_dir.
        -- by intros [=]%(inj (app _)).
        -- by intros a b [=]%(inj (app _)).
  - intros a b. split.
    + intros [n Hn].
      destruct (dataset_lookup table_dir sql columns rs (w_fs w) (resolve table_dir ++ [a; b]) Hplain)
        as [H|[H|[(name' & [=]%(inj (app _)) & H)|(c & i & Hc & Hl & Hi & [= -> ->]%(inj (app _)))]]].
      * rewrite H, Hbelow in Hn. done.
      * by apply Hpl in H.
      * eauto 10.
    + intros (c & i & Hc & Hl & Hi & -> & ->).
      apply lookup_lt_is_Some in Hi as [r Hr].
      rewrite <-(cell_path_in table_dir columns) by done.
      by erewrite dataset_cell.
  - intros a b c l.
    destruct (dataset_lookup table_dir sql columns rs (w_fs w) (resolve table_dir ++ a :: b :: c :: l) Hplain)
      as [H|[H|[(name' & [=]%(inj (app _)) & H)|(c' & i & _ & _ & _ & [=]%(inj (app _)))]]].
    + by rewrite H, Hbelow.
    + by apply Hpl in H.
Qed.

Lemma encode_row_ext (columns : list row) (r r' : row) :
  (∀ c : row, c ∈ columns → cell_text r c = cell_text r' c) →
  encode_row columns r = encode_row columns r'.
Proof.
  intros H. unfold encode_row. apply map_ext_in. intros c Hc%list_elem_of_In.
  by rewrite H.
Qed.

Lemma write_cells_ext (table_dir : string) (i : nat) (r r' : row) (columns : list row)
    (f : fs) :
  (∀ c : row, c ∈ columns → cell_text r c = cell_text r' c) →
  write_cells table_dir i r columns f = write_cells table_dir i r' columns f.
Proof.
  revert f. induction columns as [|c columns IH]; intros f H; [done|].
  rewrite !write_cells_cons, (H c) by by left. apply IH. intros; apply H; by right.
Qed.

Lemma cell_text_str (r r' c : row) :
  (∀ f, str <$> r !! f = str <$> r' !! f) → cell_text r c = cell_text r' c.
Proof.
  intros H. unfold cell_text. destruct (c !! "Field") as [[| |f]|]; [done..| |done].
  specialize (H f). by destruct (r !! f), (r' !! f); simplify_eq/=.
Qed.

(** X12.  [dump_table] keeps the string form of a cell and nothing else:
    two tables with the same create statement and descriptors whose
    cells have the same string forms ([NULL] and the string [None], the
    number 1 and the string [1]) are dumped to the same files. *)
Theorem dump_table_keeps_string_forms (table_dir table_name : string)
    (w w' w1 w1' : world) (sql : string) (columns rs rs' : list row) (d d' : db) :
  dump_table table_dir table_name w = (Ok tt, w1) →
  dump_table table_dir table_name w' = (Ok tt, w1') →
  w_fs w = w_fs w' →
  snapshot (w_db w) table_name = Some (sql, columns, rs, d) →
  snapshot (w_db w') table_name = Some (sql, columns, rs', d') →
  Forall2 (λ r r' : row, ∀ f, str <$> r !! f = str <$> r' !! f) rs rs' →
  w_fs w1 = w_fs w1'.
Proof.
  intros Hdump Hdump' Hfs Hsnap Hsnap' Hrows.
  apply dump_table_Ok_inv in Hdump as (? & ? & ? & ? & Hs & -> & _).
  rewrite Hsnap in Hs. injection Hs as <- <- <- <-.
  apply dump_table_Ok_inv in Hdump' as (? & ? & ? & ? & Hs & -> & _).
  rewrite Hsnap' in Hs. injection Hs as <- <- <- <-.
  cbn [w_fs]. rewrite <-Hfs. unfold dataset_of. clear Hsnap Hsnap'.
  generalize (make_dirs table_dir columns
    (<[resolve (os_path_join table_dir "desc_table.yaml"):=File (yaml_dump columns)]>
       (<[resolve (os_path_join table_dir "create_table.sql"):=File sql]>
          (<[resolve table_dir:=Dir]> (w_fs w))))).
  intros g.
  assert (Htext : rows_text columns rs = rows_text columns rs').
  { induction Hrows as [|r r' rs rs' Hr Hrows IH]; [done|].
    rewrite !rows_text_cons, IH.
    by rewrite (encode_row_ext columns r r') by (intros; by apply cell_text_str). }
  assert (Hcells : ∀ i g, write_rows table_dir columns i rs g
                          = write_rows table_dir columns i rs' g).
  { clear Htext. induction Hrows as [|r r' rs rs' Hr Hrows IH]; intros i g'; [done|].
    simpl. rewrite (write_cells_ext table_dir i r r') by (intros; by apply cell_text_str).
    apply IH. }
  by rewrite Htext, Hcells.
Qed.

End Directory.

Section RecoverEdges.
Context `{P : Platform}.



Lemma decode_row_missing table_dir (flags : gmap nat string) (n i k : nat)
    (pending data : list value) (d : string) (w : world) :
  (i ≤ k < i + length pending)%nat →
  flags !! k = Some d →
  (∀ c, fs_node (w_fs w) (resolve (os_path_join (os_path_join table_dir d)
                                     (pretty n +:+ ".txt"))) ≠ Some (File c)) →
  ∃ e, decode_row table_dir flags n i pending data w = (Raise e, w).
Proof.
  intros Hk Hflag Hfile. revert i data Hk.
  induction pending as [|v pending IH]; intros i data Hk; [simpl in Hk; lia|].
  cbn [decode_row]. rewrite bind_run.
  destruct (decide (i = k)) as [->|Hne].
  - rewrite Hflag, bind_run. unfold file_read. rewrite bind_run. unfold open_r.
    destruct (fs_node _ _) as [[c|]|] eqn:E; [by destruct (Hfile c)|by eexists..].
  - assert (Hnext : ∀ x, ∃ e,
      decode_row table_dir flags n (S i) pending (<[i := x]> data) w = (Raise e, w)).
    { intros x. apply IH. simpl in Hk. lia. }
    destruct (flags !! i) as [d'|].
    + rewrite bind_run.
      pose proof (file_read_world
        (os_path_join (os_path_join table_dir d') (pretty n +:+ ".txt")) w) as Hw.
      destruct (file_read _ w) as [[c|e] w0]; simpl in Hw; subst w0; [|by eexists].
      rewrite ret_run. apply Hnext.
    + rewrite ret_run. apply Hnext.
Qed.

(** X14.  A row is inserted only when every sidecar file it needs can be
    read: if the array of a line reaches the position of a long column
    whose file for that line number is missing (or is a directory),
    [recover_line] raises and no statement is sent. *)
Theorem recover_line_needs_every_sidecar (table_dir : string) (flags : gmap nat string)
    (stmt : string) (n : nat) (line : string) (data : list value) (k : nat) (d : string)
    (w : world) :
  json_loads line = Some data →
  k < length data →
  flags !! k = Some d →
  (∀ c, fs_node (w_fs w) (resolve (os_path_join (os_path_join table_dir d)
                                     (pretty n +:+ ".txt"))) ≠ Some (File c)) →
  ∃ e, recover_line table_dir flags stmt n line w = (Raise e, w).
Proof.
  intros Hline Hk Hflag Hfile.
  destruct (decode_row_missing table_dir flags n 0 k data data d w) as [e He];
    [lia|done..|].
  exists e. unfold recover_line, json_loads_line. rewrite Hline.
  by rewrite bind_run, ret_run, bind_run, He.
Qed.

(** X15.  [get_table_names] sends the one statement [show tables] and
    returns the value of every row in row order, whatever the name of the
    column is. *)
Theorem get_table_names_one_per_row (answer : list (string * value)) (d : db) (w : world) :
  engine (w_db w) "show tables" None = (Ok (map (λ kv, {[ kv.1 := kv.2 ]}) answer), d) →
  get_table_names w
  = (Ok (answer.*2), World (w_fs w) d (w_sent w ++ [("show tables", None)])).
Proof.
  intros He. unfold get_table_names. rewrite bind_run, cursor_execute_run, He.
  cbn [fst snd]. rewrite ret_run.
  assert (List.concat (map (λ r : row, (map_to_list r).*2)
            (map (λ kv : string * value, {[ kv.1 := kv.2 ]}) answer)) = answer.*2) as ->;
    [|done].
  clear He. induction answer as [|[k v] answer IH]; [done|].
  cbn [map List.concat fmap list_fmap]. rewrite IH.
  by rewrite map_to_list_singleton.
Qed.

End RecoverEdges.

(** ** Invariants of a run *)

Section Respects.
Context `{P : Platform} (R : world → world → Prop).
Hypothesis R_refl : ∀ w, R w w.
Hypothesis R_trans : ∀ w1 w2 w3, R w1 w2 → R w2 w3 → R w1 w3.

Lemma respects_still {A} (m : M A) : (∀ w, (m w).2 = w) → respects R m.
Proof. intros H w. by rewrite H. Qed.

Lemma respects_bind {A B} (m : M A) (k : A → M B) :
  respects R m → (∀ a, respects R (k a)) → respects R (m ≫= k).
Proof.
  intros Hm Hk w. rewrite bind_run. specialize (Hm w).
  destruct (m w) as [[a|e] w1]; [|done]. eapply R_trans; [exact Hm|apply Hk].
Qed.

Lemma respects_for_each {A} (l : list A) (body : A → M unit) :
  (∀ x, respects R (body x)) → respects R (for_each l body).
Proof.
  intros Hb. induction l as [|x l IH]; [by apply respects_still|].
  simpl. apply respects_bind; [apply Hb|by intros _].
Qed.


Lemma respects_getitem (d : row) k : respects R (getitem d k).
Proof. apply respects_still. intros w. unfold getitem. by destruct (d !! k). Qed.

Lemma respects_getitem_value (d : row) k : respects R (getitem_value d k).
Proof. destruct k; try by apply respects_still. apply respects_getitem. Qed.


Hypothesis R_execute : ∀ stmt data, respects R (cursor_execute stmt data).




Hypothesis R_mkdir : ∀ path, respects R (os_mkdir path).
Hypothesis R_open_w : ∀ path, respects R (open_w path).
Hypothesis R_file_write : ∀ path v, respects R (file_write path v).

Lemma respects_dump_column_dirs table_dir columns :
  respects R (dump_column_dirs table_dir columns).
Proof.
  apply respects_for_each. intros c.
  apply respects_bind; [apply respects_getitem|intros ty].
  destruct (value_in ty LONG_COLUMN); [|by apply respects_still].
  apply respects_bind; [apply respects_getitem|intros field]. apply R_mkdir.
Qed.

Lemma respects_dump_cells table_dir i r columns text_list :
  respects R (dump_cells table_dir i r columns text_list).
Proof.
  revert text_list. induction columns as [|c columns IH]; intros tl;
    [by apply respects_still|].
  cbn [dump_cells]. apply respects_bind; [apply respects_getitem|intros ty].
  destruct (value_in ty LONG_COLUMN).
  - apply respects_bind; [apply respects_getitem|intros field].
    apply respects_bind; [apply R_open_w|intros _].
    apply respects_bind; [apply respects_getitem|intros key].
    apply respects_bind; [apply respects_getitem_value|intros v].
    apply respects_bind; [apply R_file_write|intros _]. apply IH.
  - apply respects_bind; [apply respects_getitem|intros key].
    apply respects_bind; [apply respects_getitem_value|intros v]. apply IH.
Qed.

Lemma respects_dump_rows table_dir columns i rs rows :
  respects R (dump_rows table_dir columns i rs rows).
Proof.
  revert i rows. induction rs as [|r rs IH]; intros i rows; [by apply respects_still|].
  cbn [dump_rows]. apply respects_bind; [apply respects_dump_cells|intros tl]. apply IH.
Qed.

(** What [dump_table] does once the table directory is made. *)
Lemma respects_dump_table_files table_dir table_name :
  respects R
    (open_w (os_path_join table_dir "create_table.sql");;
     stmt ← get_create_table_stmt table_name;
     file_write (os_path_join table_dir "create_table.sql") stmt;;
     open_w (os_path_join table_dir "desc_table.yaml");;
     columns ← get_columns table_name;
     file_write (os_path_join table_dir "desc_table.yaml") (VStr (yaml_dump columns));;
     dump_column_dirs table_dir columns;;
     rs ← get_rows table_name;
     rows ← dump_rows table_dir columns 0 rs "";
     open_w (os_path_join table_dir "rows.txt");;
     file_write (os_path_join table_dir "rows.txt") (VStr rows)).
Proof.
  apply respects_bind; [apply R_open_w|intros _].
  apply respects_bind.
  { unfold get_create_table_stmt. apply respects_bind; [apply R_execute|].
    intros [|result rest]; [by apply respects_still|apply respects_getitem]. }
  intros stmt.
  apply respects_bind; [apply R_file_write|intros _].
  apply respects_bind; [apply R_open_w|intros _].
  apply respects_bind; [apply R_execute|intros columns].
  apply respects_bind; [apply R_file_write|intros _].
  apply respects_bind; [apply respects_dump_column_dirs|intros _].
  apply respects_bind; [apply R_execute|intros rs].
  apply respects_bind; [apply respects_dump_rows|intros rows].
  apply respects_bind; [apply R_open_w|intros _].
  apply R_file_write.
Qed.

Lemma respects_dump_table table_dir table_name :
  respects R (dump_table table_dir table_name).
Proof.
  unfold dump_table. apply respects_bind; [apply R_mkdir|intros _].
  apply respects_dump_table_files.
Qed.


Hypothesis R_rmtree : ∀ path, respects R (shutil_rmtree path).
Hypothesis R_remove : ∀ path, respects R (os_remove path).



End Respects.

Section WellFormed.
Context `{P : Platform}.













End WellFormed.

Section TableDirectories.
Context `{P : Platform}.

Let dirs_kept (w w' : world) : Prop :=
  ∀ q, w_fs w !! q = Some Dir → w_fs w' !! q = Some Dir.

Lemma dirs_kept_os_mkdir path : respects dirs_kept (os_mkdir path).
Proof.
  intros w q Hq. unfold os_mkdir.
  destruct (fs_node _ (resolve path)) eqn:E; [done|].
  destruct (fs_node _ (removelast _)) as [[]|]; [done| |done]. cbn [snd set_fs w_fs].
  destruct (decide (resolve path = q)) as [->|Hne]; [by rewrite lookup_insert_eq|].
  by rewrite lookup_insert_ne.
Qed.

Lemma dirs_kept_insert_file (f : fs) (p q : list string) (c : string) :
  fs_node f p ≠ Some Dir → f !! q = Some Dir → <[p := File c]> f !! q = Some Dir.
Proof.
  intros Hp Hq. rewrite lookup_insert_ne; [done|]. intros ->.
  destruct q; [done|]. by rewrite fs_node_ne in Hp.
Qed.

Lemma dirs_kept_open_w path : respects dirs_kept (open_w path).
Proof.
  intros w q Hq. unfold open_w.
  destruct (fs_node _ (resolve path)) as [[c|]|] eqn:E; [|done|].
  - apply dirs_kept_insert_file; [by rewrite E|done].
  - destruct (fs_node _ (removelast _)) as [[]|]; [done| |done].
    apply dirs_kept_insert_file; [by rewrite E|done].
Qed.

Lemma dirs_kept_file_write path v : respects dirs_kept (file_write path v).
Proof.
  intros w q Hq. unfold file_write. destruct v as [| |s]; [done..|].
  destruct (w_fs w !! resolve path) as [[c|]|] eqn:E; [|done..]. cbn [snd set_fs w_fs].
  rewrite lookup_insert_ne; [done|]. intros Heq. rewrite Heq in E. congruence.
Qed.

Lemma dirs_kept_dump_table table_dir table_name w w' :
  dump_table table_dir table_name w = (Ok tt, w') →
  fs_node (w_fs w') (resolve table_dir) = Some Dir ∧ dirs_kept w w'.
Proof.
  intros H.
  assert (Hrefl : ∀ w0, dirs_kept w0 w0) by (by intros w0 q Hq).
  assert (Htrans : ∀ w1 w2 w3, dirs_kept w1 w2 → dirs_kept w2 w3 → dirs_kept w1 w3).
  { intros w1 w2 w3 H12 H23 q Hq. by apply H23, H12. }
  assert (Hexec : ∀ stmt data, respects dirs_kept (cursor_execute stmt data)).
  { intros stmt data w0. rewrite cursor_execute_run. by intros q Hq. }
  split.
  - unfold dump_table in H. inv_bind H.
    apply os_mkdir_Ok_inv in Hstep as (Hnone & _ & ->).
    pose proof (respects_dump_table_files dirs_kept Hrefl Htrans Hexec dirs_kept_os_mkdir
      dirs_kept_open_w dirs_kept_file_write table_dir table_name
      (set_fs (<[resolve table_dir := Dir]> (w_fs w)) w) (resolve table_dir)) as Hkept.
    rewrite H in Hkept. cbn [snd set_fs w_fs] in Hkept.
    rewrite lookup_insert_eq in Hkept. specialize (Hkept eq_refl).
    destruct (resolve table_dir); [done|]. done.
  - pose proof (respects_dump_table dirs_kept Hrefl Htrans Hexec dirs_kept_os_mkdir
      dirs_kept_open_w dirs_kept_file_write table_dir table_name w) as Hkept.
    by rewrite H in Hkept.
Qed.

Lemma dump_tables_directories data_dir (tables : list value) w w' :
  for_each tables (λ table,
    match table with
    | VStr name => dump_table (os_path_join data_dir name) name
    | _ => raise TypeError
    end) w = (Ok tt, w') →
  dirs_kept w w' ∧
  ∀ table, table ∈ tables →
    ∃ name, table = VStr name ∧
      fs_node (w_fs w') (resolve (os_path_join data_dir name)) = Some Dir.
Proof.
  revert w. induction tables as [|t tables IH]; intros w H.
  { injection H as <-. split; [by intros q Hq|]. by intros table ?%elem_of_nil. }
  cbn [for_each] in H. inv_bind H.
  destruct t as [| |name]; [done..|].
  destruct a. apply dirs_kept_dump_table in Hstep as [Hdir Hkept].
  apply IH in H as [Hkept' Hall]. split.
  - intros q Hq. by apply Hkept', Hkept.
  - intros table [->|Hin]%elem_of_cons; [|by apply Hall].
    exists name. split; [done|].
    destruct (resolve (os_path_join data_dir name)) as [|x l] eqn:E; [done|].
    cbn [fs_node] in *. by apply Hkept'.
Qed.

(** X17.  After a successful [dump] every table that [show tables]
    listed has its directory under the dataset root: each listed value
    is a string, and the path made of the root and that name is a
    directory. *)
Theorem dump_leaves_table_directories (data_dir : string) (w w' : world) :
  dump data_dir w = (Ok tt, w') →
  ∃ w0 tables w1,
    dump_prepare data_dir w = (Ok tt, w0) ∧
    get_table_names w0 = (Ok tables, w1) ∧
    ∀ table, table ∈ tables →
      ∃ name, table = VStr name ∧
        fs_node (w_fs w') (resolve (os_path_join data_dir name)) = Some Dir.
Proof.
  intros H. unfold dump in H. inv_bind H. destruct a.
  unfold try_except in H.
  destruct ((connection;; dump_tables data_dir) w0) as [[u|e] w2] eqn:Hbody.
  2:{ by destruct (is_ConnectionError e). }
  destruct u. injection H as ->. inv_bind Hbody.
  rewrite connection_run in Hstep0.
  assert (w1 = w0) as -> by (by destruct connection_failure; injection Hstep0).
  unfold dump_tables in Hbody. inv_bind Hbody.
  exists w0, a0, w1. split_and!; [done..|].
  apply dump_tables_directories in Hbody as [_ Hall]. exact Hall.
Qed.

End TableDirectories.

(** ** The further properties on concrete runs *)

Lemma dump_connection_failure_witness :
  let w := @World Examples.unconfigured {[ ["data"] := File "old" ]} [] [] in
  dump (P := Examples.unconfigured) "data" w
  = (Raise (SystemExit 1), (dump_prepare (P := Examples.unconfigured) "data" w).2).
Proof.
  intros w.
  refine (proj1 (dump_connection_failure (P := Examples.unconfigured) "data" w
    (dump_prepare (P := Examples.unconfigured) "data" w).2
    (ConnectionError "Missing config: No module named 'config'") _ _)).
  - refine (run_Ok (P := Examples.unconfigured) (dump_prepare "data") w tt _).
    vm_compute. reflexivity.
  - reflexivity.
Defined.

Lemma recover_before_first_table_witness :
  let w := @World Examples.unconfigured {[ ["data"] := Dir ]} [] [] in
  recover (P := Examples.unconfigured) "data" (@World Examples.unconfigured ∅ [] [])
  = (Raise (not_a_directory "data"), @World Examples.unconfigured ∅ [] []) ∧
  recover (P := Examples.unconfigured) "data" w = (Raise (SystemExit 1), w).
Proof.
  intros w. split.
  - refine (proj1 (recover_before_first_table (P := Examples.unconfigured) "data" _) _).
    vm_compute. discriminate.
  - refine (proj2 (recover_before_first_table (P := Examples.unconfigured) "data" w)
      (ConnectionError "Missing config: No module named 'config'") _ _).
    + vm_compute. reflexivity.
    + reflexivity.
Defined.

Lemma main_writes_only_on_dump_witness :
  main (P := Reference.platform) "status" Examples.users_world
  = (Ok tt, Examples.users_world).
Proof.
  refine (proj2 (main_writes_only_on_dump (P := Reference.platform) "status"
    Examples.users_world _) _); discriminate.
Defined.

Lemma dump_table_existing_directory_witness :
  let w := @World Reference.platform {[ ["users"] := Dir ]} [("users", Examples.users)] [] in
  dump_table "users" "users" w = (Raise (FileExistsError "users"), w).
Proof.
  intros w.
  refine (dump_table_existing_directory (P := Reference.platform) "users" "users" w Dir _).
  vm_compute. reflexivity.
Defined.

Lemma dump_table_succeeds_witness :
  let columns := map Reference.descriptor (Reference.t_columns Examples.users) in
  dump_table (P := Reference.platform) "users" "users" Examples.users_world
  = (Ok tt,
     World (dataset_of "users" (Reference.t_create Examples.users) columns
              (Reference.t_rows Examples.users) ∅)
       [("users", Examples.users)] (dump_queries "users")).
Proof.
  intros columns.
  refine (dump_table_succeeds (P := Reference.platform) "users" "users"
    (Reference.t_create Examples.users) columns (Reference.t_rows Examples.users)
    [("users", Examples.users)] Examples.users_world _ _ _ _ _ _ _ _).
  - apply map_Forall_empty.
  - vm_compute. reflexivity.
  - reflexivity.
  - vm_compute. reflexivity.
  - repeat (constructor; [split; [by eexists|intros _; by eexists]|]). constructor.
  - vm_compute. reflexivity.
  - vm_compute. apply NoDup_singleton.
  - repeat (constructor;
      [repeat (constructor; [do 2 eexists; split; reflexivity|]); constructor|]).
    constructor.
Defined.

Lemma dump_table_without_create_statement_witness :
  dump_table (P := Reference.platform) "ghost" "ghost" (@World Reference.platform ∅ [] [])
  = (Raise (Reference.no_such_table "ghost"),
     @World Reference.platform
       (<[ ["ghost"; "create_table.sql"] := File "" ]> (<[ ["ghost"] := Dir ]> ∅)) []
       [("show create table ghost", None)]).
Proof.
  refine (proj1 (dump_table_without_create_statement (P := Reference.platform)
    "ghost" "ghost" (@World Reference.platform ∅ [] []) _ _ _) _ _).
  - apply map_Forall_empty.
  - vm_compute. reflexivity.
  - reflexivity.
  - vm_compute. reflexivity.
Defined.

Lemma recover_table_drops_first_witness :
  let w := @World Reference.platform {[ ["users"] := Dir ]} [("users", Examples.users)] [] in
  let w1 := (drop_table_if_exists "users" w).2 in
  recover_table "users" "users" w
  = (Raise (FileNotFoundError (os_path_join "users" "create_table.sql")), w1) ∧
  w_sent w1 = w_sent w ++ [("DROP TABLE " +:+ "users", None)] ∧
  w_db w1 = (engine (w_db w) ("DROP TABLE " +:+ "users") None).2.
Proof.
  intros w w1.
  refine (recover_table_drops_first (P := Reference.platform) "users" "users" w w1 _ _ _).
  - vm_compute. reflexivity.
  - vm_compute. reflexivity.
  - refine (run_Ok (P := Reference.platform) (drop_table_if_exists "users") w tt _).
    vm_compute. reflexivity.
Defined.

Lemma dump_table_stays_in_its_directory_witness :
  let w := @World Reference.platform {[ ["notes.txt"] := File "keep" ]}
             [("users", Examples.users)] [] in
  w_fs (dump_table "users" "users" w).2 !! ["notes.txt"] = w_fs w !! ["notes.txt"].
Proof.
  intros w.
  refine (dump_table_stays_in_its_directory (P := Reference.platform) "users" "users"
    w (dump_table "users" "users" w).2 (Reference.t_create Examples.users)
    (map Reference.descriptor (Reference.t_columns Examples.users))
    (Reference.t_rows Examples.users)
    [("users", Examples.users)] ["notes.txt"] _ _ _ _).
  - refine (run_Ok (P := Reference.platform) (dump_table "users" "users") w tt _).
    vm_compute. reflexivity.
  - vm_compute. reflexivity.
  - vm_compute. reflexivity.
  - intros [l Hl]. vm_compute in Hl. discriminate Hl.
Defined.

Lemma dump_table_directory_entries_witness :
  let w1 := (dump_table (P := Reference.platform) "users" "users" Examples.users_world).2 in
  w_fs w1 !! (resolve "users" ++ "column_bio" :: "0.txt" :: "more" :: []) = None.
Proof.
  intros w1.
  refine (proj2 (proj2 (dump_table_directory_entries (P := Reference.platform)
    "users" "users" Examples.users_world w1 (Reference.t_create Examples.users)
    (map Reference.descriptor (Reference.t_columns Examples.users))
    (Reference.t_rows Examples.users)
    [("users", Examples.users)] _ _ _ _)) "column_bio" "0.txt" "more" []).
  - refine (run_Ok (P := Reference.platform) (dump_table "users" "users")
      Examples.users_world tt _).
    vm_compute. reflexivity.
  - vm_compute. reflexivity.
  - vm_compute. reflexivity.
  - apply map_Forall_empty.
Defined.

Lemma dump_table_keeps_string_forms_witness :
  let w' := @World Reference.platform ∅ [("users", Examples.users_none)] [] in
  w_fs (dump_table (P := Reference.platform) "users" "users" Examples.users_world).2
  = w_fs (dump_table (P := Reference.platform) "users" "users" w').2.
Proof.
  intros w'.
  refine (dump_table_keeps_string_forms (P := Reference.platform) "users" "users"
    Examples.users_world w'
    (dump_table (P := Reference.platform) "users" "users" Examples.users_world).2
    (dump_table (P := Reference.platform) "users" "users" w').2
    (Reference.t_create Examples.users)
    (map Reference.descriptor (Reference.t_columns Examples.users))
    (Reference.t_rows Examples.users) (Reference.t_rows Examples.users_none)
    [("users", Examples.users)] [("users", Examples.users_none)] _ _ _ _ _ _).
  - refine (run_Ok (P := Reference.platform) (dump_table "users" "users")
      Examples.users_world tt _).
    vm_compute. reflexivity.
  - refine (run_Ok (P := Reference.platform) (dump_table "users" "users") w' tt _).
    vm_compute. reflexivity.
  - reflexivity.
  - vm_compute. reflexivity.
  - vm_compute. reflexivity.
  - unfold Examples.users, Examples.users_none. cbn [Reference.t_rows].
    constructor; [done|]. constructor; [|constructor].
    intros f.
    destruct (decide (f = "id")) as [->|Hid]; [by rewrite !lookup_insert_eq|].
    rewrite !(lookup_insert_ne _ "id") by done.
    destruct (decide (f = "name")) as [->|Hname]; [by rewrite !lookup_insert_eq|].
    rewrite !(lookup_insert_ne _ "name") by done.
    destruct (decide (f = "bio")) as [->|Hbio]; [by rewrite !lookup_singleton_eq|].
    by rewrite !lookup_singleton_ne.
Defined.


Lemma recover_line_needs_every_sidecar_witness :
  let line := "[" +:+ dquote +:+ "2" +:+ dquote +:+ ", " +:+ dquote +:+ "_" +:+ dquote +:+ "]" in
  let w := @World Reference.platform {[ ["t"] := Dir ]} [] [] in
  ∃ e, recover_line "t" {[ 1 := "column_bio" ]} "INSERT INTO t VALUE (%s, %s)" 0 line w
       = (Raise e, w).
Proof.
  intros line w.
  refine (recover_line_needs_every_sidecar (P := Reference.platform) "t"
    {[ 1 := "column_bio" ]} "INSERT INTO t VALUE (%s, %s)" 0 line
    [VStr "2"; VStr "_"] 1 "column_bio" w _ _ _ _).
  - vm_compute. reflexivity.
  - simpl. lia.
  - reflexivity.
  - intros c. vm_compute. discriminate.
Defined.

Lemma get_table_names_one_per_row_witness :
  get_table_names (P := Reference.platform) Examples.users_world
  = (Ok [VStr "users"],
     World ∅ [("users", Examples.users)] [("show tables", None)]).
Proof.
  refine (get_table_names_one_per_row (P := Reference.platform)
    [("Tables_in_db", VStr "users")] [("users", Examples.users)] Examples.users_world _).
  reflexivity.
Defined.


Lemma dump_leaves_table_directories_witness :
  let w' := (dump (P := Reference.platform) "data" Examples.users_world).2 in
  ∃ w0 tables w1,
    dump_prepare "data" Examples.users_world = (Ok tt, w0) ∧
    get_table_names w0 = (Ok tables, w1) ∧
    ∀ table, table ∈ tables →
      ∃ name, table = VStr name ∧
        fs_node (w_fs w') (resolve (os_path_join "data" name)) = Some Dir.
Proof.
  intros w'.
  refine (dump_leaves_table_directories (P := Reference.platform) "data"
    Examples.users_world w' _).
  refine (run_Ok (P := Reference.platform) (dump "data") Examples.users_world tt _).
  vm_compute. reflexivity.
Defined.
